(** * CloudPath: discovery, classification, assessment and sync start-up

    A shallow embedding of the server side of the PowerCenter migration
    tool: the discovery service ([server/powercenter-service.ts]), the
    in-memory storage ([MemStorage]) and the routes that drive them
    (discover, assess, start-sync, create project), followed by the
    properties of the design document that were checked against them.

    JavaScript values are modelled as the code uses them: a [number] is an
    IEEE-754 binary64 value (Rocq's primitive [float], so [0 / 0] is [NaN]
    and [2 / 3 * 100] is the double the runtime computes), a string is a
    [string] whose characters are the code units U+0000 to U+00FF (texts
    with a code unit above U+00FF are outside the model), a [Map] is an
    insertion-ordered association list, an optional property is an
    [option]. *)

From Stdlib Require Import ZArith List Bool Ascii String DecimalString Lia Permutation.
From Stdlib Require Import PrimFloat FloatOps SpecFloat Uint63.
From Stdlib Require FloatAxioms.
Import ListNotations.

Local Open Scope string_scope.
Local Open Scope list_scope.

(* ================================================================== *)
(** ** JavaScript numbers and strings *)
(* ================================================================== *)

Module Js.

Definition number := float.

(** An array length, or another integer below 2^53, as a [number]. *)
Definition of_Z (z : Z) : number :=
  match z with
  | Z0 => 0%float
  | Zpos _ => PrimFloat.of_uint63 (Uint63.of_Z z)
  | Zneg p => PrimFloat.opp (PrimFloat.of_uint63 (Uint63.of_Z (Zpos p)))
  end.

Definition of_nat (n : nat) : number := of_Z (Z.of_nat n).

(** A zero of the sign of the number that was rounded. *)
Definition zero_like (negative : bool) : number :=
  if negative then neg_zero else 0%float.

Definition signed (negative : bool) (m : positive) : Z :=
  if negative then Zneg m else Zpos m.

(** [Math.max(a, b)]: [NaN] when either is, [+0] above [-0]. *)
Definition Math_max (a b : number) : number :=
  if PrimFloat.is_nan a || PrimFloat.is_nan b then nan
  else if PrimFloat.ltb a b then b
  else if PrimFloat.ltb b a then a
  else if PrimFloat.get_sign a then b else a.

(** [Math.round(x)]: the integer nearest to [x], a tie going up;
    [NaN], the infinities and the zeros are returned unchanged. *)
Definition Math_round (x : number) : number :=
  match Prim2SF x with
  | S754_finite s m e =>
      if (0 <=? e)%Z then x
      else
        let d := (2 ^ (- e))%Z in
        let r := ((2 * signed s m + d) / (2 * d))%Z in
        if (r =? 0)%Z then zero_like s else of_Z r
  | _ => x
  end.

(** [Math.ceil(x)]: the least integer not below [x]. *)
Definition Math_ceil (x : number) : number :=
  match Prim2SF x with
  | S754_finite s m e =>
      if (0 <=? e)%Z then x
      else
        let d := (2 ^ (- e))%Z in
        let r := (- ((- signed s m) / d))%Z in
        if (r =? 0)%Z then zero_like s else of_Z r
  | _ => x
  end.

(** The white space and line terminators [String.prototype.trim]
    removes, among the code units below U+0100: TAB, LF, VT, FF, CR,
    the space and the no-break space U+00A0. *)
Definition is_space (c : ascii) : bool :=
  let n := nat_of_ascii c in
  Nat.eqb n 32 || Nat.eqb n 160 || (Nat.leb 9 n && Nat.leb n 13).

Fixpoint trimStart (s : string) : string :=
  match s with
  | String c s' => if is_space c then trimStart s' else s
  | EmptyString => EmptyString
  end.

Fixpoint trimEnd (s : string) : string :=
  match s with
  | String c s' =>
      match trimEnd s' with
      | EmptyString => if is_space c then EmptyString else String c EmptyString
      | t => String c t
      end
  | EmptyString => EmptyString
  end.

Definition trim (s : string) : string := trimEnd (trimStart s).

(** A string is truthy when it is not empty. *)
Definition truthy (s : string) : bool :=
  match s with EmptyString => false | _ => true end.

(** [hay.includes(needle)]. *)
Fixpoint includes (hay needle : string) : bool :=
  String.prefix needle hay
  || match hay with
     | String _ hay' => includes hay' needle
     | EmptyString => false
     end.

(** [s.split(sep)] for a separator of one character: never empty. *)
Fixpoint split (sep : ascii) (s : string) : list string :=
  match s with
  | EmptyString => [EmptyString]
  | String c s' =>
      if Ascii.eqb c sep then EmptyString :: split sep s'
      else
        match split sep s' with
        | part :: parts => String c part :: parts
        | [] => [String c EmptyString]
        end
  end.

Definition LF : ascii := ascii_of_nat 10.
Definition TAB : ascii := ascii_of_nat 9.

(** [a || b] on strings: [b] when [a] is empty. *)
Definition or_else (a b : string) : string := if truthy a then a else b.

(** [parts[i]?.trim() || dflt]. *)
Definition trimmed_or (parts : list string) (i : nat) (dflt : string) : string :=
  match nth_error parts i with
  | Some p => or_else (trim p) dflt
  | None => dflt
  end.

End Js.

(* ================================================================== *)
(** ** Data model of the discovery service
       ([server/powercenter-service.ts], [shared/schema.ts]) *)
(* ================================================================== *)

Inductive Complexity := SIMPLE | MEDIUM | COMPLEX.
Inductive MigrationStatus := FULLY_AUTO | PARTIAL | MANUAL_REDESIGN.
Inductive ObjectType :=
  WORKFLOW | MAPPING | SESSION | TRANSFORMATION | SOURCE | TARGET.
Inductive ConnectionType := REST_API | PMREP.
Inductive ProjectStatus :=
  DISCOVERY | ASSESSMENT | MIGRATION | PROJECT_COMPLETED.
Inductive SyncType := FULL | INCREMENTAL.
Inductive SyncState := SYNCING | COMPLETED | FAILED.

(** A record of a REST answer, typed [any] in the source: the scalar
    properties the getters copy, and the array properties, each of which
    may be missing. *)
Record RawRecord := {
  raw_name : string;
  raw_folder : string;
  raw_isValid : bool;
  raw_type : string;
  raw_mappingName : string;
  raw_sessionType : string;
  raw_connectionName : string;
  raw_sessions : option (list string);
  raw_dependencies : option (list string);
  raw_transformations : option (list string);
  raw_sources : option (list string);
  raw_targets : option (list string);
  raw_expressions : option (list string)
}.

(** [metadata: any]: the raw record (REST) or [{ rawOutput: line }] (pmrep). *)
Inductive Metadata :=
| MetaRecord (r : RawRecord)
| MetaRawOutput (line : string).

Record PowerCenterWorkflow := {
  wf_name : string;
  wf_folder : string;
  wf_isValid : bool;
  wf_sessions : list string;
  wf_dependencies : list string;
  wf_complexity : Complexity;
  wf_metadata : Metadata
}.

Record PowerCenterMapping := {
  mp_name : string;
  mp_folder : string;
  mp_transformations : list string;
  mp_sources : list string;
  mp_targets : list string;
  mp_complexity : Complexity;
  mp_metadata : Metadata
}.

Record PowerCenterSession := {
  ss_name : string;
  ss_folder : string;
  ss_mappingName : string;
  ss_sessionType : string;
  ss_metadata : Metadata
}.

Record PowerCenterTransformation := {
  tr_name : string;
  tr_folder : string;
  tr_type : string;
  tr_mappingName : string;
  tr_expressions : list string;
  tr_metadata : Metadata
}.

Record PowerCenterSource := {
  src_name : string;
  src_folder : string;
  src_type : string;
  src_connectionName : string;
  src_metadata : Metadata
}.

Record PowerCenterTarget := {
  tgt_name : string;
  tgt_folder : string;
  tgt_type : string;
  tgt_connectionName : string;
  tgt_metadata : Metadata
}.

Record PowerCenterDiscoveryResult := {
  workflows : list PowerCenterWorkflow;
  mappings : list PowerCenterMapping;
  sessions : list PowerCenterSession;
  transformations : list PowerCenterTransformation;
  sources : list PowerCenterSource;
  targets : list PowerCenterTarget
}.

Record RepositoryConnection := {
  conn_id : string;
  conn_name : string;
  conn_hostname : string;
  conn_port : N;
  conn_repositoryName : string;
  conn_username : string;
  conn_isActive : bool;
  conn_connectionType : ConnectionType
}.

(** [x || []] on an optional array. *)
Definition or_empty (x : option (list string)) : list string :=
  match x with Some l => l | None => [] end.

(** [x?.length || 0]. *)
Definition length_or_0 (x : option (list string)) : nat :=
  match x with Some l => List.length l | None => 0 end.

(* ------------------------------------------------------------------ *)
(** *** [calculateComplexity] *)

Definition componentCount (object : RawRecord) : nat :=
  length_or_0 (raw_transformations object)
  + length_or_0 (raw_sessions object)
  + length_or_0 (raw_dependencies object).

Definition calculateComplexity (object : RawRecord) : Complexity :=
  if Nat.eqb (componentCount object) 0 then SIMPLE
  else if Nat.leb (componentCount object) 5 then MEDIUM
  else COMPLEX.

(* ------------------------------------------------------------------ *)
(** *** The bodies of the REST getters: [data.<kind>?.map(...) || []] *)

Definition workflowOfRaw (wf : RawRecord) : PowerCenterWorkflow :=
  {| wf_name := raw_name wf;
     wf_folder := raw_folder wf;
     wf_isValid := raw_isValid wf;
     wf_sessions := or_empty (raw_sessions wf);
     wf_dependencies := or_empty (raw_dependencies wf);
     wf_complexity := calculateComplexity wf;
     wf_metadata := MetaRecord wf |}.

Definition mappingOfRaw (mapping : RawRecord) : PowerCenterMapping :=
  {| mp_name := raw_name mapping;
     mp_folder := raw_folder mapping;
     mp_transformations := or_empty (raw_transformations mapping);
     mp_sources := or_empty (raw_sources mapping);
     mp_targets := or_empty (raw_targets mapping);
     mp_complexity := calculateComplexity mapping;
     mp_metadata := MetaRecord mapping |}.

Definition sessionOfRaw (session : RawRecord) : PowerCenterSession :=
  {| ss_name := raw_name session;
     ss_folder := raw_folder session;
     ss_mappingName := raw_mappingName session;
     ss_sessionType := raw_sessionType session;
     ss_metadata := MetaRecord session |}.

Definition transformationOfRaw (trans : RawRecord) : PowerCenterTransformation :=
  {| tr_name := raw_name trans;
     tr_folder := raw_folder trans;
     tr_type := raw_type trans;
     tr_mappingName := raw_mappingName trans;
     tr_expressions := or_empty (raw_expressions trans);
     tr_metadata := MetaRecord trans |}.

Definition sourceOfRaw (source : RawRecord) : PowerCenterSource :=
  {| src_name := raw_name source;
     src_folder := raw_folder source;
     src_type := raw_type source;
     src_connectionName := raw_connectionName source;
     src_metadata := MetaRecord source |}.

Definition targetOfRaw (target : RawRecord) : PowerCenterTarget :=
  {| tgt_name := raw_name target;
     tgt_folder := raw_folder target;
     tgt_type := raw_type target;
     tgt_connectionName := raw_connectionName target;
     tgt_metadata := MetaRecord target |}.

(** [records?.map(f) || []]. *)
Definition mapRecords {A} (f : RawRecord -> A) (records : option (list RawRecord))
  : list A :=
  match records with Some l => List.map f l | None => [] end.

(* ------------------------------------------------------------------ *)
(** *** Parsers of the pmrep listings *)

(** [output.split('\n').filter(line => line.trim())]. *)
Definition pmrepLines (output : string) : list string :=
  List.filter (fun line => Js.truthy (Js.trim line)) (Js.split Js.LF output).

(** The loop shared by the six parsers: a line is kept when it includes
    the keyword and has at least [minParts] tab-separated parts. *)
Definition parsePmrepLines {A} (keyword : string) (minParts : nat)
    (build : string -> list string -> A) (output : string) : list A :=
  List.flat_map
    (fun line =>
       if Js.includes line keyword then
         let parts := Js.split Js.TAB line in
         if Nat.leb minParts (List.length parts) then [build line parts] else []
       else [])
    (pmrepLines output).

(** [parts[i].trim()] for an index known to be in range. *)
Definition part (parts : list string) (i : nat) : string :=
  Js.trim (nth i parts EmptyString).

Definition parsePmrepWorkflowOutput : string -> list PowerCenterWorkflow :=
  parsePmrepLines "workflow" 3 (fun line parts =>
    {| wf_name := part parts 0;
       wf_folder := part parts 1;
       wf_isValid := String.eqb (part parts 2) "valid";
       wf_sessions := [];
       wf_dependencies := [];
       wf_complexity := MEDIUM;
       wf_metadata := MetaRawOutput line |}).

Definition parsePmrepMappingOutput : string -> list PowerCenterMapping :=
  parsePmrepLines "mapping" 2 (fun line parts =>
    {| mp_name := part parts 0;
       mp_folder := part parts 1;
       mp_transformations := [];
       mp_sources := [];
       mp_targets := [];
       mp_complexity := MEDIUM;
       mp_metadata := MetaRawOutput line |}).

Definition parsePmrepSessionOutput : string -> list PowerCenterSession :=
  parsePmrepLines "session" 2 (fun line parts =>
    {| ss_name := part parts 0;
       ss_folder := part parts 1;
       ss_mappingName := Js.trimmed_or parts 2 EmptyString;
       ss_sessionType := "session";
       ss_metadata := MetaRawOutput line |}).

Definition parsePmrepTransformationOutput : string -> list PowerCenterTransformation :=
  parsePmrepLines "transformation" 3 (fun line parts =>
    {| tr_name := part parts 0;
       tr_folder := part parts 1;
       tr_type := Js.trimmed_or parts 2 "unknown";
       tr_mappingName := Js.trimmed_or parts 3 EmptyString;
       tr_expressions := [];
       tr_metadata := MetaRawOutput line |}).

Definition parsePmrepSourceOutput : string -> list PowerCenterSource :=
  parsePmrepLines "source" 3 (fun line parts =>
    {| src_name := part parts 0;
       src_folder := part parts 1;
       src_type := Js.trimmed_or parts 2 "unknown";
       src_connectionName := Js.trimmed_or parts 3 EmptyString;
       src_metadata := MetaRawOutput line |}).

Definition parsePmrepTargetOutput : string -> list PowerCenterTarget :=
  parsePmrepLines "target" 3 (fun line parts =>
    {| tgt_name := part parts 0;
       tgt_folder := part parts 1;
       tgt_type := Js.trimmed_or parts 2 "unknown";
       tgt_connectionName := Js.trimmed_or parts 3 EmptyString;
       tgt_metadata := MetaRawOutput line |}).

(* ------------------------------------------------------------------ *)
(** *** [assessMigrationComplexity]

    The aggregator takes [objects: any[]] and reads three properties of
    each object: [type], [name] and [expressions].  [AnyObject] is that
    view of a JavaScript object; a property the object does not have is
    [None]. *)

Record AnyObject := {
  any_type : option string;
  any_name : option string;
  any_expressions : option (list string)
}.

Definition anyOfWorkflow (wf : PowerCenterWorkflow) : AnyObject :=
  {| any_type := None; any_name := Some (wf_name wf); any_expressions := None |}.

Definition anyOfMapping (mapping : PowerCenterMapping) : AnyObject :=
  {| any_type := None; any_name := Some (mp_name mapping); any_expressions := None |}.

Definition anyOfTransformation (trans : PowerCenterTransformation) : AnyObject :=
  {| any_type := Some (tr_type trans);
     any_name := Some (tr_name trans);
     any_expressions := Some (tr_expressions trans) |}.

Record Assessment := {
  complexity : Complexity;
  automationCoverage : Js.number;
  issues : list string
}.

(** [object.type === t]. *)
Definition typeIs (object : AnyObject) (t : string) : bool :=
  match any_type object with Some ty => String.eqb ty t | None => false end.

(** The name as a template literal prints it. *)
Definition nameText (object : AnyObject) : string :=
  match any_name object with Some n => n | None => "undefined" end.

(** [object.expressions?.some(expr => expr.includes('DECODE'))]. *)
Definition hasDecode (object : AnyObject) : bool :=
  match any_expressions object with
  | Some exprs => List.existsb (fun expr => Js.includes expr "DECODE") exprs
  | None => false
  end.

(** One turn of the loop over the objects, on [(issues, automationScore)]. *)
Definition assessObject (acc : list string * Js.number) (object : AnyObject)
  : list string * Js.number :=
  let '(issues, automationScore) := acc in
  let '(issues, automationScore) :=
    if typeIs object "XML_PARSER" then
      (issues ++ [("Unsupported transformation: " ++ nameText object ++ " (XML Parser)")%string],
       automationScore)
    else if typeIs object "MQSERIES" then
      (issues ++ [("Unsupported transformation: " ++ nameText object ++ " (MQSeries)")%string],
       automationScore)
    else (issues, PrimFloat.add automationScore 1%float)
  in
  if hasDecode object then
    (issues ++ [("Complex expression requiring manual conversion: " ++ nameText object)%string],
     PrimFloat.sub automationScore 0.5%float)
  else (issues, automationScore).

Definition assessLoop (objects : list AnyObject) : list string * Js.number :=
  List.fold_left assessObject objects ([], 0%float).

(** The value of [automationScore] when the loop ends. *)
Definition automationScore (objects : list AnyObject) : Js.number :=
  snd (assessLoop objects).

(** [automationCoverage] before it is rounded. *)
Definition rawCoverage (objects : list AnyObject) : Js.number :=
  let totalObjects := Js.of_nat (List.length objects) in
  if PrimFloat.ltb 0%float totalObjects then
    Js.Math_max 0%float
      (PrimFloat.mul (PrimFloat.div (automationScore objects) totalObjects) 100%float)
  else 0%float.

Definition tierOfCoverage (coverage : Js.number) : Complexity :=
  if PrimFloat.ltb 80%float coverage then SIMPLE
  else if PrimFloat.ltb 50%float coverage then MEDIUM
  else COMPLEX.

Definition assessMigrationComplexity (objects : list AnyObject) : Assessment :=
  {| complexity := tierOfCoverage (rawCoverage objects);
     automationCoverage := Js.Math_round (rawCoverage objects);
     issues := fst (assessLoop objects) |}.

(* ================================================================== *)
(** ** Asynchronous calls

    Every async function of the service issues one external call (an HTTP
    request or a child process) as soon as it is invoked, and runs the
    rest of its body when that call settles.  [Call] is such a function
    after its invocation; [await] runs one to its end before anything
    else happens; [all6] is [Promise.all] over an array literal of six
    invocations: the six calls are issued in the order of the array
    before the first one can settle, and then settle in an order the
    outside world chooses.  An [Async] computation returns the state of
    its promise and the trace of the calls it issued. *)
(* ================================================================== *)

Module Async.

Inductive Promise (A : Type) :=
| Fulfilled (value : A)
| Rejected (message : string).
Arguments Fulfilled {A} value.
Arguments Rejected {A} message.

Definition rejection {A} (p : Promise A) : option string :=
  match p with Fulfilled _ => None | Rejected message => Some message end.

Section Calls.
Context {Req Outcome : Type}.

Inductive Event :=
| Issued (request : Req)
| Settled (request : Req).

(** The outside world: what each call is answered with, and the order
    in which calls that are pending together settle (positions in the
    array given to [Promise.all]; a position left out settles after
    those named, in array order). *)
Record World := {
  respond : Req -> Outcome;
  order : list nat
}.

Record Call (A : Type) := {
  request : Req;
  resume : Outcome -> Promise A
}.
Arguments request {A} c.
Arguments resume {A} c o.

Definition Async (A : Type) := World -> Promise A * list Event.

Definition ret {A} (a : A) : Async A := fun _ => (Fulfilled a, []).

Definition throw {A} (message : string) : Async A :=
  fun _ => (Rejected message, []).

Definition bind {A B} (m : Async A) (k : A -> Async B) : Async B :=
  fun w =>
    match m w with
    | (Fulfilled a, trace) =>
        let '(p, trace') := k a w in (p, trace ++ trace')
    | (Rejected message, trace) => (Rejected message, trace)
    end.

(** [try { body } catch (error) { handler(error.message) }]. *)
Definition tryCatch {A} (body : Async A) (handler : string -> Async A)
  : Async A :=
  fun w =>
    match body w with
    | (Fulfilled a, trace) => (Fulfilled a, trace)
    | (Rejected message, trace) =>
        let '(p, trace') := handler message w in (p, trace ++ trace')
    end.

Definition settle {A} (w : World) (c : Call A) : Promise A :=
  resume c (respond w (request c)).

(** [await f(...)]. *)
Definition await {A} (c : Call A) : Async A :=
  fun w => (settle w c, [Issued (request c); Settled (request c)]).

(** A list of positions without its repetitions. *)
Fixpoint distinct (positions : list nat) : list nat :=
  match positions with
  | [] => []
  | i :: rest => i :: List.filter (fun j => negb (Nat.eqb j i)) (distinct rest)
  end.

(** The order in which [n] calls pending together settle. *)
Definition settlement (w : World) (n : nat) : list nat :=
  distinct (List.filter (fun i => Nat.ltb i n) (order w) ++ seq 0 n).

(** The message of the call that is the first to reject. *)
Fixpoint firstRejection (rejections : list (option string))
    (settling : list nat) : option string :=
  match settling with
  | [] => None
  | i :: rest =>
      match nth i rejections None with
      | Some message => Some message
      | None => firstRejection rejections rest
      end
  end.

Definition requestsAt (requests : list Req) (positions : list nat) : list Req :=
  List.flat_map
    (fun i => match nth_error requests i with Some r => [r] | None => [] end)
    positions.

(** The trace of [Promise.all] over calls with these requests. *)
Definition allTrace (w : World) (requests : list Req) : list Event :=
  List.map Issued requests
  ++ List.map Settled (requestsAt requests (settlement w (List.length requests))).

(** [await Promise.all([c1, c2, c3, c4, c5, c6])]. *)
Definition all6 {A1 A2 A3 A4 A5 A6}
    (c1 : Call A1) (c2 : Call A2) (c3 : Call A3)
    (c4 : Call A4) (c5 : Call A5) (c6 : Call A6)
  : Async (A1 * A2 * A3 * A4 * A5 * A6) :=
  fun w =>
    let p1 := settle w c1 in let p2 := settle w c2 in
    let p3 := settle w c3 in let p4 := settle w c4 in
    let p5 := settle w c5 in let p6 := settle w c6 in
    let trace :=
      allTrace w [request c1; request c2; request c3;
                  request c4; request c5; request c6] in
    match firstRejection
            [rejection p1; rejection p2; rejection p3;
             rejection p4; rejection p5; rejection p6]
            (settlement w 6) with
    | Some message => (Rejected message, trace)
    | None =>
        match p1, p2, p3, p4, p5, p6 with
        | Fulfilled v1, Fulfilled v2, Fulfilled v3,
          Fulfilled v4, Fulfilled v5, Fulfilled v6 =>
            (Fulfilled (v1, v2, v3, v4, v5, v6), trace)
        (* not reached: a call that is not fulfilled has a rejection *)
        | _, _, _, _, _, _ => (Rejected EmptyString, trace)
        end
    end.

(** No call is issued while another one is pending. *)
Fixpoint sequentialFrom (pending : nat) (trace : list Event) : bool :=
  match trace with
  | [] => true
  | Issued _ :: rest =>
      match pending with
      | O => sequentialFrom 1 rest
      | S _ => false
      end
  | Settled _ :: rest => sequentialFrom (Nat.pred pending) rest
  end.

Definition sequential (trace : list Event) : bool := sequentialFrom 0 trace.

End Calls.

Arguments Event Req : clear implicits.
Arguments World Req Outcome : clear implicits.
Arguments Call Req Outcome A : clear implicits.
Arguments Async Req Outcome A : clear implicits.
Arguments request {Req Outcome A} c.
Arguments resume {Req Outcome A} c o.

Declare Scope async_scope.
Delimit Scope async_scope with async.
Notation "x <- m ;; k" := (bind m (fun x => k))
  (at level 61, m at next level, right associativity) : async_scope.
Notation "' pat <- m ;; k" := (bind m (fun x => match x with pat => k end))
  (at level 61, pat pattern, m at next level, right associativity) : async_scope.

End Async.

(* ================================================================== *)
(** ** REST discovery *)
(* ================================================================== *)

Module Rest.
Import Async.
Local Open Scope async_scope.

(** What [fetch] is called with. *)
Record HttpRequest := {
  http_method : string;
  http_url : string;
  http_authorization : option string;
  (** the login body: [username] and [repositoryName] *)
  http_body : option (string * string)
}.

(** [result.token] of a parsed body, typed [any] in the source: the
    property is missing, or it is [null], a string, or another JSON
    value (a number, a boolean, an array, an object), kept as the text a
    template literal gives it. *)
Inductive JsonToken :=
| TokenUndefined
| TokenNull
| TokenString (text : string)
| TokenOther (text : string).

(** The parsed body of an answer, typed [any] in the source. *)
Record JsonBody := {
  j_token : JsonToken;
  j_workflows : option (list RawRecord);
  j_mappings : option (list RawRecord);
  j_sessions : option (list RawRecord);
  j_transformations : option (list RawRecord);
  j_sources : option (list RawRecord);
  j_targets : option (list RawRecord)
}.

(** How a [fetch] ends: it rejects (the host cannot be reached), or it
    yields a response with its [ok] flag and what [response.json()]
    gives: the parsed body, or the message it rejects with. *)
Inductive HttpOutcome :=
| NetworkError (message : string)
| Response (ok : bool) (json : JsonBody + string).

Definition World := Async.World HttpRequest HttpOutcome.
Definition Call := Async.Call HttpRequest HttpOutcome.

Definition baseUrlOf (connection : RepositoryConnection) : string :=
  "http://" ++ conn_hostname connection ++ ":"
    ++ NilEmpty.string_of_uint (N.to_uint (conn_port connection)).

(** A token in a template literal: [`${token}`]. *)
Definition tokenText (token : JsonToken) : string :=
  match token with
  | TokenUndefined => "undefined"
  | TokenNull => "null"
  | TokenString text => text
  | TokenOther text => text
  end.

Definition authenticateRest (connection : RepositoryConnection)
  : Call JsonToken :=
  {| request :=
       {| http_method := "POST";
          http_url := baseUrlOf connection ++ "/api/v1/auth/login";
          http_authorization := None;
          http_body := Some (conn_username connection,
                             conn_repositoryName connection) |};
     resume := fun outcome =>
       match outcome with
       | NetworkError message => Rejected message
       | Response ok json =>
           if negb ok then Rejected "Authentication failed"
           else match json with
                | inl result => Fulfilled (j_token result)
                | inr message => Rejected message
                end
       end |}.

(** The shape shared by the six getters. *)
Definition getViaRest {A} (path : string)
    (records : JsonBody -> option (list RawRecord)) (convert : RawRecord -> A)
    (baseUrl : string) (token : JsonToken) : Call (list A) :=
  {| request :=
       {| http_method := "GET";
          http_url := baseUrl ++ path;
          http_authorization := Some ("Bearer " ++ tokenText token)%string;
          http_body := None |};
     resume := fun outcome =>
       match outcome with
       | NetworkError message => Rejected message
       | Response ok json =>
           if negb ok then Fulfilled []
           else match json with
                | inl data => Fulfilled (mapRecords convert (records data))
                | inr message => Rejected message
                end
       end |}.

Definition getWorkflowsViaRest :=
  getViaRest "/api/v1/workflows" j_workflows workflowOfRaw.
Definition getMappingsViaRest :=
  getViaRest "/api/v1/mappings" j_mappings mappingOfRaw.
Definition getSessionsViaRest :=
  getViaRest "/api/v1/sessions" j_sessions sessionOfRaw.
Definition getTransformationsViaRest :=
  getViaRest "/api/v1/transformations" j_transformations transformationOfRaw.
Definition getSourcesViaRest :=
  getViaRest "/api/v1/sources" j_sources sourceOfRaw.
Definition getTargetsViaRest :=
  getViaRest "/api/v1/targets" j_targets targetOfRaw.

Definition discoverRepositoryViaRest (connection : RepositoryConnection)
  : Async HttpRequest HttpOutcome PowerCenterDiscoveryResult :=
  tryCatch
    (let baseUrl := baseUrlOf connection in
     authToken <- await (authenticateRest connection) ;;
     '(workflows, mappings, sessions, transformations, sources, targets) <-
       all6 (getWorkflowsViaRest baseUrl authToken)
            (getMappingsViaRest baseUrl authToken)
            (getSessionsViaRest baseUrl authToken)
            (getTransformationsViaRest baseUrl authToken)
            (getSourcesViaRest baseUrl authToken)
            (getTargetsViaRest baseUrl authToken) ;;
     ret {| workflows := workflows;
            mappings := mappings;
            sessions := sessions;
            transformations := transformations;
            sources := sources;
            targets := targets |})
    (fun message => throw ("REST API discovery failed: " ++ message)).

End Rest.

(* ================================================================== *)
(** ** pmrep discovery *)
(* ================================================================== *)

Module Pmrep.
Import Async.
Local Open Scope async_scope.

(** How [execAsync(command)] ends. *)
Inductive ExecOutcome :=
| Exited (stdout : string)
| ExecFailed (message : string).

Definition World := Async.World string ExecOutcome.
Definition Call := Async.Call string ExecOutcome.

Definition connectCommand (connection : RepositoryConnection) : string :=
  "pmrep connect -r " ++ conn_repositoryName connection
    ++ " -h " ++ conn_hostname connection
    ++ " -o " ++ NilEmpty.string_of_uint (N.to_uint (conn_port connection))
    ++ " -n " ++ conn_username connection.

Definition connectPmrep (connection : RepositoryConnection) : Call unit :=
  {| request := connectCommand connection;
     resume := fun outcome =>
       match outcome with
       | Exited _ => Fulfilled tt
       | ExecFailed message => Rejected message
       end |}.

Definition listCommand (kind : string) : string :=
  "pmrep listobjects -o " ++ kind ++ " -t all".

(** The shape shared by the six getters: the listing is parsed, and a
    command that fails is caught and gives the empty list. *)
Definition getViaPmrep {A} (kind : string) (parse : string -> list A)
    (connection : RepositoryConnection) : Call (list A) :=
  {| request := listCommand kind;
     resume := fun outcome =>
       match outcome with
       | Exited stdout => Fulfilled (parse stdout)
       | ExecFailed _ => Fulfilled []
       end |}.

Definition getWorkflowsViaPmrep :=
  getViaPmrep "workflow" parsePmrepWorkflowOutput.
Definition getMappingsViaPmrep :=
  getViaPmrep "mapping" parsePmrepMappingOutput.
Definition getSessionsViaPmrep :=
  getViaPmrep "session" parsePmrepSessionOutput.
Definition getTransformationsViaPmrep :=
  getViaPmrep "transformation" parsePmrepTransformationOutput.
Definition getSourcesViaPmrep :=
  getViaPmrep "source" parsePmrepSourceOutput.
Definition getTargetsViaPmrep :=
  getViaPmrep "target" parsePmrepTargetOutput.

(** The six list commands, in the order of the array literal. *)
Definition listCommands : list string :=
  List.map listCommand
    ["workflow"; "mapping"; "session"; "transformation"; "source"; "target"].

Definition discoverRepositoryViaPmrep (connection : RepositoryConnection)
  : Async string ExecOutcome PowerCenterDiscoveryResult :=
  tryCatch
    (_ <- await (connectPmrep connection) ;;
     '(workflows, mappings, sessions, transformations, sources, targets) <-
       all6 (getWorkflowsViaPmrep connection)
            (getMappingsViaPmrep connection)
            (getSessionsViaPmrep connection)
            (getTransformationsViaPmrep connection)
            (getSourcesViaPmrep connection)
            (getTargetsViaPmrep connection) ;;
     ret {| workflows := workflows;
            mappings := mappings;
            sessions := sessions;
            transformations := transformations;
            sources := sources;
            targets := targets |})
    (fun message => throw ("pmrep discovery failed: " ++ message)).

End Pmrep.

(* ================================================================== *)
(** ** The in-memory storage ([MemStorage]) *)
(* ================================================================== *)

(** A JavaScript [Map] with string keys: the entries in insertion order. *)
Module JsMap.

Definition t (V : Type) := list (string * V).

Fixpoint get {V} (key : string) (m : t V) : option V :=
  match m with
  | [] => None
  | (k, v) :: rest => if String.eqb k key then Some v else get key rest
  end.

(** [m.set(key, value)]: a key already present keeps its place. *)
Fixpoint set {V} (key : string) (value : V) (m : t V) : t V :=
  match m with
  | [] => [(key, value)]
  | (k, v) :: rest =>
      if String.eqb k key then (k, value) :: rest
      else (k, v) :: set key value rest
  end.

(** [Array.from(m.values())]. *)
Definition values {V} (m : t V) : list V := List.map snd m.

End JsMap.

Record MigrationProject := {
  proj_id : string;
  proj_name : string;
  proj_description : option string;
  proj_repositoryConnectionId : string;
  proj_status : ProjectStatus;
  proj_autoMigrationPercentage : Js.number;
  proj_totalObjects : Js.number;
  proj_migratedObjects : Js.number;
  proj_createdAt : Z;
  proj_updatedAt : Z
}.

(** The payload of a create call: the schema's columns without [id],
    [createdAt] and [updatedAt]. *)
Record InsertMigrationProject := {
  ins_name : string;
  ins_description : option string;
  ins_repositoryConnectionId : string;
  ins_status : ProjectStatus;
  ins_autoMigrationPercentage : Js.number;
  ins_totalObjects : option Js.number;
  ins_migratedObjects : option Js.number
}.

(** [Partial<MigrationProject>], as the routes below build it. *)
Record MigrationProjectUpdates := {
  upd_status : option ProjectStatus;
  upd_totalObjects : option Js.number;
  upd_autoMigrationPercentage : option Js.number
}.

Record InsertPowerCenterObject := {
  io_projectId : string;
  io_objectName : string;
  io_objectType : ObjectType;
  io_folderName : string;
  io_complexity : Complexity;
  io_migrationStatus : MigrationStatus;
  io_automationCoverage : Js.number;
  io_dependencies : list string;
  io_metadata : Metadata
}.

Record PowerCenterObject := {
  obj_id : string;
  obj_lastScanned : Z;
  (** the properties spread from the insert payload *)
  obj_fields : InsertPowerCenterObject
}.

Record InsertAssessmentResult := {
  ar_projectId : string;
  ar_objectId : string;
  ar_assessmentType : string;
  ar_result : Complexity;
  ar_confidence : Js.number;
  ar_recommendations : list string;
  (** [issues: { automationCoverage }] *)
  ar_issues_automationCoverage : Js.number;
  ar_estimatedEffort : Js.number
}.

Record AssessmentResult := {
  res_id : string;
  res_createdAt : Z;
  res_fields : InsertAssessmentResult
}.

Record SyncStatus := {
  sync_id : string;
  sync_projectId : string;
  sync_lastSyncTime : Z;
  sync_syncType : SyncType;
  sync_status : SyncState;
  sync_itemsProcessed : Js.number;
  sync_errors : option (list string)
}.

(** [Partial<SyncStatus>], as the routes below build it. *)
Record SyncStatusUpdates := {
  su_lastSyncTime : option Z;
  su_syncType : option SyncType;
  su_status : option SyncState;
  su_itemsProcessed : option Js.number;
  su_errors : option (option (list string))
}.

(** A timer registered by [setInterval], with the delay of the
    [setTimeout] that clears it. *)
Record IntervalTimer := {
  iv_projectId : string;
  iv_connection : RepositoryConnection;
  iv_every : Z;
  iv_clearedAfter : Z
}.

(** What the process draws from outside: the [n]-th identifier
    [generateId] builds from [Date.now()] and [Math.random()], and the
    [n]-th reading of the clock by [new Date()]. *)
Record Runtime := {
  freshId : nat -> string;
  date : nat -> Z
}.

(** The state of the server process: the maps of [MemStorage], the timer
    table of the event loop, and how many values were drawn from the
    runtime. *)
Record State := {
  repositoryConnections : JsMap.t RepositoryConnection;
  migrationProjects : JsMap.t MigrationProject;
  powerCenterObjects : JsMap.t PowerCenterObject;
  assessmentResults : JsMap.t AssessmentResult;
  syncStatuses : JsMap.t SyncStatus;
  intervals : list IntervalTimer;
  draws : nat
}.

Definition withMigrationProjects (s : State) (m : JsMap.t MigrationProject) :=
  {| repositoryConnections := repositoryConnections s;
     migrationProjects := m;
     powerCenterObjects := powerCenterObjects s;
     assessmentResults := assessmentResults s;
     syncStatuses := syncStatuses s;
     intervals := intervals s;
     draws := draws s |}.

Definition withPowerCenterObjects (s : State) (m : JsMap.t PowerCenterObject) :=
  {| repositoryConnections := repositoryConnections s;
     migrationProjects := migrationProjects s;
     powerCenterObjects := m;
     assessmentResults := assessmentResults s;
     syncStatuses := syncStatuses s;
     intervals := intervals s;
     draws := draws s |}.

Definition withAssessmentResults (s : State) (m : JsMap.t AssessmentResult) :=
  {| repositoryConnections := repositoryConnections s;
     migrationProjects := migrationProjects s;
     powerCenterObjects := powerCenterObjects s;
     assessmentResults := m;
     syncStatuses := syncStatuses s;
     intervals := intervals s;
     draws := draws s |}.

Definition withSyncStatuses (s : State) (m : JsMap.t SyncStatus) :=
  {| repositoryConnections := repositoryConnections s;
     migrationProjects := migrationProjects s;
     powerCenterObjects := powerCenterObjects s;
     assessmentResults := assessmentResults s;
     syncStatuses := m;
     intervals := intervals s;
     draws := draws s |}.

Definition withIntervals (s : State) (l : list IntervalTimer) :=
  {| repositoryConnections := repositoryConnections s;
     migrationProjects := migrationProjects s;
     powerCenterObjects := powerCenterObjects s;
     assessmentResults := assessmentResults s;
     syncStatuses := syncStatuses s;
     intervals := l;
     draws := draws s |}.

Definition withDraws (s : State) (n : nat) :=
  {| repositoryConnections := repositoryConnections s;
     migrationProjects := migrationProjects s;
     powerCenterObjects := powerCenterObjects s;
     assessmentResults := assessmentResults s;
     syncStatuses := syncStatuses s;
     intervals := intervals s;
     draws := n |}.

(** *** Statements that read and write the state and may throw *)

Inductive Completion (A : Type) :=
| Returned (value : A)
| Threw (message : string).
Arguments Returned {A} value.
Arguments Threw {A} message.

Definition M (A : Type) := State -> Completion A * State.

Definition ret {A} (a : A) : M A := fun s => (Returned a, s).

Definition throw {A} (message : string) : M A := fun s => (Threw message, s).

Definition bind {A B} (m : M A) (k : A -> M B) : M B :=
  fun s =>
    match m s with
    | (Returned a, s') => k a s'
    | (Threw message, s') => (Threw message, s')
    end.

(** [try { body } catch (error) { handler(error.message) }]. *)
Definition tryCatch {A} (body : M A) (handler : string -> M A) : M A :=
  fun s =>
    match body s with
    | (Returned a, s') => (Returned a, s')
    | (Threw message, s') => handler message s'
    end.

Definition gets {A} (f : State -> A) : M A := fun s => (Returned (f s), s).

Definition modify (f : State -> State) : M unit := fun s => (Returned tt, f s).

(** [await] of a promise that has settled. *)
Definition awaitPromise {A} (p : Async.Promise A) : M A :=
  match p with
  | Async.Fulfilled a => ret a
  | Async.Rejected message => throw message
  end.

Declare Scope js_scope.
Delimit Scope js_scope with js.
Notation "x <- m ;; k" := (bind m (fun x => k))
  (at level 61, m at next level, right associativity) : js_scope.
Notation "m ;; k" := (bind m (fun _ => k))
  (at level 61, right associativity) : js_scope.

Section Server.

Variable rt : Runtime.

Local Open Scope js_scope.

(** [generateId()]. *)
Definition generateId : M string :=
  fun s => (Returned (freshId rt (draws s)), withDraws s (S (draws s))).

(** [new Date()]. *)
Definition newDate : M Z :=
  fun s => (Returned (date rt (draws s)), withDraws s (S (draws s))).

(* ---------------------------------------------------------------- *)
(** *** Migration projects *)

Definition createMigrationProject (project : InsertMigrationProject)
  : M MigrationProject :=
  id <- generateId ;;
  createdAt <- newDate ;;
  updatedAt <- newDate ;;
  let newProject :=
    {| proj_name := ins_name project;
       proj_description := ins_description project;
       proj_repositoryConnectionId := ins_repositoryConnectionId project;
       proj_id := id;
       proj_status := DISCOVERY;
       proj_autoMigrationPercentage := 0%float;
       proj_totalObjects := 0%float;
       proj_migratedObjects := 0%float;
       proj_createdAt := createdAt;
       proj_updatedAt := updatedAt |} in
  modify (fun s =>
    withMigrationProjects s (JsMap.set id newProject (migrationProjects s))) ;;
  ret newProject.

Definition getMigrationProject (id : string) : M (option MigrationProject) :=
  gets (fun s => JsMap.get id (migrationProjects s)).

Definition orKeep {A} (update : option A) (existing : A) : A :=
  match update with Some a => a | None => existing end.

Definition updateMigrationProject (id : string) (updates : MigrationProjectUpdates)
  : M MigrationProject :=
  existing <- gets (fun s => JsMap.get id (migrationProjects s)) ;;
  match existing with
  | None => throw "Migration project not found"
  | Some existing =>
      updatedAt <- newDate ;;
      let updated :=
        {| proj_id := proj_id existing;
           proj_name := proj_name existing;
           proj_description := proj_description existing;
           proj_repositoryConnectionId := proj_repositoryConnectionId existing;
           proj_status := orKeep (upd_status updates) (proj_status existing);
           proj_autoMigrationPercentage :=
             orKeep (upd_autoMigrationPercentage updates)
                    (proj_autoMigrationPercentage existing);
           proj_totalObjects :=
             orKeep (upd_totalObjects updates) (proj_totalObjects existing);
           proj_migratedObjects := proj_migratedObjects existing;
           proj_createdAt := proj_createdAt existing;
           proj_updatedAt := updatedAt |} in
      modify (fun s =>
        withMigrationProjects s (JsMap.set id updated (migrationProjects s))) ;;
      ret updated
  end.

Definition getRepositoryConnection (id : string) : M (option RepositoryConnection) :=
  gets (fun s => JsMap.get id (repositoryConnections s)).

(* ---------------------------------------------------------------- *)
(** *** Discovered objects *)

Definition createPowerCenterObject (object : InsertPowerCenterObject)
  : M PowerCenterObject :=
  id <- generateId ;;
  lastScanned <- newDate ;;
  let newObject :=
    {| obj_fields := object; obj_id := id; obj_lastScanned := lastScanned |} in
  modify (fun s =>
    withPowerCenterObjects s (JsMap.set id newObject (powerCenterObjects s))) ;;
  ret newObject.

Definition getPowerCenterObjects (projectId : string) : M (list PowerCenterObject) :=
  gets (fun s =>
    List.filter (fun obj => String.eqb (io_projectId (obj_fields obj)) projectId)
                (JsMap.values (powerCenterObjects s))).

(** The loop of [bulkCreatePowerCenterObjects], from [results]. *)
Fixpoint bulkCreateFrom (results : list PowerCenterObject)
    (objects : list InsertPowerCenterObject) : M (list PowerCenterObject) :=
  match objects with
  | [] => ret results
  | object :: rest =>
      result <- createPowerCenterObject object ;;
      bulkCreateFrom (results ++ [result]) rest
  end.

Definition bulkCreatePowerCenterObjects (objects : list InsertPowerCenterObject)
  : M (list PowerCenterObject) :=
  bulkCreateFrom [] objects.

(* ---------------------------------------------------------------- *)
(** *** Assessment results and sync status *)

Definition createAssessmentResult (result : InsertAssessmentResult)
  : M AssessmentResult :=
  id <- generateId ;;
  createdAt <- newDate ;;
  let newResult :=
    {| res_fields := result; res_id := id; res_createdAt := createdAt |} in
  modify (fun s =>
    withAssessmentResults s (JsMap.set id newResult (assessmentResults s))) ;;
  ret newResult.

(** [existing?.id || this.generateId()]: an identifier is drawn only
    when the record has none (or an empty one). *)
Definition syncIdOf (existing : option SyncStatus) : M string :=
  match existing with
  | Some e => if Js.truthy (sync_id e) then ret (sync_id e) else generateId
  | None => generateId
  end.

Definition updateSyncStatus (projectId : string) (status : SyncStatusUpdates)
  : M SyncStatus :=
  existing <- gets (fun s => JsMap.get projectId (syncStatuses s)) ;;
  id <- syncIdOf existing ;;
  lastSyncTime <- newDate ;;
  let defaults :=
    {| sync_id := id;
       sync_projectId := projectId;
       sync_lastSyncTime := lastSyncTime;
       sync_syncType := INCREMENTAL;
       sync_status := COMPLETED;
       sync_itemsProcessed := 0%float;
       sync_errors := None |} in
  let base := match existing with Some e => e | None => defaults end in
  let updated :=
    {| sync_id := sync_id base;
       sync_projectId := sync_projectId base;
       sync_lastSyncTime := orKeep (su_lastSyncTime status) (sync_lastSyncTime base);
       sync_syncType := orKeep (su_syncType status) (sync_syncType base);
       sync_status := orKeep (su_status status) (sync_status base);
       sync_itemsProcessed :=
         orKeep (su_itemsProcessed status) (sync_itemsProcessed base);
       sync_errors := orKeep (su_errors status) (sync_errors base) |} in
  modify (fun s =>
    withSyncStatuses s (JsMap.set projectId updated (syncStatuses s))) ;;
  ret updated.

Definition getSyncStatus (projectId : string) : M (option SyncStatus) :=
  gets (fun s => JsMap.get projectId (syncStatuses s)).

(* ---------------------------------------------------------------- *)
(** *** [startRealTimeSync]: the interval and the timeout that clears it *)

Definition startRealTimeSync (connection : RepositoryConnection)
    (projectId : string) : M unit :=
  modify (fun s =>
    withIntervals s
      (intervals s ++
         [{| iv_projectId := projectId;
             iv_connection := connection;
             iv_every := 30000;
             iv_clearedAfter := 24 * 60 * 60 * 1000 |}])).

End Server.

(* ================================================================== *)
(** ** The routes ([createRoutes]) *)
(* ================================================================== *)

(** What a handler sends: [res.status(code).json(body)], or
    [res.status(code).json({ error })]. *)
Inductive HttpResponse (B : Type) :=
| Json (status : nat) (body : B)
| Failure (status : nat) (error : string).
Arguments Json {B} status body.
Arguments Failure {B} status error.

Record DiscoveryReport := {
  rep_message : string;
  rep_totalObjects : Js.number;
  rep_autoMigrationPercentage : Js.number;
  rep_workflows : nat;
  rep_mappings : nat;
  rep_sessions : nat;
  rep_transformations : nat;
  rep_sources : nat;
  rep_targets : nat
}.

(* ------------------------------------------------------------------ *)
(** *** Conversion of a discovery result ([allObjects]) *)

Definition objectOfWorkflow (projectId : string) (wf : PowerCenterWorkflow) :=
  {| io_projectId := projectId;
     io_objectName := wf_name wf;
     io_objectType := WORKFLOW;
     io_folderName := wf_folder wf;
     io_complexity := wf_complexity wf;
     io_migrationStatus := FULLY_AUTO;
     io_automationCoverage := 85%float;
     io_dependencies := wf_dependencies wf;
     io_metadata := wf_metadata wf |}.

Definition objectOfMapping (projectId : string) (mapping : PowerCenterMapping) :=
  {| io_projectId := projectId;
     io_objectName := mp_name mapping;
     io_objectType := MAPPING;
     io_folderName := mp_folder mapping;
     io_complexity := mp_complexity mapping;
     io_migrationStatus := FULLY_AUTO;
     io_automationCoverage := 90%float;
     io_dependencies := [];
     io_metadata := mp_metadata mapping |}.

Definition objectOfSession (projectId : string) (session : PowerCenterSession) :=
  {| io_projectId := projectId;
     io_objectName := ss_name session;
     io_objectType := SESSION;
     io_folderName := ss_folder session;
     io_complexity := SIMPLE;
     io_migrationStatus := FULLY_AUTO;
     io_automationCoverage := 95%float;
     io_dependencies := [];
     io_metadata := ss_metadata session |}.

Definition objectOfTransformation (projectId : string)
    (trans : PowerCenterTransformation) :=
  {| io_projectId := projectId;
     io_objectName := tr_name trans;
     io_objectType := TRANSFORMATION;
     io_folderName := tr_folder trans;
     io_complexity := MEDIUM;
     io_migrationStatus :=
       if String.eqb (tr_type trans) "XML_PARSER" then MANUAL_REDESIGN else PARTIAL;
     io_automationCoverage :=
       if String.eqb (tr_type trans) "XML_PARSER" then 20%float else 75%float;
     io_dependencies := [];
     io_metadata := tr_metadata trans |}.

Definition objectOfSource (projectId : string) (source : PowerCenterSource) :=
  {| io_projectId := projectId;
     io_objectName := src_name source;
     io_objectType := SOURCE;
     io_folderName := src_folder source;
     io_complexity := SIMPLE;
     io_migrationStatus := FULLY_AUTO;
     io_automationCoverage := 95%float;
     io_dependencies := [];
     io_metadata := src_metadata source |}.

Definition objectOfTarget (projectId : string) (target : PowerCenterTarget) :=
  {| io_projectId := projectId;
     io_objectName := tgt_name target;
     io_objectType := TARGET;
     io_folderName := tgt_folder target;
     io_complexity := SIMPLE;
     io_migrationStatus := FULLY_AUTO;
     io_automationCoverage := 95%float;
     io_dependencies := [];
     io_metadata := tgt_metadata target |}.

Definition allObjects (projectId : string)
    (discoveryResult : PowerCenterDiscoveryResult) : list InsertPowerCenterObject :=
  List.map (objectOfWorkflow projectId) (workflows discoveryResult)
  ++ List.map (objectOfMapping projectId) (mappings discoveryResult)
  ++ List.map (objectOfSession projectId) (sessions discoveryResult)
  ++ List.map (objectOfTransformation projectId) (transformations discoveryResult)
  ++ List.map (objectOfSource projectId) (sources discoveryResult)
  ++ List.map (objectOfTarget projectId) (targets discoveryResult).

Definition isFullyAuto (obj : InsertPowerCenterObject) : bool :=
  match io_migrationStatus obj with FULLY_AUTO => true | _ => false end.

(** The project statistics computed after the bulk create. *)
Definition totalObjectsOf (objects : list InsertPowerCenterObject) : Js.number :=
  Js.of_nat (List.length objects).

Definition autoMigrationPercentageOf (objects : list InsertPowerCenterObject)
  : Js.number :=
  Js.Math_round
    (PrimFloat.mul
       (PrimFloat.div (Js.of_nat (List.length (List.filter isFullyAuto objects)))
                      (totalObjectsOf objects))
       100%float).

(** [Math.ceil(objects.length * 2)]: two hours for each object. *)
Definition estimatedEffortOf {A} (objects : list A) : Js.number :=
  Js.Math_ceil (PrimFloat.mul (Js.of_nat (List.length objects)) 2%float).

(** An object read back from storage, as the aggregator sees it: a
    stored object has [objectName] and [objectType], and none of the
    properties [type], [name] and [expressions]. *)
Definition anyOfPowerCenterObject (obj : PowerCenterObject) : AnyObject :=
  {| any_type := None; any_name := None; any_expressions := None |}.

Section Routes.

Variable rt : Runtime.

Local Open Scope js_scope.

(** POST /api/migration-projects, from the validated payload. *)
Definition postMigrationProject (validatedData : InsertMigrationProject)
  : M (HttpResponse MigrationProject) :=
  tryCatch
    (project <- createMigrationProject rt validatedData ;;
     ret (Json 201 project))
    (fun message => ret (Failure 400 message)).

(** The adapter call of the discover route, by connection type. *)
Definition runDiscovery (restWorld : Rest.World) (pmrepWorld : Pmrep.World)
    (connection : RepositoryConnection) : Async.Promise PowerCenterDiscoveryResult :=
  match conn_connectionType connection with
  | REST_API => fst (Rest.discoverRepositoryViaRest connection restWorld)
  | PMREP => fst (Pmrep.discoverRepositoryViaPmrep connection pmrepWorld)
  end.

(** POST /api/migration-projects/:id/discover. *)
Definition postDiscover (restWorld : Rest.World) (pmrepWorld : Pmrep.World)
    (id : string) : M (HttpResponse DiscoveryReport) :=
  tryCatch
    (project <- getMigrationProject id ;;
     match project with
     | None => ret (Failure 404 "Migration project not found")
     | Some project =>
     connection <- getRepositoryConnection (proj_repositoryConnectionId project) ;;
     match connection with
     | None => ret (Failure 404 "Repository connection not found")
     | Some connection =>
     updateMigrationProject rt (proj_id project)
       {| upd_status := Some DISCOVERY;
          upd_totalObjects := None;
          upd_autoMigrationPercentage := None |} ;;
     discoveryResult <-
       awaitPromise (runDiscovery restWorld pmrepWorld connection) ;;
     let allObjects := allObjects (proj_id project) discoveryResult in
     bulkCreatePowerCenterObjects rt allObjects ;;
     let totalObjects := totalObjectsOf allObjects in
     let autoMigrationPercentage := autoMigrationPercentageOf allObjects in
     updateMigrationProject rt (proj_id project)
       {| upd_status := Some ASSESSMENT;
          upd_totalObjects := Some totalObjects;
          upd_autoMigrationPercentage := Some autoMigrationPercentage |} ;;
     updateSyncStatus rt (proj_id project)
       {| su_lastSyncTime := None;
          su_syncType := Some FULL;
          su_status := Some COMPLETED;
          su_itemsProcessed := Some totalObjects;
          su_errors := None |} ;;
     ret (Json 200
            {| rep_message := "Discovery completed successfully";
               rep_totalObjects := totalObjects;
               rep_autoMigrationPercentage := autoMigrationPercentage;
               rep_workflows := List.length (workflows discoveryResult);
               rep_mappings := List.length (mappings discoveryResult);
               rep_sessions := List.length (sessions discoveryResult);
               rep_transformations := List.length (transformations discoveryResult);
               rep_sources := List.length (sources discoveryResult);
               rep_targets := List.length (targets discoveryResult) |})
     end end)
    (fun message =>
       updateMigrationProject rt id
         {| upd_status := Some DISCOVERY;
            upd_totalObjects := None;
            upd_autoMigrationPercentage := None |} ;;
       ret (Failure 500 message)).

(** POST /api/migration-projects/:id/assess. *)
Definition postAssess (id : string) : M (HttpResponse AssessmentResult) :=
  tryCatch
    (objects <- getPowerCenterObjects id ;;
     let assessment :=
       assessMigrationComplexity (List.map anyOfPowerCenterObject objects) in
     assessmentResult <-
       createAssessmentResult rt
         {| ar_projectId := id;
            ar_objectId := "project-level";
            ar_assessmentType := "COMPLEXITY";
            ar_result := complexity assessment;
            ar_confidence := 85%float;
            ar_recommendations := issues assessment;
            ar_issues_automationCoverage := automationCoverage assessment;
            ar_estimatedEffort := estimatedEffortOf objects |} ;;
     ret (Json 200 assessmentResult))
    (fun message => ret (Failure 500 message)).

(** POST /api/migration-projects/:id/start-sync.  The callback given to
    [startRealTimeSync] runs only when the timer fires. *)
Definition postStartSync (id : string) : M (HttpResponse string) :=
  tryCatch
    (project <- getMigrationProject id ;;
     match project with
     | None => ret (Failure 404 "Migration project not found")
     | Some project =>
     connection <- getRepositoryConnection (proj_repositoryConnectionId project) ;;
     match connection with
     | None => ret (Failure 404 "Repository connection not found")
     | Some connection =>
     startRealTimeSync connection (proj_id project) ;;
     updateSyncStatus rt (proj_id project)
       {| su_lastSyncTime := None;
          su_syncType := Some INCREMENTAL;
          su_status := Some SYNCING;
          su_itemsProcessed := Some 0%float;
          su_errors := None |} ;;
     ret (Json 200 "Real-time sync started successfully")
     end end)
    (fun message => ret (Failure 500 message)).

End Routes.

(** The sync tasks of a project that are alive: its interval timers. *)
Definition activeSyncTasks (projectId : string) (s : State) : nat :=
  List.length
    (List.filter (fun t => String.eqb (iv_projectId t) projectId) (intervals s)).

(* ================================================================== *)
(** ** The properties, as predicates on the model *)
(* ================================================================== *)

(** The coverage of an object is in the band of its status. *)
Definition coverageConsistent (obj : InsertPowerCenterObject) : Prop :=
  (io_migrationStatus obj = FULLY_AUTO ->
   PrimFloat.leb 80%float (io_automationCoverage obj) = true)
  /\ (io_migrationStatus obj = MANUAL_REDESIGN ->
      PrimFloat.leb (io_automationCoverage obj) 30%float = true).

(** The tier rule of the normalizer, on a count of components. *)
Definition followsTierRule (count : nat) (tier : Complexity) : Prop :=
  (count = 0 -> tier = SIMPLE)
  /\ (1 <= count <= 5 -> tier = MEDIUM)
  /\ (5 < count -> tier = COMPLEX).

(** A discovery result with no object of any kind. *)
Definition emptyPayload : PowerCenterDiscoveryResult :=
  {| workflows := []; mappings := []; sessions := [];
     transformations := []; sources := []; targets := [] |}.

(** A read of one kind of object ends without an exception: the answer
    is not [ok], or it is [ok] and its body parses. *)
Definition readCompletes (outcome : Rest.HttpOutcome) : bool :=
  match outcome with
  | Rest.NetworkError _ => false
  | Rest.Response false _ => true
  | Rest.Response true (inl _) => true
  | Rest.Response true (inr _) => false
  end.

(** The list a kind contributes: the converted records of an [ok]
    answer, and nothing for an answer that is not [ok]. *)
Definition listOfAnswer {A} (records : Rest.JsonBody -> option (list RawRecord))
    (convert : RawRecord -> A) (outcome : Rest.HttpOutcome) : list A :=
  match outcome with
  | Rest.Response true (inl data) => mapRecords convert (records data)
  | _ => []
  end.

(** The requests of the six reads of a REST discovery. *)
Definition restReads (connection : RepositoryConnection) (token : Rest.JsonToken)
  : list Rest.HttpRequest :=
  let baseUrl := Rest.baseUrlOf connection in
  [Async.request (Rest.getWorkflowsViaRest baseUrl token);
   Async.request (Rest.getMappingsViaRest baseUrl token);
   Async.request (Rest.getSessionsViaRest baseUrl token);
   Async.request (Rest.getTransformationsViaRest baseUrl token);
   Async.request (Rest.getSourcesViaRest baseUrl token);
   Async.request (Rest.getTargetsViaRest baseUrl token)].

(** The status of the sync record of a project. *)
Definition syncStateOf (projectId : string) (s : State) : option SyncState :=
  option_map sync_status (JsMap.get projectId (syncStatuses s)).

(** A program keeps a relation between the state before and after. *)
Definition keeps (R : State -> State -> Prop) {A} (m : M A) : Prop :=
  forall s, R s (snd (m s)).

(** The map of discovered objects is the same in both states. *)
Definition sameObjects (s s' : State) : Prop :=
  powerCenterObjects s' = powerCenterObjects s.

(** Every stored object of [s'] was already in [s] under the same key,
    or its properties satisfy [P]. *)
Definition addsOnly (P : InsertPowerCenterObject -> Prop) (s s' : State) : Prop :=
  forall key obj,
    JsMap.get key (powerCenterObjects s') = Some obj ->
    JsMap.get key (powerCenterObjects s) = Some obj \/ P (obj_fields obj).

(* ================================================================== *)
(** ** Sample data: a repository, a store and the answers of the
       outside world, on which the statements below are evaluated *)
(* ================================================================== *)

Definition sampleRuntime : Runtime :=
  {| freshId := fun n => ("id-" ++ NilEmpty.string_of_uint (Nat.to_uint n))%string;
     date := fun n => (1700000000000 + Z.of_nat n)%Z |}.

Definition pmrepConnection : RepositoryConnection :=
  {| conn_id := "conn-pmrep";
     conn_name := "Legacy CLI";
     conn_hostname := "pc.example.org";
     conn_port := 6005;
     conn_repositoryName := "REP_DEV";
     conn_username := "admin";
     conn_isActive := false;
     conn_connectionType := PMREP |}.

Definition restConnection : RepositoryConnection :=
  {| conn_id := "conn-rest";
     conn_name := "Legacy REST";
     conn_hostname := "pc.example.org";
     conn_port := 8080;
     conn_repositoryName := "REP_DEV";
     conn_username := "admin";
     conn_isActive := false;
     conn_connectionType := REST_API |}.

Definition sampleProject (id connectionId : string) : MigrationProject :=
  {| proj_id := id;
     proj_name := "Orders";
     proj_description := None;
     proj_repositoryConnectionId := connectionId;
     proj_status := DISCOVERY;
     proj_autoMigrationPercentage := 0%float;
     proj_totalObjects := 0%float;
     proj_migratedObjects := 0%float;
     proj_createdAt := 1700000000000;
     proj_updatedAt := 1700000000000 |}.

(** A store with the two connections and one project on each. *)
Definition sampleState : State :=
  {| repositoryConnections :=
       [("conn-pmrep", pmrepConnection); ("conn-rest", restConnection)];
     migrationProjects :=
       [("p-pmrep", sampleProject "p-pmrep" "conn-pmrep");
        ("p-rest", sampleProject "p-rest" "conn-rest")];
     powerCenterObjects := [];
     assessmentResults := [];
     syncStatuses := [];
     intervals := [];
     draws := 0 |}.

(** A pmrep whose commands all succeed and list nothing. *)
Definition pmrepSilent : Pmrep.World :=
  {| Async.respond := fun _ => Pmrep.Exited EmptyString;
     Async.order := [] |}.

Definition workflowListing : string :=
  String.concat (String Js.TAB EmptyString) ["wf_orders_workflow"; "Sales"; "valid"].

Definition transformationListing : string :=
  String.concat (String Js.LF EmptyString)
    [String.concat (String Js.TAB EmptyString)
       ["q_orders_transformation"; "Sales"; "MQSERIES"; "m_orders"];
     String.concat (String Js.TAB EmptyString)
       ["x_orders_transformation"; "Sales"; "XML_PARSER"; "m_orders"]].

(** A pmrep that lists one workflow and two transformations; the
    transformation listing is the second to arrive, the workflow
    listing the first. *)
Definition pmrepListing : Pmrep.World :=
  {| Async.respond := fun command =>
       if String.eqb command (Pmrep.listCommand "workflow")
       then Pmrep.Exited workflowListing
       else if String.eqb command (Pmrep.listCommand "transformation")
       then Pmrep.Exited transformationListing
       else Pmrep.Exited EmptyString;
     Async.order := [0; 3] |}.

(** A REST endpoint that cannot be reached. *)
Definition restDown : Rest.World :=
  {| Async.respond := fun _ => Rest.NetworkError "connect ECONNREFUSED";
     Async.order := [] |}.

Definition emptyBody : Rest.JsonBody :=
  {| Rest.j_token := Rest.TokenUndefined;
     Rest.j_workflows := None; Rest.j_mappings := None;
     Rest.j_sessions := None; Rest.j_transformations := None;
     Rest.j_sources := None; Rest.j_targets := None |}.

(** A REST endpoint that refuses the login. *)
Definition restLoginRefused : Rest.World :=
  {| Async.respond := fun _ => Rest.Response false (inl emptyBody);
     Async.order := [] |}.

Definition rawMapping (name : string) (transformations : list string) : RawRecord :=
  {| raw_name := name;
     raw_folder := "Sales";
     raw_isValid := true;
     raw_type := EmptyString;
     raw_mappingName := EmptyString;
     raw_sessionType := EmptyString;
     raw_connectionName := EmptyString;
     raw_sessions := None;
     raw_dependencies := None;
     raw_transformations := Some transformations;
     raw_sources := None;
     raw_targets := None;
     raw_expressions := None |}.

(** A REST endpoint that accepts the login, answers the read of the
    mappings with two mappings, and answers every other read with a
    status that is not [ok]. *)
Definition restMappingsOnly : Rest.World :=
  {| Async.respond := fun request =>
       if String.eqb (Rest.http_method request) "POST"
       then Rest.Response true
              (inl {| Rest.j_token := Rest.TokenString "t0k3n";
                      Rest.j_workflows := None; Rest.j_mappings := None;
                      Rest.j_sessions := None; Rest.j_transformations := None;
                      Rest.j_sources := None; Rest.j_targets := None |})
       else if String.eqb (Rest.http_url request)
                 "http://pc.example.org:8080/api/v1/mappings"
       then Rest.Response true
              (inl {| Rest.j_token := Rest.TokenUndefined;
                      Rest.j_workflows := None;
                      Rest.j_mappings :=
                        Some [rawMapping "m_orders" ["exp"; "agg"];
                              rawMapping "m_empty" []];
                      Rest.j_sessions := None; Rest.j_transformations := None;
                      Rest.j_sources := None; Rest.j_targets := None |})
       else Rest.Response false (inr "Unexpected token < in JSON");
     Async.order := [5; 1] |}.

Definition xmlTransformation : PowerCenterTransformation :=
  {| tr_name := "x_orders";
     tr_folder := "Sales";
     tr_type := "XML_PARSER";
     tr_mappingName := "m_orders";
     tr_expressions := ["SUBSTR(NAME, 1, 5)"];
     tr_metadata := MetaRawOutput EmptyString |}.

Definition mqTransformation : PowerCenterTransformation :=
  {| tr_name := "q_orders";
     tr_folder := "Sales";
     tr_type := "MQSERIES";
     tr_mappingName := "m_orders";
     tr_expressions := [];
     tr_metadata := MetaRawOutput EmptyString |}.

Definition sampleMapping (name : string) : PowerCenterMapping :=
  {| mp_name := name;
     mp_folder := "Sales";
     mp_transformations := [];
     mp_sources := [];
     mp_targets := [];
     mp_complexity := MEDIUM;
     mp_metadata := MetaRawOutput EmptyString |}.

Definition samplePayload : InsertMigrationProject :=
  {| ins_name := "Orders";
     ins_description := Some "nightly loads";
     ins_repositoryConnectionId := "conn-rest";
     ins_status := MIGRATION;
     ins_autoMigrationPercentage := 40%float;
     ins_totalObjects := Some 12%float;
     ins_migratedObjects := Some 3%float |}.

(** The store after a first start-sync on the REST project. *)
Definition syncingState : State :=
  snd (postStartSync sampleRuntime "p-rest" sampleState).

(** A REST endpoint that accepts the login and answers every read with
    an empty body, except the read of the workflows, whose connection
    is dropped. *)
Definition restWorkflowsDropped : Rest.World :=
  {| Async.respond := fun request =>
       if String.eqb (Rest.http_url request)
            "http://pc.example.org:8080/api/v1/workflows"
       then Rest.NetworkError "socket hang up"
       else Rest.Response true (inl emptyBody);
     Async.order := [] |}.

(** The store after the discovery of [pmrepListing]: one workflow, one
    MQSERIES transformation and one XML_PARSER transformation. *)
Definition discoveredState : State :=
  snd (postDiscover sampleRuntime restDown pmrepListing "p-pmrep" sampleState).

(* ================================================================== *)
(** ** Further operations of the storage, the service and the routes *)
(* ================================================================== *)

(** [m.delete(key)]: the entry of the key is removed. *)
Definition mapDelete {V} (key : string) (m : JsMap.t V) : JsMap.t V :=
  List.filter (fun entry => negb (String.eqb (fst entry) key)) m.

(** [getMigrationProjects]: [Array.from(this.migrationProjects.values())]. *)
Definition getMigrationProjects : M (list MigrationProject) :=
  gets (fun s => JsMap.values (migrationProjects s)).

Definition getRepositoryConnections : M (list RepositoryConnection) :=
  gets (fun s => JsMap.values (repositoryConnections s)).

Definition deleteMigrationProject (id : string) : M unit :=
  modify (fun s => withMigrationProjects s (mapDelete id (migrationProjects s))).

Definition getPowerCenterObject (id : string) : M (option PowerCenterObject) :=
  gets (fun s => JsMap.get id (powerCenterObjects s)).

Definition deletePowerCenterObject (id : string) : M unit :=
  modify (fun s => withPowerCenterObjects s (mapDelete id (powerCenterObjects s))).


Definition getAssessmentResult (id : string) : M (option AssessmentResult) :=
  gets (fun s => JsMap.get id (assessmentResults s)).

(* ------------------------------------------------------------------ *)
(** *** Migration issues

    The issue methods of [MemStorage] read and write the map of issues
    only; they are given here on that map, with the identifier and the
    clock reading they draw as arguments. *)

Inductive IssueStatus := OPEN | FIXED | IGNORED.

Record MigrationIssue := {
  mi_id : string;
  mi_projectId : string;
  mi_objectId : string;
  mi_issueType : string;
  mi_severity : string;
  mi_description : string;
  mi_suggestedFix : option string;
  mi_isAutoFixable : bool;
  mi_status : IssueStatus;
  mi_createdAt : Z;
  mi_resolvedAt : option Z
}.

(** The insert payload: the schema's columns without [id] and
    [createdAt]; [resolvedAt] may be given. *)
Record InsertMigrationIssue := {
  ii_projectId : string;
  ii_objectId : string;
  ii_issueType : string;
  ii_severity : string;
  ii_description : string;
  ii_suggestedFix : option string;
  ii_isAutoFixable : bool;
  ii_status : IssueStatus;
  ii_resolvedAt : option Z
}.

(** [Partial<MigrationIssue>]: each property may be given. *)
Record MigrationIssueUpdates := {
  iu_id : option string;
  iu_projectId : option string;
  iu_objectId : option string;
  iu_issueType : option string;
  iu_createdAt : option Z;
  iu_severity : option string;
  iu_description : option string;
  iu_suggestedFix : option (option string);
  iu_isAutoFixable : option bool;
  iu_status : option IssueStatus;
  iu_resolvedAt : option (option Z)
}.

Definition createMigrationIssue (id : string) (now : Z) (issue : InsertMigrationIssue)
    (migrationIssues : JsMap.t MigrationIssue)
  : MigrationIssue * JsMap.t MigrationIssue :=
  let newIssue :=
    {| mi_projectId := ii_projectId issue;
       mi_objectId := ii_objectId issue;
       mi_issueType := ii_issueType issue;
       mi_severity := ii_severity issue;
       mi_description := ii_description issue;
       mi_suggestedFix := ii_suggestedFix issue;
       mi_isAutoFixable := ii_isAutoFixable issue;
       mi_status := ii_status issue;
       mi_id := id;
       mi_createdAt := now;
       mi_resolvedAt := None |} in
  (newIssue, JsMap.set id newIssue migrationIssues).

Definition getMigrationIssues (projectId : string)
    (migrationIssues : JsMap.t MigrationIssue) : list MigrationIssue :=
  List.filter (fun issue => String.eqb (mi_projectId issue) projectId)
              (JsMap.values migrationIssues).

(** [updates.status === 'FIXED']. *)
Definition isFixed (status : option IssueStatus) : bool :=
  match status with Some FIXED => true | _ => false end.

Definition updateMigrationIssue (now : Z) (id : string)
    (updates : MigrationIssueUpdates) (migrationIssues : JsMap.t MigrationIssue)
  : Completion MigrationIssue * JsMap.t MigrationIssue :=
  match JsMap.get id migrationIssues with
  | None => (Threw "Migration issue not found", migrationIssues)
  | Some existing =>
      let merged :=
        {| mi_id := orKeep (iu_id updates) (mi_id existing);
           mi_projectId := orKeep (iu_projectId updates) (mi_projectId existing);
           mi_objectId := orKeep (iu_objectId updates) (mi_objectId existing);
           mi_issueType := orKeep (iu_issueType updates) (mi_issueType existing);
           mi_severity := orKeep (iu_severity updates) (mi_severity existing);
           mi_description := orKeep (iu_description updates) (mi_description existing);
           mi_suggestedFix := orKeep (iu_suggestedFix updates) (mi_suggestedFix existing);
           mi_isAutoFixable :=
             orKeep (iu_isAutoFixable updates) (mi_isAutoFixable existing);
           mi_status := orKeep (iu_status updates) (mi_status existing);
           mi_createdAt := orKeep (iu_createdAt updates) (mi_createdAt existing);
           mi_resolvedAt := orKeep (iu_resolvedAt updates) (mi_resolvedAt existing) |} in
      let updated :=
        match mi_resolvedAt merged with
        | None =>
            if isFixed (iu_status updates) then
              {| mi_id := mi_id merged;
                 mi_projectId := mi_projectId merged;
                 mi_objectId := mi_objectId merged;
                 mi_issueType := mi_issueType merged;
                 mi_severity := mi_severity merged;
                 mi_description := mi_description merged;
                 mi_suggestedFix := mi_suggestedFix merged;
                 mi_isAutoFixable := mi_isAutoFixable merged;
                 mi_status := mi_status merged;
                 mi_createdAt := mi_createdAt merged;
                 mi_resolvedAt := Some now |}
            else merged
        | Some _ => merged
        end in
      (Returned updated, JsMap.set id updated migrationIssues)
  end.

(* ------------------------------------------------------------------ *)
(** *** The polling of a started sync

    [checkForUpdates] and the callback [startRealTimeSync] gives to
    [setInterval], with the [onUpdate] of the start-sync route. *)

Definition checkForUpdates (connection : RepositoryConnection)
  : Async.Promise (list string) :=
  Async.Fulfilled [].

(** The argument of [onUpdate]. *)
Record SyncUpdate := {
  up_projectId : string;
  up_updates : option (list string);
  up_error : option string;
  up_timestamp : Z
}.

(** [update.error ? a : b]: a message that is missing or empty is falsy. *)
Definition hasError (update : SyncUpdate) : bool :=
  match up_error update with Some message => Js.truthy message | None => false end.

Section Polling.

Variable rt : Runtime.

Local Open Scope js_scope.

(** The [onUpdate] of the start-sync route, for the project [projectId]. *)
Definition onUpdate (projectId : string) (update : SyncUpdate) : M SyncStatus :=
  lastSyncTime <- newDate rt ;;
  updateSyncStatus rt projectId
    {| su_lastSyncTime := Some lastSyncTime;
       su_syncType := None;
       su_status := Some (if hasError update then FAILED else COMPLETED);
       su_itemsProcessed := None;
       su_errors :=
         Some (if hasError update
               then option_map (fun message => [message]) (up_error update)
               else None) |}.

(** One firing of the interval timer. *)
Definition intervalFires (timer : IntervalTimer) : M unit :=
  match checkForUpdates (iv_connection timer) with
  | Async.Fulfilled updates =>
      if Nat.ltb 0 (List.length updates) then
        timestamp <- newDate rt ;;
        onUpdate (iv_projectId timer)
          {| up_projectId := iv_projectId timer;
             up_updates := Some updates;
             up_error := None;
             up_timestamp := timestamp |} ;;
        ret tt
      else ret tt
  | Async.Rejected message =>
      timestamp <- newDate rt ;;
      onUpdate (iv_projectId timer)
        {| up_projectId := iv_projectId timer;
           up_updates := None;
           up_error := Some message;
           up_timestamp := timestamp |} ;;
      ret tt
  end.

(** The timers that are alive fire, in the given order of firings. *)
Fixpoint timersFire (firings : list IntervalTimer) : M unit :=
  match firings with
  | [] => ret tt
  | timer :: rest => intervalFires timer ;; timersFire rest
  end.

End Polling.

(* ------------------------------------------------------------------ *)
(** *** GET /api/dashboard/stats *)

Record DashboardStats := {
  totalProjects : nat;
  activeConnections : nat;
  totalConnections : nat;
  (** [projectsByStatus] *)
  byStatus_DISCOVERY : nat;
  byStatus_ASSESSMENT : nat;
  byStatus_MIGRATION : nat;
  byStatus_COMPLETED : nat;
  avgAutomationCoverage : Js.number
}.

Definition hasStatus (status : ProjectStatus) (p : MigrationProject) : bool :=
  match status, proj_status p with
  | DISCOVERY, DISCOVERY | ASSESSMENT, ASSESSMENT
  | MIGRATION, MIGRATION | PROJECT_COMPLETED, PROJECT_COMPLETED => true
  | _, _ => false
  end.

(** [projects.reduce((sum, p) => sum + p.autoMigrationPercentage, 0)]. *)
Definition sumOfPercentages (projects : list MigrationProject) : Js.number :=
  List.fold_left
    (fun sum p => PrimFloat.add sum (proj_autoMigrationPercentage p))
    projects 0%float.

Definition avgAutomationCoverageOf (projects : list MigrationProject) : Js.number :=
  if Nat.ltb 0 (List.length projects) then
    Js.Math_round
      (PrimFloat.div (sumOfPercentages projects) (Js.of_nat (List.length projects)))
  else 0%float.

Definition getDashboardStats : M (HttpResponse DashboardStats) :=
  tryCatch
    (projects <- getMigrationProjects ;;
     connections <- getRepositoryConnections ;;
     let count status := List.length (List.filter (hasStatus status) projects) in
     ret (Json 200
            {| totalProjects := List.length projects;
               activeConnections :=
                 List.length (List.filter conn_isActive connections);
               totalConnections := List.length connections;
               byStatus_DISCOVERY := count DISCOVERY;
               byStatus_ASSESSMENT := count ASSESSMENT;
               byStatus_MIGRATION := count MIGRATION;
               byStatus_COMPLETED := count PROJECT_COMPLETED;
               avgAutomationCoverage := avgAutomationCoverageOf projects |}))%js
    (fun message => ret (Failure 500 message)).

(* ------------------------------------------------------------------ *)
(** *** Predicates and sample data of the further properties *)

(** What a pmrep getter returns for an outcome of its list command. *)
Definition listingOf {A} (parse : string -> list A) (outcome : Pmrep.ExecOutcome)
  : list A :=
  match outcome with
  | Pmrep.Exited stdout => parse stdout
  | Pmrep.ExecFailed _ => []
  end.

(** The object is of a type the aggregator reports as unsupported. *)
Definition isUnsupported (object : AnyObject) : bool :=
  typeIs object "XML_PARSER" || typeIs object "MQSERIES".

Definition countIf {A} (f : A -> bool) (l : list A) : nat :=
  List.length (List.filter f l).

(** A pmrep that cannot connect. *)
Definition pmrepUnreachable : Pmrep.World :=
  {| Async.respond := fun _ => Pmrep.ExecFailed "Command failed: pmrep connect";
     Async.order := [] |}.

(** A pmrep that connects and lists one workflow; every other list
    command fails. *)
Definition pmrepWorkflowsOnly : Pmrep.World :=
  {| Async.respond := fun command =>
       if String.eqb command (Pmrep.listCommand "workflow")
       then Pmrep.Exited workflowListing
       else if String.prefix "pmrep connect" command
       then Pmrep.Exited EmptyString
       else Pmrep.ExecFailed "Command failed";
     Async.order := [2] |}.

Definition xmlTransformationLine : string :=
  String.concat (String Js.TAB EmptyString)
    ["x_orders_transformation"; "Sales"; "XML_PARSER"; "m_orders"].

(** A REST endpoint whose login answers [ok] with a body that has no
    token, and whose reads answer with an empty body. *)
Definition restNoToken : Rest.World :=
  {| Async.respond := fun _ => Rest.Response true (inl emptyBody);
     Async.order := [] |}.

(** The objects [bulkCreatePowerCenterObjects] builds for its inputs
    when the first value it draws from the runtime is the [start]-th:
    each object takes one identifier and one clock reading. *)
Fixpoint createdObjects (rt : Runtime) (start : nat)
    (objects : list InsertPowerCenterObject) : list PowerCenterObject :=
  match objects with
  | [] => []
  | object :: rest =>
      {| obj_fields := object;
         obj_id := freshId rt start;
         obj_lastScanned := date rt (S start) |}
      :: createdObjects rt (S (S start)) rest
  end.

(** The entries of a list of objects, each under its identifier. *)
Definition entriesOf (objects : list PowerCenterObject)
  : JsMap.t PowerCenterObject :=
  List.map (fun obj => (obj_id obj, obj)) objects.

(** The identifiers are new to the map and differ from one another. *)
Definition freshIn {V} (ids : list string) (m : JsMap.t V) : Prop :=
  NoDup ids /\ forall id, In id ids -> JsMap.get id m = None.

(** The objects of a project among a list of objects. *)
Definition objectsOf (projectId : string) (objects : list PowerCenterObject)
  : list PowerCenterObject :=
  List.filter (fun obj => String.eqb (io_projectId (obj_fields obj)) projectId)
              objects.


(** An update that gives the status only, and one that gives nothing. *)
Definition statusOnly (status : option IssueStatus) : MigrationIssueUpdates :=
  {| iu_id := None; iu_projectId := None; iu_objectId := None;
     iu_issueType := None; iu_createdAt := None; iu_severity := None;
     iu_description := None; iu_suggestedFix := None; iu_isAutoFixable := None;
     iu_status := status; iu_resolvedAt := None |}.

(** An issue payload that claims to be resolved already. *)
Definition sampleIssue : InsertMigrationIssue :=
  {| ii_projectId := "p-rest";
     ii_objectId := "object-1";
     ii_issueType := "UNSUPPORTED_FUNCTION";
     ii_severity := "HIGH";
     ii_description := "DECODE has no direct equivalent";
     ii_suggestedFix := None;
     ii_isAutoFixable := false;
     ii_status := FIXED;
     ii_resolvedAt := Some 1600000000000%Z |}.

(** Some project of the list has [NaN] for its percentage. *)
Definition someNaN (projects : list MigrationProject) : bool :=
  List.existsb (fun p => PrimFloat.is_nan (proj_autoMigrationPercentage p)) projects.


(* ------------------------------------------------------------------ *)
(** *** The connection test of the REST adapter *)

Definition healthRequest (connection : RepositoryConnection) : Rest.HttpRequest :=
  {| Rest.http_method := "GET";
     Rest.http_url := (Rest.baseUrlOf connection ++ "/api/v1/health")%string;
     Rest.http_authorization := None;
     Rest.http_body := None |}.

(** [testRestConnection]: [response.ok] of the health endpoint, [false]
    when the fetch throws (also at its timeout of ten seconds). *)
Definition testRestConnection (connection : RepositoryConnection)
  : Async.Async Rest.HttpRequest Rest.HttpOutcome bool :=
  Async.tryCatch
    (Async.bind
       (Async.await
          {| Async.request := healthRequest connection;
             Async.resume := fun outcome =>
               match outcome with
               | Rest.NetworkError message => Async.Rejected message
               | Rest.Response ok _ => Async.Fulfilled ok
               end |})
       (fun ok => Async.ret ok))
    (fun _ => Async.ret false).

(** The endpoint of [restWorld], but with a login of the connection
    that is refused. *)
Definition withLoginRefused (connection : RepositoryConnection)
    (restWorld : Rest.World) : Rest.World :=
  {| Async.respond := fun request =>
       if String.eqb (Rest.http_url request)
            (Rest.baseUrlOf connection ++ "/api/v1/auth/login")
       then Rest.Response false (inl emptyBody)
       else Async.respond restWorld request;
     Async.order := Async.order restWorld |}.

(* ------------------------------------------------------------------ *)
(** *** Failures of the login, and the objects of the assessment example *)

(** The message the login of a REST discovery throws for an answer of
    the endpoint: the request is rejected, the answer is not [ok], or
    its body does not parse; [None] for an [ok] answer with a body. *)
Definition loginError (outcome : Rest.HttpOutcome) : option string :=
  match outcome with
  | Rest.NetworkError message => Some message
  | Rest.Response false _ => Some "Authentication failed"
  | Rest.Response true (inr message) => Some message
  | Rest.Response true (inl _) => None
  end.

(** A discovery result with two mappings and one XML parser. *)
Definition xmlAndMappings : PowerCenterDiscoveryResult :=
  {| workflows := [];
     mappings := [sampleMapping "m_orders"; sampleMapping "m_items"];
     sessions := [];
     transformations := [xmlTransformation];
     sources := [];
     targets := [] |}.

(** The store after the objects of [xmlAndMappings] were created for
    the REST project, as the discover route creates them. *)
Definition xmlAndMappingsState : State :=
  snd (bulkCreatePowerCenterObjects sampleRuntime
         (allObjects "p-rest" xmlAndMappings) sampleState).

(* ================================================================== *)
(** ** Lemmas on maps and on the storage operations *)
(* ================================================================== *)

Lemma get_set_same {V} (key : string) (value : V) (m : JsMap.t V) :
  JsMap.get key (JsMap.set key value m) = Some value.
Proof.
  induction m as [|[k v] m IH]; simpl.
  - now rewrite String.eqb_refl.
  - destruct (String.eqb k key) eqn:E; simpl; rewrite E; auto.
Qed.

Lemma get_set_other {V} (key key' : string) (value : V) (m : JsMap.t V) :
  key <> key' ->
  JsMap.get key' (JsMap.set key value m) = JsMap.get key' m.
Proof.
  intros Hne. induction m as [|[k v] m IH]; simpl.
  - destruct (String.eqb_spec key key'); [contradiction | reflexivity].
  - destruct (String.eqb_spec k key) as [->|Hk]; simpl.
    + destruct (String.eqb_spec key key'); [contradiction | reflexivity].
    + destruct (String.eqb k key'); auto.
Qed.

(** After [set], a key holds the value set or what it held before. *)
Lemma get_set_cases {V} (key key' : string) (value v' : V) (m : JsMap.t V) :
  JsMap.get key' (JsMap.set key value m) = Some v' ->
  v' = value \/ JsMap.get key' m = Some v'.
Proof.
  destruct (String.eqb_spec key key') as [->|Hne].
  - rewrite get_set_same. intros [= <-]. now left.
  - rewrite get_set_other by assumption. now right.
Qed.

(* ================================================================== *)
(** ** Creating a project *)
(* ================================================================== *)

(** C10. Whatever the insert payload holds, [createMigrationProject]
    returns a project and stores that same project under its identifier;
    the project is in status DISCOVERY with automation percentage, total
    objects and migrated objects all 0, and keeps the name, description
    and connection identifier of the payload.  The create route answers
    201 with that project. *)
Theorem createMigrationProject_resets_counters :
  forall (rt : Runtime) (project : InsertMigrationProject) (s : State),
  exists created : MigrationProject,
    fst (createMigrationProject rt project s) = Returned created
    /\ JsMap.get (proj_id created)
         (migrationProjects (snd (createMigrationProject rt project s)))
       = Some created
    /\ proj_status created = DISCOVERY
    /\ proj_autoMigrationPercentage created = 0%float
    /\ proj_totalObjects created = 0%float
    /\ proj_migratedObjects created = 0%float
    /\ proj_name created = ins_name project
    /\ proj_description created = ins_description project
    /\ proj_repositoryConnectionId created = ins_repositoryConnectionId project
    /\ postMigrationProject rt project s
       = (Returned (Json 201 created), snd (createMigrationProject rt project s)).
Proof.
  intros rt project s.
  eexists. split; [reflexivity|].
  split; [|repeat split].
  cbn. apply get_set_same.
Qed.

(* ================================================================== *)
(** ** Running the storage operations *)
(* ================================================================== *)

(** A relation between the state before and after that every statement
    of a program keeps also holds of the program. *)
Section Preservation.

Variable R : State -> State -> Prop.
Hypothesis R_refl : forall s, R s s.
Hypothesis R_trans : forall s1 s2 s3, R s1 s2 -> R s2 s3 -> R s1 s3.

Lemma keeps_ret {A} (a : A) : keeps R (ret a).
Proof. intros s. apply R_refl. Qed.

Lemma keeps_throw {A} (e : string) : keeps R (@throw A e).
Proof. intros s. apply R_refl. Qed.

Lemma keeps_gets {A} (f : State -> A) : keeps R (gets f).
Proof. intros s. apply R_refl. Qed.

Lemma keeps_awaitPromise {A} (p : Async.Promise A) : keeps R (awaitPromise p).
Proof. destruct p; [apply keeps_ret | apply keeps_throw]. Qed.

Lemma keeps_bind {A B} (m : M A) (k : A -> M B) :
  keeps R m -> (forall a, keeps R (k a)) -> keeps R (bind m k).
Proof.
  intros Hm Hk s. unfold bind. specialize (Hm s).
  destruct (m s) as [[a|e] s1]; simpl in *; [|assumption].
  eapply R_trans; [eassumption | apply Hk].
Qed.

Lemma keeps_tryCatch {A} (m : M A) (h : string -> M A) :
  keeps R m -> (forall e, keeps R (h e)) -> keeps R (tryCatch m h).
Proof.
  intros Hm Hh s. unfold tryCatch. specialize (Hm s).
  destruct (m s) as [[a|e] s1]; simpl in *; [assumption|].
  eapply R_trans; [eassumption | apply Hh].
Qed.

End Preservation.

(** The updates of projects and of sync records do not write the map
    of discovered objects. *)

Lemma sameObjects_refl : forall s, sameObjects s s.
Proof. reflexivity. Qed.

Lemma sameObjects_trans :
  forall s1 s2 s3, sameObjects s1 s2 -> sameObjects s2 s3 -> sameObjects s1 s3.
Proof. unfold sameObjects. intros s1 s2 s3 H12 H23. now rewrite H23. Qed.

Lemma updateMigrationProject_sameObjects rt id updates :
  keeps sameObjects (updateMigrationProject rt id updates).
Proof.
  intros s. unfold updateMigrationProject, bind, gets.
  destruct (JsMap.get id (migrationProjects s)); reflexivity.
Qed.

Lemma updateSyncStatus_sameObjects rt projectId status :
  keeps sameObjects (updateSyncStatus rt projectId status).
Proof.
  intros s. unfold updateSyncStatus, bind, gets, syncIdOf.
  destruct (JsMap.get projectId (syncStatuses s)) as [e|]; [|reflexivity].
  destruct (Js.truthy (sync_id e)); reflexivity.
Qed.

(** What [updateMigrationProject] does for a project that is stored. *)
Lemma updateMigrationProject_found rt id updates s existing :
  JsMap.get id (migrationProjects s) = Some existing ->
  exists updated s',
    updateMigrationProject rt id updates s = (Returned updated, s')
    /\ JsMap.get id (migrationProjects s') = Some updated
    /\ proj_status updated = orKeep (upd_status updates) (proj_status existing)
    /\ proj_totalObjects updated
       = orKeep (upd_totalObjects updates) (proj_totalObjects existing)
    /\ proj_autoMigrationPercentage updated
       = orKeep (upd_autoMigrationPercentage updates)
                (proj_autoMigrationPercentage existing)
    /\ powerCenterObjects s' = powerCenterObjects s
    /\ repositoryConnections s' = repositoryConnections s
    /\ syncStatuses s' = syncStatuses s
    /\ intervals s' = intervals s.
Proof.
  intros Hget. unfold updateMigrationProject, bind, gets. rewrite Hget.
  cbn. do 2 eexists. split; [reflexivity|]. cbn.
  split; [apply get_set_same | repeat split].
Qed.

(** What [updateSyncStatus] does: it never throws, and the record of the
    project then holds the properties that were given. *)
Lemma updateSyncStatus_run rt projectId status s :
  exists updated s',
    updateSyncStatus rt projectId status s = (Returned updated, s')
    /\ JsMap.get projectId (syncStatuses s') = Some updated
    /\ (forall x, su_status status = Some x -> sync_status updated = x)
    /\ (forall x, su_syncType status = Some x -> sync_syncType updated = x)
    /\ (forall x, su_itemsProcessed status = Some x ->
                  sync_itemsProcessed updated = x)
    /\ powerCenterObjects s' = powerCenterObjects s
    /\ migrationProjects s' = migrationProjects s
    /\ repositoryConnections s' = repositoryConnections s
    /\ intervals s' = intervals s.
Proof.
  unfold updateSyncStatus, bind, gets, syncIdOf.
  destruct (JsMap.get projectId (syncStatuses s)) as [e|];
    [destruct (Js.truthy (sync_id e))|];
    cbn; do 2 eexists; (split; [reflexivity|]); cbn;
    (split; [apply get_set_same|]);
    repeat split; intros x ->; reflexivity.
Qed.

(* ================================================================== *)
(** ** Classification of discovered objects *)
(* ================================================================== *)

Section AddsOnly.

Variable P : InsertPowerCenterObject -> Prop.

Lemma addsOnly_refl : forall s, addsOnly P s s.
Proof. intros s key obj H. now left. Qed.

Lemma addsOnly_trans :
  forall s1 s2 s3, addsOnly P s1 s2 -> addsOnly P s2 s3 -> addsOnly P s1 s3.
Proof.
  intros s1 s2 s3 H12 H23 key obj H.
  destruct (H23 key obj H) as [H2|HP]; [now apply H12 | now right].
Qed.

Lemma sameObjects_addsOnly {A} (m : M A) :
  keeps sameObjects m -> keeps (addsOnly P) m.
Proof. intros Hm s key obj H. left. now rewrite <- (Hm s). Qed.

Lemma createPowerCenterObject_addsOnly rt object :
  P object -> keeps (addsOnly P) (createPowerCenterObject rt object).
Proof.
  intros HP s key obj. cbn. intros H.
  apply get_set_cases in H. destruct H as [-> | H]; [now right | now left].
Qed.

Lemma bulkCreateFrom_addsOnly rt objects :
  Forall P objects ->
  forall results, keeps (addsOnly P) (bulkCreateFrom rt results objects).
Proof.
  induction 1 as [|object rest HP _ IH]; intros results.
  - apply keeps_ret, addsOnly_refl.
  - cbn [bulkCreateFrom].
    apply (keeps_bind _ addsOnly_trans); [|intros result; apply IH].
    now apply createPowerCenterObject_addsOnly.
Qed.

End AddsOnly.

Lemma objectOfTransformation_consistent projectId trans :
  coverageConsistent (objectOfTransformation projectId trans).
Proof.
  unfold coverageConsistent, objectOfTransformation; cbn.
  destruct (String.eqb (tr_type trans) "XML_PARSER");
    split; intros H; (discriminate H || reflexivity).
Qed.

(** The objects the discover route builds from a discovery result all
    have a coverage in the band of their status. *)
Lemma allObjects_consistent projectId discoveryResult :
  Forall coverageConsistent (allObjects projectId discoveryResult).
Proof.
  unfold allObjects.
  repeat (apply Forall_app; split);
    apply Forall_forall; intros obj Hin; apply in_map_iff in Hin;
    destruct Hin as (x & <- & _);
    try apply objectOfTransformation_consistent;
    split; cbn; intros H; (discriminate H || reflexivity).
Qed.

(** C1. Every object the discover route persists has a coverage
    consistent with its status: whatever the stored state, the answers
    of the repository and the project asked for, an object found in the
    store after the run under some key was either there before the run,
    or it is FULLY_AUTO with coverage at least 80, MANUAL_REDESIGN with
    coverage at most 30, or PARTIAL. *)
Theorem discovered_objects_coverage_consistent :
  forall (rt : Runtime) (restWorld : Rest.World) (pmrepWorld : Pmrep.World)
         (id : string) (s : State) (key : string) (obj : PowerCenterObject),
    JsMap.get key
      (powerCenterObjects (snd (postDiscover rt restWorld pmrepWorld id s)))
    = Some obj ->
    JsMap.get key (powerCenterObjects s) = Some obj
    \/ coverageConsistent (obj_fields obj).
Proof.
  intros rt restWorld pmrepWorld id s.
  change (addsOnly coverageConsistent s
            (snd (postDiscover rt restWorld pmrepWorld id s))).
  revert s. change (keeps (addsOnly coverageConsistent)
                      (postDiscover rt restWorld pmrepWorld id)).
  pose proof (addsOnly_refl coverageConsistent) as Hr.
  pose proof (addsOnly_trans coverageConsistent) as Ht.
  assert (Hupd : forall i u,
             keeps (addsOnly coverageConsistent) (updateMigrationProject rt i u))
    by (intros; apply sameObjects_addsOnly, updateMigrationProject_sameObjects).
  unfold postDiscover.
  apply (keeps_tryCatch _ Ht).
  - apply (keeps_bind _ Ht); [now apply keeps_gets|].
    intros [project|]; [|now apply keeps_ret].
    apply (keeps_bind _ Ht); [now apply keeps_gets|].
    intros [connection|]; [|now apply keeps_ret].
    apply (keeps_bind _ Ht); [apply Hupd|]. intros _.
    apply (keeps_bind _ Ht); [now apply keeps_awaitPromise|].
    intros discoveryResult.
    apply (keeps_bind _ Ht).
    { apply bulkCreateFrom_addsOnly, allObjects_consistent. }
    intros _. apply (keeps_bind _ Ht); [apply Hupd|]. intros _.
    apply (keeps_bind _ Ht).
    + apply sameObjects_addsOnly, updateSyncStatus_sameObjects.
    + intros _. now apply keeps_ret.
  - intros message. apply (keeps_bind _ Ht); [apply Hupd|].
    intros _. now apply keeps_ret.
Qed.

(** The discovery of [pmrepListing] stores, under the key [id-5], an
    XML parser transformation in status MANUAL_REDESIGN with coverage 20. *)
Lemma discovered_objects_coverage_consistent_witness :
  exists obj,
    JsMap.get "id-5"
      (powerCenterObjects
         (snd (postDiscover sampleRuntime restDown pmrepListing "p-pmrep" sampleState)))
    = Some obj
    /\ io_migrationStatus (obj_fields obj) = MANUAL_REDESIGN
    /\ (JsMap.get "id-5" (powerCenterObjects sampleState) = Some obj
        \/ coverageConsistent (obj_fields obj)).
Proof.
  eexists. split; [vm_compute; reflexivity|]. split; [reflexivity|].
  apply (discovered_objects_coverage_consistent
           sampleRuntime restDown pmrepListing "p-pmrep" sampleState "id-5").
  vm_compute; reflexivity.
Defined.

(** C4 (the route departs from it). A transformation of type MQSERIES,
    which the aggregator reports as unsupported and does not count, is
    classified by the discover route as PARTIAL with coverage 75; only
    the type XML_PARSER is given MANUAL_REDESIGN and coverage 20, and
    every type other than XML_PARSER is given PARTIAL and 75. *)
Theorem transformation_classification :
  forall (projectId : string) (trans : PowerCenterTransformation),
    (tr_type trans = "XML_PARSER" ->
     io_migrationStatus (objectOfTransformation projectId trans) = MANUAL_REDESIGN
     /\ io_automationCoverage (objectOfTransformation projectId trans) = 20%float)
    /\ (tr_type trans <> "XML_PARSER" ->
        io_migrationStatus (objectOfTransformation projectId trans) = PARTIAL
        /\ io_automationCoverage (objectOfTransformation projectId trans) = 75%float)
    /\ (tr_type trans = "MQSERIES" ->
        typeIs (anyOfTransformation trans) "MQSERIES" = true
        /\ io_migrationStatus (objectOfTransformation projectId trans) = PARTIAL
        /\ io_automationCoverage (objectOfTransformation projectId trans) = 75%float).
Proof.
  intros projectId trans. unfold objectOfTransformation, typeIs; cbn.
  split; [|split].
  - intros ->. now split.
  - intros Hother. apply String.eqb_neq in Hother. rewrite Hother. now split.
  - intros ->. now repeat split.
Qed.

Lemma transformation_classification_witness :
  typeIs (anyOfTransformation mqTransformation) "MQSERIES" = true
  /\ io_migrationStatus (objectOfTransformation "p-pmrep" mqTransformation) = PARTIAL
  /\ io_automationCoverage (objectOfTransformation "p-pmrep" mqTransformation)
     = 75%float.
Proof.
  apply (transformation_classification "p-pmrep" mqTransformation).
  reflexivity.
Defined.

(* ================================================================== *)
(** ** The assessment aggregator *)
(* ================================================================== *)

Lemma Permutation_three {A} (a b c : A) (l : list A) :
  Permutation l [a; b; c] ->
  l = [a; b; c] \/ l = [a; c; b] \/ l = [b; a; c]
  \/ l = [b; c; a] \/ l = [c; a; b] \/ l = [c; b; a].
Proof.
  intros H.
  destruct (Permutation_vs_cons_inv H) as (l1 & l2 & ->).
  apply Permutation_sym, Permutation_cons_app_inv in H.
  apply Permutation_length_2_inv in H.
  destruct l1 as [|x [|y [|z l1]]]; cbn in H; destruct H as [H|H];
    try discriminate H; inversion H; subst; cbn; tauto.
Qed.

(** A mapping has no [type] and no [expressions]: it counts for 1. *)
Lemma assessObject_mapping issues score mapping :
  assessObject (issues, score) (anyOfMapping mapping)
  = (issues, PrimFloat.add score 1%float).
Proof. reflexivity. Qed.

(** An XML parser without a DECODE expression is reported, not counted. *)
Lemma assessObject_xml issues score trans :
  tr_type trans = "XML_PARSER" ->
  hasDecode (anyOfTransformation trans) = false ->
  assessObject (issues, score) (anyOfTransformation trans)
  = (issues
       ++ [("Unsupported transformation: " ++ tr_name trans ++ " (XML Parser)")%string],
     score).
Proof.
  intros Ht Hd. unfold assessObject.
  rewrite Hd. unfold typeIs. cbn [any_type anyOfTransformation].
  rewrite Ht. reflexivity.
Qed.

(** The aggregator on the records of the service, which carry [type]:
    for one transformation of type XML_PARSER and two mappings, none
    with a DECODE expression, in any order, the loop ends with
    automationScore 2, the assessment has automationCoverage 67 (the
    rounding of 2 / 3 * 100) and tier MEDIUM, and the estimated effort,
    two hours an object, is 6. *)
Lemma aggregator_on_typed_records :
  forall (trans : PowerCenterTransformation) (m1 m2 : PowerCenterMapping)
         (objects : list AnyObject),
    tr_type trans = "XML_PARSER" ->
    hasDecode (anyOfTransformation trans) = false ->
    Permutation objects
      [anyOfTransformation trans; anyOfMapping m1; anyOfMapping m2] ->
    automationScore objects = 2%float
    /\ automationCoverage (assessMigrationComplexity objects) = 67%float
    /\ complexity (assessMigrationComplexity objects) = MEDIUM
    /\ estimatedEffortOf objects = 6%float.
Proof.
  intros trans m1 m2 objects Ht Hd Hperm.
  assert (Hlen : List.length objects = 3)
    by (now rewrite (Permutation_length Hperm)).
  assert (Hscore : automationScore objects = 2%float).
  { apply Permutation_three in Hperm.
    unfold automationScore, assessLoop.
    destruct Hperm as [ -> | [ -> | [ -> | [ -> | [ -> | -> ] ] ] ] ];
      cbn [fold_left];
      rewrite ?assessObject_mapping, ?(assessObject_xml _ _ _ Ht Hd),
              ?assessObject_mapping, ?(assessObject_xml _ _ _ Ht Hd),
              ?assessObject_mapping;
      reflexivity. }
  unfold assessMigrationComplexity, rawCoverage, estimatedEffortOf.
  cbn [automationCoverage complexity]. rewrite Hscore, Hlen.
  repeat split; reflexivity.
Qed.

(** C2 (the route departs from it). For a project whose stored objects
    are those of one transformation of type XML_PARSER and two mappings,
    none with a DECODE expression, the aggregator gives what the claim
    says when it is given the records of the service (score 2, coverage
    67, tier MEDIUM, effort 6).  The assess route gives it the objects
    read back from storage, which carry [objectType] and not [type]:
    the loop counts all three, and the route files the tier SIMPLE with
    coverage 100 and no issue; only the effort, 6, is as claimed. *)
Theorem assess_route_counts_the_unsupported_object :
  forall (rt : Runtime) (id : string) (s : State)
         (trans : PowerCenterTransformation) (m1 m2 : PowerCenterMapping),
    tr_type trans = "XML_PARSER" ->
    hasDecode (anyOfTransformation trans) = false ->
    Permutation
      (List.map obj_fields (objectsOf id (JsMap.values (powerCenterObjects s))))
      [objectOfTransformation id trans; objectOfMapping id m1; objectOfMapping id m2] ->
    (automationScore [anyOfTransformation trans; anyOfMapping m1; anyOfMapping m2]
     = 2%float
     /\ automationCoverage
          (assessMigrationComplexity
             [anyOfTransformation trans; anyOfMapping m1; anyOfMapping m2])
        = 67%float
     /\ complexity
          (assessMigrationComplexity
             [anyOfTransformation trans; anyOfMapping m1; anyOfMapping m2])
        = MEDIUM)
    /\ automationScore
         (List.map anyOfPowerCenterObject
            (objectsOf id (JsMap.values (powerCenterObjects s))))
       = 3%float
    /\ exists result,
         fst (postAssess rt id s) = Returned (Json 200 result)
         /\ ar_result (res_fields result) = SIMPLE
         /\ ar_issues_automationCoverage (res_fields result) = 100%float
         /\ ar_recommendations (res_fields result) = []
         /\ ar_estimatedEffort (res_fields result) = 6%float.
Proof.
  intros rt id s trans m1 m2 Ht Hd Hperm.
  split.
  { destruct (aggregator_on_typed_records trans m1 m2 _ Ht Hd (Permutation_refl _))
      as (Hscore & Hcov & Htier & _).
    now repeat split. }
  assert (Hlen : List.length (objectsOf id (JsMap.values (powerCenterObjects s))) = 3).
  { rewrite <- (length_map obj_fields). now rewrite (Permutation_length Hperm). }
  assert (Hroute : fst (postAssess rt id s)
                   = Returned
                       (Json 200
                          {| res_id := freshId rt (draws s);
                             res_createdAt := date rt (S (draws s));
                             res_fields :=
                               {| ar_projectId := id;
                                  ar_objectId := "project-level";
                                  ar_assessmentType := "COMPLEXITY";
                                  ar_result :=
                                    complexity
                                      (assessMigrationComplexity
                                         (List.map anyOfPowerCenterObject
                                            (objectsOf id
                                               (JsMap.values (powerCenterObjects s)))));
                                  ar_confidence := 85%float;
                                  ar_recommendations :=
                                    issues
                                      (assessMigrationComplexity
                                         (List.map anyOfPowerCenterObject
                                            (objectsOf id
                                               (JsMap.values (powerCenterObjects s)))));
                                  ar_issues_automationCoverage :=
                                    automationCoverage
                                      (assessMigrationComplexity
                                         (List.map anyOfPowerCenterObject
                                            (objectsOf id
                                               (JsMap.values (powerCenterObjects s)))));
                                  ar_estimatedEffort :=
                                    estimatedEffortOf
                                      (objectsOf id
                                         (JsMap.values (powerCenterObjects s))) |} |}))
    by reflexivity.
  rewrite Hroute. clear Hroute Hperm.
  destruct (objectsOf id (JsMap.values (powerCenterObjects s)))
    as [|a [|b [|c [|d rest]]]]; try discriminate Hlen.
  split; [reflexivity|].
  eexists. split; [reflexivity|]. repeat split.
Qed.

Lemma assess_route_counts_the_unsupported_object_witness :
  exists result,
    fst (postAssess sampleRuntime "p-rest" xmlAndMappingsState)
    = Returned (Json 200 result)
    /\ ar_result (res_fields result) = SIMPLE
    /\ ar_issues_automationCoverage (res_fields result) = 100%float
    /\ ar_recommendations (res_fields result) = []
    /\ ar_estimatedEffort (res_fields result) = 6%float.
Proof.
  destruct (assess_route_counts_the_unsupported_object
              sampleRuntime "p-rest" xmlAndMappingsState
              xmlTransformation (sampleMapping "m_orders") (sampleMapping "m_items")
              eq_refl eq_refl)
    as (_ & _ & Hroute).
  - apply Permutation_sym.
    exact (Permutation_cons_append
             [objectOfMapping "p-rest" (sampleMapping "m_orders");
              objectOfMapping "p-rest" (sampleMapping "m_items")]
             (objectOfTransformation "p-rest" xmlTransformation)).
  - exact Hroute.
Defined.

(** C6 as stated does not hold: the assessment of no object does not
    have the tier SIMPLE (it has the tier COMPLEX). *)
Lemma zero_objects_tier_is_not_simple :
  complexity (assessMigrationComplexity []) <> SIMPLE.
Proof. discriminate. Qed.

(** C6 (amended). For no object at all the aggregator returns
    automationCoverage 0, and the tier it derives from that coverage is
    COMPLEX: 0 is neither above 80 nor above 50. *)
Theorem zero_objects_assessment :
  forall objects : list AnyObject,
    List.length objects = 0 ->
    automationCoverage (assessMigrationComplexity objects) = 0%float
    /\ complexity (assessMigrationComplexity objects) = COMPLEX.
Proof.
  intros [|object rest] H; [|discriminate H]. split; reflexivity.
Qed.

Lemma zero_objects_assessment_witness :
  automationCoverage (assessMigrationComplexity []) = 0%float
  /\ complexity (assessMigrationComplexity []) = COMPLEX.
Proof. apply (zero_objects_assessment []). reflexivity. Defined.

(* ================================================================== *)
(** ** Discovery of an empty repository *)
(* ================================================================== *)

(** C5 (the route departs from it). When the adapter returns no object
    of any kind, the discover route stores no object and sets the
    project's total to 0, but the percentage it stores is the rounding
    of [0 / 0 * 100]: it is [NaN], not 0. *)
Theorem empty_discovery_stores_nan_percentage :
  forall (rt : Runtime) (restWorld : Rest.World) (pmrepWorld : Pmrep.World)
         (id : string) (s : State)
         (project : MigrationProject) (connection : RepositoryConnection),
    JsMap.get id (migrationProjects s) = Some project ->
    proj_id project = id ->
    JsMap.get (proj_repositoryConnectionId project) (repositoryConnections s)
    = Some connection ->
    runDiscovery restWorld pmrepWorld connection = Async.Fulfilled emptyPayload ->
    powerCenterObjects (snd (postDiscover rt restWorld pmrepWorld id s))
    = powerCenterObjects s
    /\ exists stored : MigrationProject,
         JsMap.get id
           (migrationProjects (snd (postDiscover rt restWorld pmrepWorld id s)))
         = Some stored
         /\ proj_totalObjects stored = 0%float
         /\ proj_autoMigrationPercentage stored = nan
         /\ PrimFloat.eqb (proj_autoMigrationPercentage stored) 0%float = false.
Proof.
  intros rt rw pw id s project connection Hp Hid Hc Hd.
  destruct (updateMigrationProject_found rt id
              {| upd_status := Some DISCOVERY; upd_totalObjects := None;
                 upd_autoMigrationPercentage := None |} s project Hp)
    as (p1 & s1 & E1 & G1 & _ & _ & _ & O1 & _).
  destruct (updateMigrationProject_found rt id
              {| upd_status := Some ASSESSMENT;
                 upd_totalObjects := Some (totalObjectsOf []);
                 upd_autoMigrationPercentage := Some (autoMigrationPercentageOf []) |}
              s1 p1 G1)
    as (p2 & s2 & E2 & G2 & _ & T2 & A2 & O2 & _).
  destruct (updateSyncStatus_run rt id
              {| su_lastSyncTime := None; su_syncType := Some FULL;
                 su_status := Some COMPLETED;
                 su_itemsProcessed := Some (totalObjectsOf []);
                 su_errors := None |} s2)
    as (st & s3 & E3 & _ & _ & _ & _ & O3 & M3 & _).
  assert (Hrun : snd (postDiscover rt rw pw id s) = s3).
  { unfold postDiscover, tryCatch, bind, getMigrationProject,
      getRepositoryConnection, gets.
    rewrite Hp, Hc, Hid, E1, Hd.
    cbn [awaitPromise ret allObjects emptyPayload workflows mappings sessions
           transformations sources targets List.map app
           bulkCreatePowerCenterObjects bulkCreateFrom].
    rewrite E2, E3. reflexivity. }
  rewrite Hrun. split.
  - now rewrite O3, O2, O1.
  - exists p2. rewrite M3, A2. repeat split; assumption.
Qed.

Lemma empty_discovery_stores_nan_percentage_witness :
  powerCenterObjects
    (snd (postDiscover sampleRuntime restDown pmrepSilent "p-pmrep" sampleState))
  = powerCenterObjects sampleState
  /\ exists stored : MigrationProject,
       JsMap.get "p-pmrep"
         (migrationProjects
            (snd (postDiscover sampleRuntime restDown pmrepSilent "p-pmrep"
                    sampleState)))
       = Some stored
       /\ proj_totalObjects stored = 0%float
       /\ proj_autoMigrationPercentage stored = nan
       /\ PrimFloat.eqb (proj_autoMigrationPercentage stored) 0%float = false.
Proof.
  apply (empty_discovery_stores_nan_percentage
           sampleRuntime restDown pmrepSilent "p-pmrep" sampleState
           (sampleProject "p-pmrep" "conn-pmrep") pmrepConnection);
    reflexivity.
Defined.

(* ================================================================== *)
(** ** Structural tier of workflows and mappings *)
(* ================================================================== *)

Lemma calculateComplexity_follows_rule (object : RawRecord) :
  followsTierRule (componentCount object) (calculateComplexity object).
Proof.
  unfold followsTierRule, calculateComplexity.
  destruct (Nat.eqb_spec (componentCount object) 0) as [E|E];
    [|destruct (Nat.leb_spec (componentCount object) 5)];
    repeat split; intros; (reflexivity || lia).
Qed.

Lemma parsePmrepLines_In {A} keyword minParts (build : string -> list string -> A)
    output (x : A) :
  In x (parsePmrepLines keyword minParts build output) ->
  exists line parts, x = build line parts.
Proof.
  unfold parsePmrepLines. rewrite in_flat_map. intros (line & _ & Hin).
  destruct (Js.includes line keyword); [|contradiction].
  destruct (Nat.leb minParts _); [|contradiction].
  destruct Hin as [<-|[]]. now eexists _, _.
Qed.

Lemma mapRecords_In {A} (convert : RawRecord -> A) records (x : A) :
  In x (mapRecords convert records) -> exists raw, x = convert raw.
Proof.
  destruct records as [l|]; [|contradiction]. cbn. rewrite in_map_iff.
  intros (raw & <- & _). now exists raw.
Qed.

Lemma getViaRest_In {A} path records (convert : RawRecord -> A)
    baseUrl token outcome (l : list A) (x : A) :
  Async.resume (Rest.getViaRest path records convert baseUrl token) outcome
  = Async.Fulfilled l ->
  In x l -> exists raw, x = convert raw.
Proof.
  cbn. destruct outcome as [m|[|] [data|m]]; cbn; intros [= <-];
    try contradiction.
  apply mapRecords_In.
Qed.

Lemma getViaPmrep_In {A} kind (parse : string -> list A)
    connection outcome (l : list A) (x : A) :
  Async.resume (Pmrep.getViaPmrep kind parse connection) outcome
  = Async.Fulfilled l ->
  In x l -> exists stdout, In x (parse stdout).
Proof.
  cbn. destruct outcome as [stdout|m]; intros [= <-]; [|contradiction].
  intros H. now exists stdout.
Qed.

(** C3 as stated does not hold on the pmrep path: the
    workflow parsed from a one-line listing has no session and no
    dependency, and its tier is MEDIUM, where the rule gives SIMPLE. *)
Lemma pmrep_workflow_without_components_is_medium :
  exists wf,
    In wf (parsePmrepWorkflowOutput workflowListing)
    /\ List.length (wf_sessions wf) + List.length (wf_dependencies wf) = 0
    /\ wf_complexity wf = MEDIUM
    /\ ~ followsTierRule
           (List.length (wf_sessions wf) + List.length (wf_dependencies wf))
           (wf_complexity wf).
Proof.
  eexists. split; [left; reflexivity|]. cbn. repeat split.
  intros (H & _). specialize (H eq_refl). discriminate H.
Qed.

(** C3 (amended). On the REST path the tier of a workflow or mapping
    follows the rule on the raw record kept as its metadata: SIMPLE for
    a count of transformations, sessions and dependencies of 0, MEDIUM
    for a count from 1 to 5, COMPLEX above.  On the pmrep path every
    workflow and mapping is given the tier MEDIUM, with no session,
    dependency or transformation recorded. *)
Theorem structural_tier_by_adapter :
  (forall baseUrl token outcome (found : list PowerCenterWorkflow) wf,
      Async.resume (Rest.getWorkflowsViaRest baseUrl token) outcome
      = Async.Fulfilled found ->
      In wf found ->
      exists raw,
        wf_metadata wf = MetaRecord raw
        /\ followsTierRule (componentCount raw) (wf_complexity wf))
  /\ (forall baseUrl token outcome (found : list PowerCenterMapping) mapping,
         Async.resume (Rest.getMappingsViaRest baseUrl token) outcome
         = Async.Fulfilled found ->
         In mapping found ->
         exists raw,
           mp_metadata mapping = MetaRecord raw
           /\ followsTierRule (componentCount raw) (mp_complexity mapping))
  /\ (forall connection outcome (found : list PowerCenterWorkflow) wf,
         Async.resume (Pmrep.getWorkflowsViaPmrep connection) outcome
         = Async.Fulfilled found ->
         In wf found ->
         wf_complexity wf = MEDIUM
         /\ wf_sessions wf = [] /\ wf_dependencies wf = [])
  /\ (forall connection outcome (found : list PowerCenterMapping) mapping,
         Async.resume (Pmrep.getMappingsViaPmrep connection) outcome
         = Async.Fulfilled found ->
         In mapping found ->
         mp_complexity mapping = MEDIUM /\ mp_transformations mapping = []).
Proof.
  split; [|split; [|split]].
  - intros baseUrl token outcome found wf Hres Hin.
    destruct (getViaRest_In _ _ _ _ _ _ _ _ Hres Hin) as (raw & ->).
    exists raw. split; [reflexivity | apply calculateComplexity_follows_rule].
  - intros baseUrl token outcome found mapping Hres Hin.
    destruct (getViaRest_In _ _ _ _ _ _ _ _ Hres Hin) as (raw & ->).
    exists raw. split; [reflexivity | apply calculateComplexity_follows_rule].
  - intros connection outcome found wf Hres Hin.
    destruct (getViaPmrep_In "workflow" parsePmrepWorkflowOutput connection
                _ _ _ Hres Hin) as (stdout & Hparsed).
    apply parsePmrepLines_In in Hparsed.
    destruct Hparsed as (line & parts & ->). now repeat split.
  - intros connection outcome found mapping Hres Hin.
    destruct (getViaPmrep_In "mapping" parsePmrepMappingOutput connection
                _ _ _ Hres Hin) as (stdout & Hparsed).
    apply parsePmrepLines_In in Hparsed.
    destruct Hparsed as (line & parts & ->). now split.
Qed.

Lemma structural_tier_by_adapter_witness :
  (exists raw,
      mp_metadata (mappingOfRaw (rawMapping "m_orders" ["exp"; "agg"]))
      = MetaRecord raw
      /\ followsTierRule (componentCount raw)
           (mp_complexity (mappingOfRaw (rawMapping "m_orders" ["exp"; "agg"]))))
  /\ forall wf,
       In wf (parsePmrepWorkflowOutput workflowListing) ->
       wf_complexity wf = MEDIUM /\ wf_sessions wf = [] /\ wf_dependencies wf = [].
Proof.
  destruct structural_tier_by_adapter as (_ & Hrest & Hpmrep & _). split.
  - apply (Hrest "http://pc.example.org:8080" (Rest.TokenString "t0k3n")
             (Async.respond restMappingsOnly
                (Async.request
                   (Rest.getMappingsViaRest "http://pc.example.org:8080"
                      (Rest.TokenString "t0k3n"))))
             _ _ eq_refl).
    left. reflexivity.
  - intros wf Hin.
    apply (Hpmrep pmrepConnection (Pmrep.Exited workflowListing) _ wf eq_refl Hin).
Defined.

(* ================================================================== *)
(** ** Starting the sync of a project *)
(* ================================================================== *)

(** C9 as stated does not hold: on a project
    whose sync status is SYNCING, with one timer alive, the route adds a
    second timer, and it answers with the same message as the first
    time, not with the status. *)
Lemma second_start_sync_adds_a_task :
  syncStateOf "p-rest" syncingState = Some SYNCING
  /\ activeSyncTasks "p-rest" syncingState = 1
  /\ activeSyncTasks "p-rest"
       (snd (postStartSync sampleRuntime "p-rest" syncingState)) = 2
  /\ fst (postStartSync sampleRuntime "p-rest" syncingState)
     = Returned (Json 200 "Real-time sync started successfully").
Proof. repeat split; vm_compute; reflexivity. Qed.

(** C9 (amended). For a stored project with a stored connection, every
    call of start-sync, whatever the sync status of the project, adds
    one interval timer for the project, answers with the message that
    the sync was started, and leaves the sync record of the project in
    status SYNCING, of type INCREMENTAL, with 0 items processed. *)
Theorem start_sync_always_adds_a_task :
  forall (rt : Runtime) (id : string) (s : State)
         (project : MigrationProject) (connection : RepositoryConnection),
    JsMap.get id (migrationProjects s) = Some project ->
    proj_id project = id ->
    JsMap.get (proj_repositoryConnectionId project) (repositoryConnections s)
    = Some connection ->
    fst (postStartSync rt id s)
    = Returned (Json 200 "Real-time sync started successfully")
    /\ activeSyncTasks id (snd (postStartSync rt id s)) = S (activeSyncTasks id s)
    /\ exists status : SyncStatus,
         JsMap.get id (syncStatuses (snd (postStartSync rt id s))) = Some status
         /\ sync_status status = SYNCING
         /\ sync_syncType status = INCREMENTAL
         /\ sync_itemsProcessed status = 0%float.
Proof.
  intros rt id s project connection Hp Hid Hc.
  set (timer := {| iv_projectId := id; iv_connection := connection;
                   iv_every := 30000; iv_clearedAfter := 24 * 60 * 60 * 1000 |}).
  destruct (updateSyncStatus_run rt id
              {| su_lastSyncTime := None; su_syncType := Some INCREMENTAL;
                 su_status := Some SYNCING; su_itemsProcessed := Some 0%float;
                 su_errors := None |}
              (withIntervals s (intervals s ++ [timer])))
    as (st & s2 & E & G & Hst & Hty & Hit & _ & _ & _ & I2).
  assert (Hrun : postStartSync rt id s
                 = (Returned (Json 200 "Real-time sync started successfully"), s2)).
  { unfold postStartSync, tryCatch, bind, getMigrationProject,
      getRepositoryConnection, gets.
    rewrite Hp, Hc, Hid.
    cbn [startRealTimeSync modify]. fold timer. rewrite E. reflexivity. }
  rewrite Hrun. cbn [fst snd]. split; [reflexivity|]. split.
  - unfold activeSyncTasks. rewrite I2. cbn [intervals withIntervals].
    rewrite filter_app, length_app. cbn [List.filter iv_projectId timer].
    rewrite String.eqb_refl. cbn. lia.
  - exists st. split; [assumption|].
    repeat split; [apply Hst | apply Hty | apply Hit]; reflexivity.
Qed.

Lemma start_sync_always_adds_a_task_witness :
  fst (postStartSync sampleRuntime "p-rest" syncingState)
  = Returned (Json 200 "Real-time sync started successfully")
  /\ activeSyncTasks "p-rest" (snd (postStartSync sampleRuntime "p-rest" syncingState))
     = S (activeSyncTasks "p-rest" syncingState)
  /\ exists status : SyncStatus,
       JsMap.get "p-rest"
         (syncStatuses (snd (postStartSync sampleRuntime "p-rest" syncingState)))
       = Some status
       /\ sync_status status = SYNCING
       /\ sync_syncType status = INCREMENTAL
       /\ sync_itemsProcessed status = 0%float.
Proof.
  apply (start_sync_always_adds_a_task sampleRuntime "p-rest" syncingState
           (sampleProject "p-rest" "conn-rest") restConnection);
    reflexivity.
Defined.

(* ================================================================== *)
(** ** Traces and results of the two discoveries *)
(* ================================================================== *)

Section AsyncFacts.

Context {Req Outcome : Type}.

Lemma firstRejection_none (rejections : list (option string)) (settling : list nat) :
  (forall i, nth i rejections None = None) ->
  Async.firstRejection rejections settling = None.
Proof.
  intros Hnone. induction settling as [|i rest IH]; cbn; [reflexivity|].
  now rewrite Hnone.
Qed.

(** Whatever its promise, [all6] leaves the trace of six calls issued
    together. *)
Lemma all6_trace {A1 A2 A3 A4 A5 A6}
    (c1 : Async.Call Req Outcome A1) (c2 : Async.Call Req Outcome A2)
    (c3 : Async.Call Req Outcome A3) (c4 : Async.Call Req Outcome A4)
    (c5 : Async.Call Req Outcome A5) (c6 : Async.Call Req Outcome A6)
    (w : Async.World Req Outcome) :
  snd (Async.all6 c1 c2 c3 c4 c5 c6 w)
  = Async.allTrace w
      [Async.request c1; Async.request c2; Async.request c3;
       Async.request c4; Async.request c5; Async.request c6].
Proof.
  unfold Async.all6.
  destruct (Async.firstRejection _ _); [reflexivity|].
  destruct (Async.settle w c1), (Async.settle w c2), (Async.settle w c3),
    (Async.settle w c4), (Async.settle w c5), (Async.settle w c6);
    reflexivity.
Qed.

(** When the six calls are fulfilled, so is [all6], with their values. *)
Lemma all6_fulfilled {A1 A2 A3 A4 A5 A6}
    (c1 : Async.Call Req Outcome A1) (c2 : Async.Call Req Outcome A2)
    (c3 : Async.Call Req Outcome A3) (c4 : Async.Call Req Outcome A4)
    (c5 : Async.Call Req Outcome A5) (c6 : Async.Call Req Outcome A6)
    (w : Async.World Req Outcome) v1 v2 v3 v4 v5 v6 :
  Async.settle w c1 = Async.Fulfilled v1 ->
  Async.settle w c2 = Async.Fulfilled v2 ->
  Async.settle w c3 = Async.Fulfilled v3 ->
  Async.settle w c4 = Async.Fulfilled v4 ->
  Async.settle w c5 = Async.Fulfilled v5 ->
  Async.settle w c6 = Async.Fulfilled v6 ->
  fst (Async.all6 c1 c2 c3 c4 c5 c6 w)
  = Async.Fulfilled (v1, v2, v3, v4, v5, v6).
Proof.
  intros E1 E2 E3 E4 E5 E6. unfold Async.all6.
  rewrite E1, E2, E3, E4, E5, E6. cbn [Async.rejection].
  rewrite firstRejection_none; [reflexivity|].
  intros [|[|[|[|[|[|[|i]]]]]]]; reflexivity.
Qed.

Lemma distinct_In (positions : list nat) (i : nat) :
  In i (Async.distinct positions) <-> In i positions.
Proof.
  induction positions as [|j rest IH]; cbn; [tauto|].
  rewrite filter_In, IH, negb_true_iff, Nat.eqb_neq.
  destruct (Nat.eq_dec j i); intuition congruence.
Qed.

Lemma distinct_NoDup (positions : list nat) : NoDup (Async.distinct positions).
Proof.
  induction positions as [|j rest IH]; cbn; constructor.
  - rewrite filter_In, negb_true_iff, Nat.eqb_neq. tauto.
  - now apply NoDup_filter.
Qed.

(** Every pending call settles, and settles once. *)
Lemma settlement_Permutation (w : Async.World Req Outcome) (n : nat) :
  Permutation (Async.settlement w n) (seq 0 n).
Proof.
  apply NoDup_Permutation; [apply distinct_NoDup | apply seq_NoDup |].
  intros i. unfold Async.settlement.
  rewrite distinct_In, in_app_iff, filter_In, Nat.ltb_lt, in_seq. lia.
Qed.

Lemma requestsAt_Permutation (requests : list Req) (positions : list nat) :
  Permutation positions (seq 0 (List.length requests)) ->
  Permutation (Async.requestsAt requests positions) requests.
Proof.
  intros Hperm. unfold Async.requestsAt.
  rewrite (Permutation_flat_map _ Hperm). clear Hperm.
  assert (H : forall done,
             flat_map
               (fun i => match nth_error (done ++ requests) i with
                         | Some r => [r] | None => []
                         end)
               (seq (List.length done) (List.length requests))
             = requests).
  { induction requests as [|r rest IH]; intros done; [reflexivity|].
    cbn [List.length seq flat_map].
    rewrite nth_error_app2, Nat.sub_diag by lia. cbn. f_equal.
    specialize (IH (done ++ [r])).
    rewrite <- app_assoc, length_app, Nat.add_1_r in IH. exact IH. }
  now rewrite <- (H []) at 2.
Qed.

End AsyncFacts.

(* ================================================================== *)
(** ** Order of the pmrep commands *)
(* ================================================================== *)

(** C8 as stated does not hold: in
    the discovery of [pmrepListing] the six list commands are all
    issued before the first of them has settled. *)
Lemma pmrep_list_commands_overlap :
  firstn 8 (snd (Pmrep.discoverRepositoryViaPmrep pmrepConnection pmrepListing))
  = [Async.Issued "pmrep connect -r REP_DEV -h pc.example.org -o 6005 -n admin";
     Async.Settled "pmrep connect -r REP_DEV -h pc.example.org -o 6005 -n admin";
     Async.Issued "pmrep listobjects -o workflow -t all";
     Async.Issued "pmrep listobjects -o mapping -t all";
     Async.Issued "pmrep listobjects -o session -t all";
     Async.Issued "pmrep listobjects -o transformation -t all";
     Async.Issued "pmrep listobjects -o source -t all";
     Async.Issued "pmrep listobjects -o target -t all"]
  /\ Async.sequential
       (snd (Pmrep.discoverRepositoryViaPmrep pmrepConnection pmrepListing))
     = false.
Proof. split; vm_compute; reflexivity. Qed.

(** C8 (amended). In every pmrep discovery whose connect command
    succeeds, the connect command settles first, then the six list
    commands are issued together, in the order workflow, mapping,
    session, transformation, source, target, before any of them
    settles; each of the six then settles once, in an order the
    processes decide.  No command waits for the one before it. *)
Theorem pmrep_list_commands_issued_together :
  forall (connection : RepositoryConnection) (pmrepWorld : Pmrep.World)
         (stdout : string),
    Async.respond pmrepWorld (Pmrep.connectCommand connection)
    = Pmrep.Exited stdout ->
    exists settled : list string,
      snd (Pmrep.discoverRepositoryViaPmrep connection pmrepWorld)
      = [Async.Issued (Pmrep.connectCommand connection);
         Async.Settled (Pmrep.connectCommand connection)]
        ++ List.map Async.Issued Pmrep.listCommands
        ++ List.map Async.Settled settled
      /\ Permutation settled Pmrep.listCommands
      /\ Async.sequential
           (snd (Pmrep.discoverRepositoryViaPmrep connection pmrepWorld))
         = false.
Proof.
  intros connection w stdout Hconnect.
  exists (Async.requestsAt Pmrep.listCommands (Async.settlement w 6)).
  assert (Htrace :
            snd (Pmrep.discoverRepositoryViaPmrep connection w)
            = [Async.Issued (Pmrep.connectCommand connection);
               Async.Settled (Pmrep.connectCommand connection)]
              ++ Async.allTrace w Pmrep.listCommands).
  { unfold Pmrep.discoverRepositoryViaPmrep, Async.tryCatch, Async.bind,
      Async.await, Async.settle.
    cbn [Async.request Async.resume Pmrep.connectPmrep]. rewrite Hconnect.
    pose proof (all6_trace (Pmrep.getWorkflowsViaPmrep connection)
                  (Pmrep.getMappingsViaPmrep connection)
                  (Pmrep.getSessionsViaPmrep connection)
                  (Pmrep.getTransformationsViaPmrep connection)
                  (Pmrep.getSourcesViaPmrep connection)
                  (Pmrep.getTargetsViaPmrep connection) w) as Hall.
    destruct (Async.all6 _ _ _ _ _ _ w) as [[[[[[[v1 v2] v3] v4] v5] v6]|m] trace];
      cbn [snd] in Hall; subst trace; cbn [Async.ret Async.throw snd];
      rewrite ?app_nil_r; reflexivity. }
  split; [exact Htrace|]. split.
  - apply requestsAt_Permutation, settlement_Permutation.
  - rewrite Htrace. reflexivity.
Qed.

Lemma pmrep_list_commands_issued_together_witness :
  exists settled : list string,
    snd (Pmrep.discoverRepositoryViaPmrep pmrepConnection pmrepListing)
    = [Async.Issued (Pmrep.connectCommand pmrepConnection);
       Async.Settled (Pmrep.connectCommand pmrepConnection)]
      ++ List.map Async.Issued Pmrep.listCommands
      ++ List.map Async.Settled settled
    /\ Permutation settled Pmrep.listCommands
    /\ Async.sequential
         (snd (Pmrep.discoverRepositoryViaPmrep pmrepConnection pmrepListing))
       = false.
Proof.
  apply (pmrep_list_commands_issued_together pmrepConnection pmrepListing EmptyString).
  reflexivity.
Defined.

(* ================================================================== *)
(** ** Failures of a REST discovery *)
(* ================================================================== *)

(** A read that ends without an exception is fulfilled with the list of
    its answer. *)
Lemma getViaRest_completes {A} path records (convert : RawRecord -> A)
    baseUrl token (w : Rest.World) :
  readCompletes
    (Async.respond w (Async.request (Rest.getViaRest path records convert baseUrl token)))
  = true ->
  Async.settle w (Rest.getViaRest path records convert baseUrl token)
  = Async.Fulfilled
      (listOfAnswer records convert
         (Async.respond w
            (Async.request (Rest.getViaRest path records convert baseUrl token)))).
Proof.
  unfold Async.settle. cbn [Async.resume Rest.getViaRest].
  destruct (Async.respond w _) as [m|[|] [data|m]]; cbn;
    intros H; (discriminate H || reflexivity).
Qed.

(** A read whose request is rejected throws, and the whole discovery is
    rejected with its message. *)
Remark rest_read_exception_aborts_discovery :
  fst (Rest.discoverRepositoryViaRest restConnection restWorkflowsDropped)
  = Async.Rejected "REST API discovery failed: socket hang up".
Proof. vm_compute. reflexivity. Qed.

(** The aggregator reads the property [type], which the objects read
    back from storage do not have: on the three objects stored by the
    discovery of [pmrepListing], one of them an XML parser, the assess
    route counts every object, reports nothing and files the tier
    SIMPLE with coverage 100. *)
Remark stored_objects_are_all_counted :
  exists result,
    fst (postAssess sampleRuntime "p-pmrep" discoveredState)
    = Returned (Json 200 result)
    /\ ar_result (res_fields result) = SIMPLE
    /\ ar_issues_automationCoverage (res_fields result) = 100%float
    /\ ar_recommendations (res_fields result) = []
    /\ ar_estimatedEffort (res_fields result) = 6%float.
Proof. eexists. split; [vm_compute; reflexivity|]. repeat split. Qed.

(* ================================================================== *)
(** ** Results of a pmrep discovery *)
(* ================================================================== *)

(** X1. When the connect command of a pmrep discovery fails, the
    discovery is rejected with the message of the command behind the
    prefix of the adapter, and no list command is issued. *)
Theorem pmrep_connect_failure_rejects :
  forall (connection : RepositoryConnection) (pmrepWorld : Pmrep.World)
         (message : string),
    Async.respond pmrepWorld (Pmrep.connectCommand connection)
    = Pmrep.ExecFailed message ->
    Pmrep.discoverRepositoryViaPmrep connection pmrepWorld
    = (Async.Rejected ("pmrep discovery failed: " ++ message),
       [Async.Issued (Pmrep.connectCommand connection);
        Async.Settled (Pmrep.connectCommand connection)]).
Proof.
  intros connection w message Hconnect.
  unfold Pmrep.discoverRepositoryViaPmrep, Async.tryCatch, Async.bind,
    Async.await, Async.settle.
  cbn [Async.request Async.resume Pmrep.connectPmrep]. rewrite Hconnect.
  reflexivity.
Qed.

(** X2. When the connect command succeeds, a pmrep discovery is always
    fulfilled: each kind holds the records parsed from the output of its
    list command, and a list command that fails gives the empty list for
    its kind without failing the discovery. *)
Theorem pmrep_discovery_absorbs_list_failures :
  forall (connection : RepositoryConnection) (pmrepWorld : Pmrep.World)
         (stdout : string),
    Async.respond pmrepWorld (Pmrep.connectCommand connection)
    = Pmrep.Exited stdout ->
    let listed kind := Async.respond pmrepWorld (Pmrep.listCommand kind) in
    fst (Pmrep.discoverRepositoryViaPmrep connection pmrepWorld)
    = Async.Fulfilled
        {| workflows := listingOf parsePmrepWorkflowOutput (listed "workflow");
           mappings := listingOf parsePmrepMappingOutput (listed "mapping");
           sessions := listingOf parsePmrepSessionOutput (listed "session");
           transformations :=
             listingOf parsePmrepTransformationOutput (listed "transformation");
           sources := listingOf parsePmrepSourceOutput (listed "source");
           targets := listingOf parsePmrepTargetOutput (listed "target") |}.
Proof.
  intros connection w stdout Hconnect listed.
  assert (Hget : forall A kind (parse : string -> list A),
             Async.settle w (Pmrep.getViaPmrep kind parse connection)
             = Async.Fulfilled (listingOf parse (listed kind))).
  { intros A kind parse. unfold Async.settle, listed.
    cbn [Async.request Async.resume Pmrep.getViaPmrep].
    now destruct (Async.respond w (Pmrep.listCommand kind)). }
  unfold Pmrep.discoverRepositoryViaPmrep, Async.tryCatch, Async.bind,
    Async.await, Async.settle.
  cbn [Async.request Async.resume Pmrep.connectPmrep]. rewrite Hconnect.
  pose proof (all6_fulfilled
                (Pmrep.getWorkflowsViaPmrep connection)
                (Pmrep.getMappingsViaPmrep connection)
                (Pmrep.getSessionsViaPmrep connection)
                (Pmrep.getTransformationsViaPmrep connection)
                (Pmrep.getSourcesViaPmrep connection)
                (Pmrep.getTargetsViaPmrep connection) w _ _ _ _ _ _
                (Hget _ _ _) (Hget _ _ _) (Hget _ _ _)
                (Hget _ _ _) (Hget _ _ _) (Hget _ _ _)) as Hall.
  destruct (Async.all6 _ _ _ _ _ _ w) as [p trace]. cbn [fst] in Hall.
  subst p. reflexivity.
Qed.

Lemma pmrep_connect_failure_rejects_witness :
  Pmrep.discoverRepositoryViaPmrep pmrepConnection pmrepUnreachable
  = (Async.Rejected "pmrep discovery failed: Command failed: pmrep connect",
     [Async.Issued (Pmrep.connectCommand pmrepConnection);
      Async.Settled (Pmrep.connectCommand pmrepConnection)]).
Proof.
  apply (pmrep_connect_failure_rejects pmrepConnection pmrepUnreachable).
  reflexivity.
Defined.

Lemma pmrep_discovery_absorbs_list_failures_witness :
  exists payload,
    fst (Pmrep.discoverRepositoryViaPmrep pmrepConnection pmrepWorkflowsOnly)
    = Async.Fulfilled payload
    /\ List.map wf_name (workflows payload) = ["wf_orders_workflow"]
    /\ transformations payload = [].
Proof.
  eexists. split.
  - apply (pmrep_discovery_absorbs_list_failures
             pmrepConnection pmrepWorkflowsOnly EmptyString).
    reflexivity.
  - split; reflexivity.
Defined.

(* ================================================================== *)
(** ** The parsers of the pmrep listings *)
(* ================================================================== *)

Lemma split_not_nil (sep : ascii) (s : string) : Js.split sep s <> [].
Proof.
  destruct s as [|c s]; cbn; [discriminate|].
  destruct (Ascii.eqb c sep); [discriminate|].
  destruct (Js.split sep s); discriminate.
Qed.

(** Splitting a text that has a separator in it splits both sides. *)
Lemma split_app (sep : ascii) (a b : string) :
  Js.split sep (a ++ String sep b) = Js.split sep a ++ Js.split sep b.
Proof.
  induction a as [|c a IH]; cbn.
  - now rewrite Ascii.eqb_refl.
  - destruct (Ascii.eqb c sep); [now rewrite IH|].
    rewrite IH. pose proof (split_not_nil sep a) as Hne.
    destruct (Js.split sep a); [contradiction | reflexivity].
Qed.

Lemma parsePmrepLines_app {A} keyword minParts (build : string -> list string -> A)
    (a b : string) :
  parsePmrepLines keyword minParts build (a ++ String Js.LF b)
  = parsePmrepLines keyword minParts build a
    ++ parsePmrepLines keyword minParts build b.
Proof.
  unfold parsePmrepLines, pmrepLines.
  now rewrite split_app, filter_app, flat_map_app.
Qed.

(** X3. The six parsers work line by line: the records of two listings
    joined by a line feed are the records of the first followed by the
    records of the second. *)
Theorem pmrep_parsers_are_linewise :
  forall a b : string,
    parsePmrepWorkflowOutput (a ++ String Js.LF b)
    = parsePmrepWorkflowOutput a ++ parsePmrepWorkflowOutput b
    /\ parsePmrepMappingOutput (a ++ String Js.LF b)
       = parsePmrepMappingOutput a ++ parsePmrepMappingOutput b
    /\ parsePmrepSessionOutput (a ++ String Js.LF b)
       = parsePmrepSessionOutput a ++ parsePmrepSessionOutput b
    /\ parsePmrepTransformationOutput (a ++ String Js.LF b)
       = parsePmrepTransformationOutput a ++ parsePmrepTransformationOutput b
    /\ parsePmrepSourceOutput (a ++ String Js.LF b)
       = parsePmrepSourceOutput a ++ parsePmrepSourceOutput b
    /\ parsePmrepTargetOutput (a ++ String Js.LF b)
       = parsePmrepTargetOutput a ++ parsePmrepTargetOutput b.
Proof. intros a b. repeat split; apply parsePmrepLines_app. Qed.

(** The records of a listing are built from its well-formed lines. *)
Lemma parsePmrepLines_In_iff {A} keyword minParts
    (build : string -> list string -> A) output (x : A) :
  In x (parsePmrepLines keyword minParts build output) <->
  exists line,
    In line (Js.split Js.LF output)
    /\ Js.truthy (Js.trim line) = true
    /\ Js.includes line keyword = true
    /\ minParts <= List.length (Js.split Js.TAB line)
    /\ x = build line (Js.split Js.TAB line).
Proof.
  unfold parsePmrepLines, pmrepLines. rewrite in_flat_map. split.
  - intros (line & Hline & Hin). apply filter_In in Hline.
    destruct Hline as (Hsplit & Htrim). exists line.
    destruct (Js.includes line keyword); [|contradiction].
    destruct (Nat.leb_spec minParts (List.length (Js.split Js.TAB line)));
      [|contradiction].
    destruct Hin as [<-|[]]. auto.
  - intros (line & Hsplit & Htrim & Hinc & Hlen & ->). exists line. split.
    + apply filter_In. auto.
    + rewrite Hinc. apply Nat.leb_le in Hlen. rewrite Hlen. now left.
Qed.

Lemma trimmed_or_not_empty parts i dflt :
  dflt <> EmptyString -> Js.trimmed_or parts i dflt <> EmptyString.
Proof.
  intros Hd. unfold Js.trimmed_or, Js.or_else.
  destruct (nth_error parts i) as [p|]; [|assumption].
  destruct (Js.trim p); cbn; [assumption | discriminate].
Qed.

(** X4. A transformation is parsed from a listing exactly for the
    lines of the listing that are not blank, include the word
    transformation and have at least three tab-separated parts: a line
    that is not of this form is dropped, and no other line is.  The
    transformation keeps its line as metadata, has no expression, and
    its type is never empty (a blank third part gives unknown). *)
Theorem pmrep_transformations_come_from_listed_lines :
  forall (output line : string),
    ((exists trans,
         In trans (parsePmrepTransformationOutput output)
         /\ tr_metadata trans = MetaRawOutput line)
     <-> (In line (Js.split Js.LF output)
          /\ Js.truthy (Js.trim line) = true
          /\ Js.includes line "transformation" = true
          /\ 3 <= List.length (Js.split Js.TAB line)))
    /\ forall trans,
       In trans (parsePmrepTransformationOutput output) ->
       tr_type trans <> EmptyString /\ tr_expressions trans = [].
Proof.
  intros output line. split; [split|].
  - intros (trans & Hin & Hmeta).
    apply parsePmrepLines_In_iff in Hin.
    destruct Hin as (l & Hsplit & Htrim & Hinc & Hlen & ->).
    cbn in Hmeta. injection Hmeta as ->. auto.
  - intros (Hsplit & Htrim & Hinc & Hlen). eexists. split.
    + apply parsePmrepLines_In_iff. exists line. repeat split; eauto.
    + reflexivity.
  - intros trans Hin. apply parsePmrepLines_In_iff in Hin.
    destruct Hin as (l & _ & _ & _ & _ & ->). cbn. split; [|reflexivity].
    apply trimmed_or_not_empty. discriminate.
Qed.

Lemma pmrep_transformations_come_from_listed_lines_witness :
  exists trans,
    In trans (parsePmrepTransformationOutput transformationListing)
    /\ tr_metadata trans = MetaRawOutput xmlTransformationLine.
Proof.
  apply (pmrep_transformations_come_from_listed_lines
           transformationListing xmlTransformationLine).
  repeat split; [right; left; reflexivity | cbn; lia].
Defined.

(* ================================================================== *)
(** ** The objects built from a discovery result *)
(* ================================================================== *)

(** X5. The objects the discover route builds are one for each record
    of the discovery result, kind after kind in the order workflow,
    mapping, session, transformation, source, target; each carries the
    identifier of the project, and only a workflow keeps its
    dependencies. *)
Theorem allObjects_one_per_record :
  forall (projectId : string) (d : PowerCenterDiscoveryResult),
    List.map io_objectType (allObjects projectId d)
    = repeat WORKFLOW (List.length (workflows d))
      ++ repeat MAPPING (List.length (mappings d))
      ++ repeat SESSION (List.length (sessions d))
      ++ repeat TRANSFORMATION (List.length (transformations d))
      ++ repeat SOURCE (List.length (sources d))
      ++ repeat TARGET (List.length (targets d))
    /\ List.length (allObjects projectId d)
       = List.length (workflows d) + List.length (mappings d)
         + List.length (sessions d) + List.length (transformations d)
         + List.length (sources d) + List.length (targets d)
    /\ Forall (fun obj => io_projectId obj = projectId) (allObjects projectId d)
    /\ Forall (fun obj => io_objectType obj <> WORKFLOW -> io_dependencies obj = [])
         (allObjects projectId d)
    /\ List.map io_dependencies
         (List.filter (fun obj => match io_objectType obj with
                                  | WORKFLOW => true | _ => false end)
                      (allObjects projectId d))
       = List.map wf_dependencies (workflows d).
Proof.
  intros projectId d. unfold allObjects.
  assert (Hrep : forall A (f : A -> InsertPowerCenterObject) kind l,
             (forall x, io_objectType (f x) = kind) ->
             List.map io_objectType (List.map f l) = repeat kind (List.length l)).
  { intros A f kind l Hk. induction l as [|x l IH]; cbn; [|rewrite Hk, IH];
      reflexivity. }
  assert (Hnone : forall A (f : A -> InsertPowerCenterObject) l,
             (forall x, io_objectType (f x) <> WORKFLOW) ->
             List.filter (fun obj => match io_objectType obj with
                                     | WORKFLOW => true | _ => false end)
                         (List.map f l) = []).
  { intros A f l Hk. induction l as [|x l IH]; cbn; [reflexivity|].
    specialize (Hk x). destruct (io_objectType (f x)); try assumption.
    contradiction. }
  split; [|split; [|split; [|split]]].
  - rewrite !map_app.
    rewrite (Hrep _ (objectOfWorkflow projectId) WORKFLOW),
      (Hrep _ (objectOfMapping projectId) MAPPING),
      (Hrep _ (objectOfSession projectId) SESSION),
      (Hrep _ (objectOfTransformation projectId) TRANSFORMATION),
      (Hrep _ (objectOfSource projectId) SOURCE),
      (Hrep _ (objectOfTarget projectId) TARGET); reflexivity.
  - rewrite !length_app, !length_map. lia.
  - repeat (apply Forall_app; split); apply Forall_forall; intros obj Hin;
      apply in_map_iff in Hin; destruct Hin as (x & <- & _); reflexivity.
  - apply Forall_app; split.
    + apply Forall_forall. intros obj Hin. apply in_map_iff in Hin.
      destruct Hin as (x & <- & _). cbn. intros H. now contradiction H.
    + repeat (apply Forall_app; split); apply Forall_forall; intros obj Hin;
        apply in_map_iff in Hin; destruct Hin as (x & <- & _); reflexivity.
  - rewrite !filter_app.
    rewrite (Hnone _ (objectOfMapping projectId)),
      (Hnone _ (objectOfSession projectId)),
      (Hnone _ (objectOfTransformation projectId)),
      (Hnone _ (objectOfSource projectId)),
      (Hnone _ (objectOfTarget projectId)) by (intros x; discriminate).
    rewrite !app_nil_r. induction (workflows d) as [|wf l IH]; cbn;
      [|rewrite IH]; reflexivity.
Qed.

(* ================================================================== *)
(** ** The issues of an assessment *)
(* ================================================================== *)

Lemma assessLoop_from (objects : list AnyObject) (acc : list string * Js.number) :
  List.length (fst (List.fold_left assessObject objects acc))
  = List.length (fst acc) + countIf isUnsupported objects + countIf hasDecode objects.
Proof.
  revert acc. induction objects as [|object rest IH]; intros [found score].
  - cbn. lia.
  - cbn [fold_left]. rewrite IH. unfold countIf, isUnsupported. cbn [List.filter].
    unfold assessObject.
    destruct (typeIs object "XML_PARSER"), (typeIs object "MQSERIES"),
      (hasDecode object); cbn [fst orb List.length];
      rewrite ?length_app; cbn [List.length]; lia.
Qed.

(** X6. The aggregator reports one issue for each object of type
    XML_PARSER or MQSERIES and one more for each object with a DECODE
    expression: an unsupported object that also has a DECODE expression
    is reported twice. *)
Theorem assessment_issue_count :
  forall objects : list AnyObject,
    List.length (issues (assessMigrationComplexity objects))
    = countIf isUnsupported objects + countIf hasDecode objects.
Proof.
  intros objects. cbn [issues assessMigrationComplexity]. unfold assessLoop.
  now rewrite assessLoop_from.
Qed.

(* ================================================================== *)
(** ** Calls and results of a REST discovery *)
(* ================================================================== *)

Lemma all6_rejected {Req Outcome A1 A2 A3 A4 A5 A6}
    (c1 : Async.Call Req Outcome A1) (c2 : Async.Call Req Outcome A2)
    (c3 : Async.Call Req Outcome A3) (c4 : Async.Call Req Outcome A4)
    (c5 : Async.Call Req Outcome A5) (c6 : Async.Call Req Outcome A6)
    (w : Async.World Req Outcome) (i : nat) (message : string) :
  nth i [Async.rejection (Async.settle w c1); Async.rejection (Async.settle w c2);
         Async.rejection (Async.settle w c3); Async.rejection (Async.settle w c4);
         Async.rejection (Async.settle w c5); Async.rejection (Async.settle w c6)]
      None = Some message ->
  exists first, fst (Async.all6 c1 c2 c3 c4 c5 c6 w) = Async.Rejected first.
Proof.
  intros Hi. unfold Async.all6.
  set (rejections := [Async.rejection (Async.settle w c1); _; _; _; _; _]) in *.
  assert (Hfirst : forall settling,
             In i settling ->
             exists first, Async.firstRejection rejections settling = Some first).
  { induction settling as [|j rest IH]; [intros []|]. intros [Heq|Hin];
      cbn [Async.firstRejection].
    - rewrite Heq, Hi. now exists message.
    - destruct (nth j rejections None) as [m|]; [now exists m | now apply IH]. }
  destruct (Hfirst (Async.settlement w 6)) as (first & ->).
  - apply (Permutation_in _ (Permutation_sym (settlement_Permutation w 6))).
    apply in_seq. destruct (Nat.lt_ge_cases i 6) as [Hlt|Hge]; [lia|].
    rewrite nth_overflow in Hi by (cbn; lia). discriminate Hi.
  - now exists first.
Qed.

Lemma getViaRest_throws {A} path records (convert : RawRecord -> A)
    baseUrl token (w : Rest.World) :
  readCompletes
    (Async.respond w (Async.request (Rest.getViaRest path records convert baseUrl token)))
  = false ->
  exists message,
    Async.rejection (Async.settle w (Rest.getViaRest path records convert baseUrl token))
    = Some message.
Proof.
  unfold Async.settle. cbn [Async.resume Rest.getViaRest].
  destruct (Async.respond w _) as [m|[|] [data|m]]; cbn;
    intros H; try discriminate H; eauto.
Qed.

(** X7. In a REST discovery whose login is answered [ok] with a body,
    the login settles first and the six reads are then issued together,
    each a GET that carries as its bearer the text of the token of that
    body.  A body without a token, or with the token [null], does not
    fail the login: the reads are sent with the bearer text undefined,
    or null, and when they all end without an exception the discovery
    is fulfilled. *)
Theorem rest_reads_carry_the_login_token :
  forall (connection : RepositoryConnection) (restWorld : Rest.World)
         (body : Rest.JsonBody),
    Async.respond restWorld (Async.request (Rest.authenticateRest connection))
    = Rest.Response true (inl body) ->
    let reads := restReads connection (Rest.j_token body) in
    snd (Rest.discoverRepositoryViaRest connection restWorld)
    = [Async.Issued (Async.request (Rest.authenticateRest connection));
       Async.Settled (Async.request (Rest.authenticateRest connection))]
      ++ Async.allTrace restWorld reads
    /\ Forall (fun request =>
                 Rest.http_method request = "GET"
                 /\ Rest.http_authorization request
                    = Some ("Bearer " ++ Rest.tokenText (Rest.j_token body))%string
                 /\ Rest.http_body request = None)
         reads
    /\ (Rest.j_token body = Rest.TokenUndefined ->
        Forall (fun request =>
                  Rest.http_authorization request = Some "Bearer undefined")
          reads)
    /\ (Rest.j_token body = Rest.TokenNull ->
        Forall (fun request =>
                  Rest.http_authorization request = Some "Bearer null")
          reads)
    /\ ((forall request,
            In request reads ->
            readCompletes (Async.respond restWorld request) = true) ->
        exists payload,
          fst (Rest.discoverRepositoryViaRest connection restWorld)
          = Async.Fulfilled payload).
Proof.
  intros connection w body Hlogin reads. subst reads.
  assert (Hauth : Async.settle w (Rest.authenticateRest connection)
                  = Async.Fulfilled (Rest.j_token body)).
  { unfold Async.settle. rewrite Hlogin. reflexivity. }
  set (token := Rest.j_token body) in *.
  split; [|split; [|split; [|split]]].
  - unfold Rest.discoverRepositoryViaRest, Async.tryCatch, Async.bind,
      Async.await.
    rewrite Hauth.
    pose proof (all6_trace
                  (Rest.getWorkflowsViaRest (Rest.baseUrlOf connection) token)
                  (Rest.getMappingsViaRest (Rest.baseUrlOf connection) token)
                  (Rest.getSessionsViaRest (Rest.baseUrlOf connection) token)
                  (Rest.getTransformationsViaRest (Rest.baseUrlOf connection) token)
                  (Rest.getSourcesViaRest (Rest.baseUrlOf connection) token)
                  (Rest.getTargetsViaRest (Rest.baseUrlOf connection) token) w)
      as Hall.
    destruct (Async.all6 _ _ _ _ _ _ w) as [[[[[[[v1 v2] v3] v4] v5] v6]|m] trace];
      cbn [snd] in Hall; subst trace; cbn [Async.ret Async.throw snd];
      rewrite ?app_nil_r; reflexivity.
  - repeat constructor.
  - intros ->. repeat constructor.
  - intros ->. repeat constructor.
  - intros Hreads.
    unfold Rest.discoverRepositoryViaRest, Async.tryCatch, Async.bind,
      Async.await.
    rewrite Hauth.
    pose proof (all6_fulfilled
                  (Rest.getWorkflowsViaRest (Rest.baseUrlOf connection) token)
                  (Rest.getMappingsViaRest (Rest.baseUrlOf connection) token)
                  (Rest.getSessionsViaRest (Rest.baseUrlOf connection) token)
                  (Rest.getTransformationsViaRest (Rest.baseUrlOf connection) token)
                  (Rest.getSourcesViaRest (Rest.baseUrlOf connection) token)
                  (Rest.getTargetsViaRest (Rest.baseUrlOf connection) token)
                  w _ _ _ _ _ _
                  (getViaRest_completes _ _ _ _ _ w (Hreads _ (or_introl eq_refl)))
                  (getViaRest_completes _ _ _ _ _ w
                     (Hreads _ (or_intror (or_introl eq_refl))))
                  (getViaRest_completes _ _ _ _ _ w
                     (Hreads _ (or_intror (or_intror (or_introl eq_refl)))))
                  (getViaRest_completes _ _ _ _ _ w
                     (Hreads _ (or_intror (or_intror (or_intror (or_introl eq_refl))))))
                  (getViaRest_completes _ _ _ _ _ w
                     (Hreads _ (or_intror (or_intror (or_intror (or_intror
                                  (or_introl eq_refl)))))))
                  (getViaRest_completes _ _ _ _ _ w
                     (Hreads _ (or_intror (or_intror (or_intror (or_intror
                                  (or_intror (or_introl eq_refl))))))))) as Hall.
    destruct (Async.all6 _ _ _ _ _ _ w) as [p trace]. cbn [fst] in Hall.
    subst p. eexists. reflexivity.
Qed.

Lemma rest_reads_carry_the_login_token_witness :
  Forall (fun request =>
            Rest.http_authorization request = Some "Bearer undefined")
    (restReads restConnection Rest.TokenUndefined)
  /\ exists payload,
       fst (Rest.discoverRepositoryViaRest restConnection restNoToken)
       = Async.Fulfilled payload.
Proof.
  destruct (rest_reads_carry_the_login_token restConnection restNoToken emptyBody
              eq_refl)
    as (_ & _ & Hundefined & _ & Hfulfilled).
  split.
  - exact (Hundefined eq_refl).
  - apply Hfulfilled. intros request Hin. reflexivity.
Defined.

(** X8. In a REST discovery whose login succeeds, one read that ends
    with an exception (its request is rejected, or its answer is [ok]
    with a body that does not parse) rejects the whole discovery,
    whatever the other reads returned and in whatever order they
    settle. *)
Theorem rest_read_exception_rejects_discovery :
  forall (connection : RepositoryConnection) (restWorld : Rest.World)
         (token : Rest.JsonToken) (request : Rest.HttpRequest),
    Async.settle restWorld (Rest.authenticateRest connection)
    = Async.Fulfilled token ->
    In request (restReads connection token) ->
    readCompletes (Async.respond restWorld request) = false ->
    exists message,
      fst (Rest.discoverRepositoryViaRest connection restWorld)
      = Async.Rejected ("REST API discovery failed: " ++ message).
Proof.
  intros connection w token request Hauth Hin Hthrows.
  set (base := Rest.baseUrlOf connection).
  assert (Hall : exists first,
             fst (Async.all6
                    (Rest.getWorkflowsViaRest base token)
                    (Rest.getMappingsViaRest base token)
                    (Rest.getSessionsViaRest base token)
                    (Rest.getTransformationsViaRest base token)
                    (Rest.getSourcesViaRest base token)
                    (Rest.getTargetsViaRest base token) w)
             = Async.Rejected first).
  { unfold restReads in Hin. fold base in Hin. cbn [In] in Hin.
    destruct Hin as [<-|[<-|[<-|[<-|[<-|[<-|[]]]]]]].
    - destruct (getViaRest_throws _ _ _ _ _ w Hthrows) as (m & Hm).
      now apply (all6_rejected _ _ _ _ _ _ w 0 m).
    - destruct (getViaRest_throws _ _ _ _ _ w Hthrows) as (m & Hm).
      now apply (all6_rejected _ _ _ _ _ _ w 1 m).
    - destruct (getViaRest_throws _ _ _ _ _ w Hthrows) as (m & Hm).
      now apply (all6_rejected _ _ _ _ _ _ w 2 m).
    - destruct (getViaRest_throws _ _ _ _ _ w Hthrows) as (m & Hm).
      now apply (all6_rejected _ _ _ _ _ _ w 3 m).
    - destruct (getViaRest_throws _ _ _ _ _ w Hthrows) as (m & Hm).
      now apply (all6_rejected _ _ _ _ _ _ w 4 m).
    - destruct (getViaRest_throws _ _ _ _ _ w Hthrows) as (m & Hm).
      now apply (all6_rejected _ _ _ _ _ _ w 5 m). }
  destruct Hall as (first & Hfirst). exists first.
  unfold Rest.discoverRepositoryViaRest, Async.tryCatch, Async.bind, Async.await.
  rewrite Hauth. fold base.
  destruct (Async.all6 _ _ _ _ _ _ w) as [p trace]. cbn [fst] in Hfirst.
  subst p. reflexivity.
Qed.

Lemma rest_read_exception_rejects_discovery_witness :
  exists message,
    fst (Rest.discoverRepositoryViaRest restConnection restWorkflowsDropped)
    = Async.Rejected ("REST API discovery failed: " ++ message).
Proof.
  apply (rest_read_exception_rejects_discovery
           restConnection restWorkflowsDropped Rest.TokenUndefined
           (Async.request
              (Rest.getWorkflowsViaRest (Rest.baseUrlOf restConnection)
                 Rest.TokenUndefined)));
    [reflexivity | left; reflexivity | reflexivity].
Defined.

(* ================================================================== *)
(** ** Failures of a REST discovery, up to the route *)
(* ================================================================== *)

(** A rejected adapter gives the answer 500 and leaves the stored
    objects. *)
Lemma postDiscover_adapter_rejects rt rw pw id s project connection message :
  JsMap.get id (migrationProjects s) = Some project ->
  proj_id project = id ->
  JsMap.get (proj_repositoryConnectionId project) (repositoryConnections s)
  = Some connection ->
  runDiscovery rw pw connection = Async.Rejected message ->
  fst (postDiscover rt rw pw id s) = Returned (Failure 500 message)
  /\ powerCenterObjects (snd (postDiscover rt rw pw id s)) = powerCenterObjects s.
Proof.
  intros Hp Hid Hc Hd.
  set (toDiscovery := {| upd_status := Some DISCOVERY; upd_totalObjects := None;
                         upd_autoMigrationPercentage := None |}).
  destruct (updateMigrationProject_found rt id toDiscovery s project Hp)
    as (p1 & s1 & E1 & G1 & _ & _ & _ & O1 & _).
  destruct (updateMigrationProject_found rt id toDiscovery s1 p1 G1)
    as (p2 & s2 & E2 & _ & _ & _ & _ & O2 & _).
  assert (Hrun : postDiscover rt rw pw id s = (Returned (Failure 500 message), s2)).
  { unfold postDiscover, tryCatch, bind, getMigrationProject,
      getRepositoryConnection, gets.
    rewrite Hp, Hc, Hid. fold toDiscovery. rewrite E1, Hd.
    cbn [awaitPromise throw]. rewrite E2. reflexivity. }
  rewrite Hrun. split; [reflexivity|]. cbn [snd]. now rewrite O2, O1.
Qed.

(** The login throws what [loginError] says of its answer. *)
Lemma authenticateRest_settles connection (w : Rest.World) :
  Async.settle w (Rest.authenticateRest connection)
  = match Async.respond w (Async.request (Rest.authenticateRest connection)) with
    | Rest.Response true (inl body) => Async.Fulfilled (Rest.j_token body)
    | outcome =>
        match loginError outcome with
        | Some message => Async.Rejected message
        | None => Async.Rejected EmptyString
        end
    end.
Proof.
  unfold Async.settle. cbn [Async.resume Rest.authenticateRest].
  now destruct (Async.respond w _) as [m|[|] [body|m]].
Qed.

(** After a login that succeeded, one read that throws rejects the six
    reads together. *)
Lemma reads_rejected_by_one connection token (w : Rest.World) request :
  In request (restReads connection token) ->
  readCompletes (Async.respond w request) = false ->
  exists first,
    fst (Async.all6
           (Rest.getWorkflowsViaRest (Rest.baseUrlOf connection) token)
           (Rest.getMappingsViaRest (Rest.baseUrlOf connection) token)
           (Rest.getSessionsViaRest (Rest.baseUrlOf connection) token)
           (Rest.getTransformationsViaRest (Rest.baseUrlOf connection) token)
           (Rest.getSourcesViaRest (Rest.baseUrlOf connection) token)
           (Rest.getTargetsViaRest (Rest.baseUrlOf connection) token) w)
    = Async.Rejected first.
Proof.
  intros Hin Hthrows. unfold restReads in Hin. cbn [In] in Hin.
  destruct Hin as [ <- | [ <- | [ <- | [ <- | [ <- | [ <- | [] ] ] ] ] ] ];
    destruct (getViaRest_throws _ _ _ _ _ w Hthrows) as (m & Hm);
    [ now apply (all6_rejected _ _ _ _ _ _ w 0 m)
    | now apply (all6_rejected _ _ _ _ _ _ w 1 m)
    | now apply (all6_rejected _ _ _ _ _ _ w 2 m)
    | now apply (all6_rejected _ _ _ _ _ _ w 3 m)
    | now apply (all6_rejected _ _ _ _ _ _ w 4 m)
    | now apply (all6_rejected _ _ _ _ _ _ w 5 m) ].
Qed.

(** C7 (the reads depart from it). For the discover route on a project
    with a REST connection:

    - a login that fails (its request is rejected, its answer is not
      [ok], or its body does not parse) fails the whole discovery before
      any read is issued; the route answers 500 with the message of the
      login and the stored objects are those from before the run;
    - after a login answered [ok] with a body, when every read ends
      without an exception the discovery is fulfilled and each kind
      holds the converted records of its own answer, a read answered
      with a status that is not [ok] giving the empty list for its kind;
    - but one read that ends with an exception (its request is
      rejected, or its answer is [ok] with a body that does not parse)
      does not degrade to the empty list: the whole discovery is
      rejected, the route answers 500 and no object of the other kinds
      is stored. *)
Theorem rest_discovery_failure_modes :
  forall (rt : Runtime) (restWorld : Rest.World) (pmrepWorld : Pmrep.World)
         (id : string) (s : State)
         (project : MigrationProject) (connection : RepositoryConnection),
    conn_connectionType connection = REST_API ->
    JsMap.get id (migrationProjects s) = Some project ->
    proj_id project = id ->
    JsMap.get (proj_repositoryConnectionId project) (repositoryConnections s)
    = Some connection ->
    let login := Async.request (Rest.authenticateRest connection) in
    let route := postDiscover rt restWorld pmrepWorld id s in
    (forall message,
        loginError (Async.respond restWorld login) = Some message ->
        Rest.discoverRepositoryViaRest connection restWorld
        = (Async.Rejected ("REST API discovery failed: " ++ message),
           [Async.Issued login; Async.Settled login])
        /\ fst route
           = Returned (Failure 500 ("REST API discovery failed: " ++ message))
        /\ powerCenterObjects (snd route) = powerCenterObjects s)
    /\ (forall body,
           Async.respond restWorld login = Rest.Response true (inl body) ->
           let answer path :=
             Async.respond restWorld
               {| Rest.http_method := "GET";
                  Rest.http_url := Rest.baseUrlOf connection ++ path;
                  Rest.http_authorization :=
                    Some ("Bearer " ++ Rest.tokenText (Rest.j_token body))%string;
                  Rest.http_body := None |} in
           ((forall request,
                In request (restReads connection (Rest.j_token body)) ->
                readCompletes (Async.respond restWorld request) = true) ->
            fst (Rest.discoverRepositoryViaRest connection restWorld)
            = Async.Fulfilled
                {| workflows :=
                     listOfAnswer Rest.j_workflows workflowOfRaw
                       (answer "/api/v1/workflows");
                   mappings :=
                     listOfAnswer Rest.j_mappings mappingOfRaw
                       (answer "/api/v1/mappings");
                   sessions :=
                     listOfAnswer Rest.j_sessions sessionOfRaw
                       (answer "/api/v1/sessions");
                   transformations :=
                     listOfAnswer Rest.j_transformations transformationOfRaw
                       (answer "/api/v1/transformations");
                   sources :=
                     listOfAnswer Rest.j_sources sourceOfRaw
                       (answer "/api/v1/sources");
                   targets :=
                     listOfAnswer Rest.j_targets targetOfRaw
                       (answer "/api/v1/targets") |})
           /\ (forall request,
                  In request (restReads connection (Rest.j_token body)) ->
                  readCompletes (Async.respond restWorld request) = false ->
                  exists message,
                    fst (Rest.discoverRepositoryViaRest connection restWorld)
                    = Async.Rejected ("REST API discovery failed: " ++ message)
                    /\ fst route
                       = Returned
                           (Failure 500 ("REST API discovery failed: " ++ message))
                    /\ powerCenterObjects (snd route) = powerCenterObjects s)).
Proof.
  intros rt w pw id s project connection Htype Hp Hid Hc login route.
  subst login route. split.
  - intros message Hlogin.
    assert (Hdisc :
              Rest.discoverRepositoryViaRest connection w
              = (Async.Rejected ("REST API discovery failed: " ++ message),
                 [Async.Issued (Async.request (Rest.authenticateRest connection));
                  Async.Settled (Async.request (Rest.authenticateRest connection))])).
    { unfold Rest.discoverRepositoryViaRest, Async.tryCatch, Async.bind,
        Async.await.
      rewrite authenticateRest_settles.
      destruct (Async.respond w _) as [m|[|] [body|m]]; cbn in Hlogin;
        inversion Hlogin; subst; reflexivity. }
    split; [exact Hdisc|].
    apply (postDiscover_adapter_rejects rt w pw id s project connection); trivial.
    unfold runDiscovery. now rewrite Htype, Hdisc.
  - intros body Hlogin answer.
    assert (Hauth : Async.settle w (Rest.authenticateRest connection)
                    = Async.Fulfilled (Rest.j_token body))
      by (rewrite authenticateRest_settles; now rewrite Hlogin).
    set (token := Rest.j_token body) in *.
    split.
    + intros Hreads.
      unfold Rest.discoverRepositoryViaRest, Async.tryCatch, Async.bind,
        Async.await.
      rewrite Hauth.
      pose proof (all6_fulfilled
                    (Rest.getWorkflowsViaRest (Rest.baseUrlOf connection) token)
                    (Rest.getMappingsViaRest (Rest.baseUrlOf connection) token)
                    (Rest.getSessionsViaRest (Rest.baseUrlOf connection) token)
                    (Rest.getTransformationsViaRest (Rest.baseUrlOf connection) token)
                    (Rest.getSourcesViaRest (Rest.baseUrlOf connection) token)
                    (Rest.getTargetsViaRest (Rest.baseUrlOf connection) token)
                    w _ _ _ _ _ _
                    (getViaRest_completes _ _ _ _ _ w (Hreads _ (or_introl eq_refl)))
                    (getViaRest_completes _ _ _ _ _ w
                       (Hreads _ (or_intror (or_introl eq_refl))))
                    (getViaRest_completes _ _ _ _ _ w
                       (Hreads _ (or_intror (or_intror (or_introl eq_refl)))))
                    (getViaRest_completes _ _ _ _ _ w
                       (Hreads _ (or_intror (or_intror (or_intror
                                    (or_introl eq_refl))))))
                    (getViaRest_completes _ _ _ _ _ w
                       (Hreads _ (or_intror (or_intror (or_intror (or_intror
                                    (or_introl eq_refl)))))))
                    (getViaRest_completes _ _ _ _ _ w
                       (Hreads _ (or_intror (or_intror (or_intror (or_intror
                                    (or_intror (or_introl eq_refl))))))))) as Hall.
      destruct (Async.all6 _ _ _ _ _ _ w) as [p trace]. cbn [fst] in Hall.
      subst p. reflexivity.
    + intros request Hin Hthrows.
      destruct (reads_rejected_by_one connection token w request Hin Hthrows)
        as (first & Hfirst).
      assert (Hdisc : fst (Rest.discoverRepositoryViaRest connection w)
                      = Async.Rejected ("REST API discovery failed: " ++ first)).
      { unfold Rest.discoverRepositoryViaRest, Async.tryCatch, Async.bind,
          Async.await.
        rewrite Hauth.
        destruct (Async.all6 _ _ _ _ _ _ w) as [p trace]. cbn [fst] in Hfirst.
        subst p. reflexivity. }
      exists first. split; [exact Hdisc|].
      apply (postDiscover_adapter_rejects rt w pw id s project connection); trivial.
      unfold runDiscovery. now rewrite Htype.
Qed.

Lemma rest_discovery_failure_modes_witness :
  (fst (postDiscover sampleRuntime restLoginRefused pmrepSilent "p-rest" sampleState)
   = Returned (Failure 500 "REST API discovery failed: Authentication failed")
   /\ powerCenterObjects
        (snd (postDiscover sampleRuntime restLoginRefused pmrepSilent "p-rest"
                sampleState))
      = powerCenterObjects sampleState)
  /\ (exists payload,
         fst (Rest.discoverRepositoryViaRest restConnection restMappingsOnly)
         = Async.Fulfilled payload
         /\ workflows payload = []
         /\ List.map mp_name (mappings payload) = ["m_orders"; "m_empty"])
  /\ exists message,
       fst (postDiscover sampleRuntime restWorkflowsDropped pmrepSilent "p-rest"
              sampleState)
       = Returned (Failure 500 ("REST API discovery failed: " ++ message))
       /\ powerCenterObjects
            (snd (postDiscover sampleRuntime restWorkflowsDropped pmrepSilent
                    "p-rest" sampleState))
          = powerCenterObjects sampleState.
Proof.
  split; [|split].
  - destruct (rest_discovery_failure_modes sampleRuntime restLoginRefused
                pmrepSilent "p-rest" sampleState
                (sampleProject "p-rest" "conn-rest") restConnection
                eq_refl eq_refl eq_refl eq_refl) as (Hlogin & _).
    destruct (Hlogin "Authentication failed" eq_refl) as (_ & Hroute).
    exact Hroute.
  - destruct (rest_discovery_failure_modes sampleRuntime restMappingsOnly
                pmrepSilent "p-rest" sampleState
                (sampleProject "p-rest" "conn-rest") restConnection
                eq_refl eq_refl eq_refl eq_refl) as (_ & Hreads).
    destruct (Hreads _ eq_refl) as (Hcomplete & _).
    eexists. split.
    + apply Hcomplete. intros request Hin. cbn in Hin.
      repeat (destruct Hin as [ <- | Hin ]; [reflexivity|]). contradiction.
    + split; reflexivity.
  - destruct (rest_discovery_failure_modes sampleRuntime restWorkflowsDropped
                pmrepSilent "p-rest" sampleState
                (sampleProject "p-rest" "conn-rest") restConnection
                eq_refl eq_refl eq_refl eq_refl) as (_ & Hreads).
    destruct (Hreads emptyBody eq_refl) as (_ & Hthrows).
    destruct (Hthrows
                (Async.request
                   (Rest.getWorkflowsViaRest (Rest.baseUrlOf restConnection)
                      Rest.TokenUndefined))
                (or_introl eq_refl) eq_refl)
      as (message & _ & Hroute & Hobjects).
    exists message. split; assumption.
Defined.

(* ================================================================== *)
(** ** Bulk creation of discovered objects *)
(* ================================================================== *)

Lemma set_absent {V} (key : string) (value : V) (m : JsMap.t V) :
  JsMap.get key m = None -> JsMap.set key value m = m ++ [(key, value)].
Proof.
  induction m as [|[k v] m IH]; cbn; [reflexivity|].
  destruct (String.eqb k key); [discriminate|]. intros H. now rewrite IH.
Qed.

Lemma get_app_absent {V} (key key' : string) (value : V) (m : JsMap.t V) :
  key <> key' -> JsMap.get key m = None ->
  JsMap.get key (m ++ [(key', value)]) = None.
Proof.
  intros Hne. induction m as [|[k v] m IH]; cbn.
  - intros _. destruct (String.eqb_spec key' key); [congruence | reflexivity].
  - destruct (String.eqb k key); [discriminate | exact IH].
Qed.

(** Entries with new, distinct keys are added at the end, in order. *)
Lemma set_all_fresh (created : list PowerCenterObject) :
  forall m : JsMap.t PowerCenterObject,
    freshIn (List.map obj_id created) m ->
    List.fold_left (fun acc obj => JsMap.set (obj_id obj) obj acc) created m
    = m ++ entriesOf created.
Proof.
  induction created as [|obj rest IH]; intros m (Hnodup & Habsent); cbn.
  - now rewrite app_nil_r.
  - cbn in Hnodup. inversion Hnodup as [|? ? Hnotin Hrest]; subst.
    rewrite set_absent by (apply Habsent; now left).
    rewrite IH.
    + now rewrite <- app_assoc.
    + split; [assumption|]. intros id Hin. apply get_app_absent.
      * intros ->. contradiction.
      * apply Habsent. now right.
Qed.

(** What the loop of the bulk creation does from any list of results. *)
Lemma bulkCreateFrom_run rt (objects : list InsertPowerCenterObject) :
  forall (results : list PowerCenterObject) (s : State),
  exists s',
    bulkCreateFrom rt results objects s
    = (Returned (results ++ createdObjects rt (draws s) objects), s')
    /\ powerCenterObjects s'
       = List.fold_left (fun acc obj => JsMap.set (obj_id obj) obj acc)
           (createdObjects rt (draws s) objects) (powerCenterObjects s)
    /\ draws s' = draws s + 2 * List.length objects
    /\ migrationProjects s' = migrationProjects s
    /\ repositoryConnections s' = repositoryConnections s
    /\ assessmentResults s' = assessmentResults s
    /\ syncStatuses s' = syncStatuses s
    /\ intervals s' = intervals s.
Proof.
  induction objects as [|object rest IH]; intros results s.
  - exists s. cbn. rewrite app_nil_r, Nat.add_0_r. repeat split.
  - cbn [bulkCreateFrom createdObjects fold_left List.length].
    unfold bind at 1. cbn [createPowerCenterObject].
    set (created := {| obj_fields := object; obj_id := freshId rt (draws s);
                       obj_lastScanned := date rt (S (draws s)) |}).
    set (s1 := withPowerCenterObjects
                 (withDraws (withDraws s (S (draws s))) (S (S (draws s))))
                 (JsMap.set (obj_id created) created (powerCenterObjects s))).
    destruct (IH (results ++ [created]) s1)
      as (s' & Hrun & Hobjs & Hdraws & Hp & Hc & Ha & Hs & Hi).
    exists s'. split.
    + change (createPowerCenterObject rt object s) with (Returned created, s1).
      cbn iota. rewrite Hrun. now rewrite <- app_assoc.
    + split; [exact Hobjs|]. split; [rewrite Hdraws; cbn; lia|].
      repeat split; assumption.
Qed.

(** X9. [bulkCreatePowerCenterObjects] never throws.  It returns one
    object for each input, in the order of the inputs and with the
    properties of the input, the identifier and the clock reading drawn
    for it; it draws two values from the runtime for each input and
    leaves the projects, connections, assessments, sync records and
    timers as they are. *)
Theorem bulkCreate_returns_one_per_input :
  forall (rt : Runtime) (objects : list InsertPowerCenterObject) (s : State),
    fst (bulkCreatePowerCenterObjects rt objects s)
    = Returned (createdObjects rt (draws s) objects)
    /\ List.map obj_fields (createdObjects rt (draws s) objects) = objects
    /\ draws (snd (bulkCreatePowerCenterObjects rt objects s))
       = draws s + 2 * List.length objects
    /\ migrationProjects (snd (bulkCreatePowerCenterObjects rt objects s))
       = migrationProjects s
    /\ repositoryConnections (snd (bulkCreatePowerCenterObjects rt objects s))
       = repositoryConnections s
    /\ assessmentResults (snd (bulkCreatePowerCenterObjects rt objects s))
       = assessmentResults s
    /\ syncStatuses (snd (bulkCreatePowerCenterObjects rt objects s))
       = syncStatuses s
    /\ intervals (snd (bulkCreatePowerCenterObjects rt objects s)) = intervals s.
Proof.
  intros rt objects s. unfold bulkCreatePowerCenterObjects.
  destruct (bulkCreateFrom_run rt objects [] s)
    as (s' & -> & _ & Hdraws & Hp & Hc & Ha & Hs & Hi).
  cbn [fst snd app]. repeat split; try assumption.
  clear. generalize (draws s).
  induction objects as [|object rest IH]; intros start;
    cbn; [|rewrite IH]; reflexivity.
Qed.

Lemma get_app_entries (created : list PowerCenterObject) :
  forall (m : JsMap.t PowerCenterObject) (obj : PowerCenterObject),
    freshIn (List.map obj_id created) m ->
    In obj created ->
    JsMap.get (obj_id obj) (m ++ entriesOf created) = Some obj.
Proof.
  intros m obj (Hnodup & Habsent) Hin.
  assert (Hm : forall key, JsMap.get key m = None ->
                 JsMap.get key (m ++ entriesOf created)
                 = JsMap.get key (entriesOf created)).
  { intros key. clear. induction m as [|[k v] m IH]; cbn; [reflexivity|].
    destruct (String.eqb k key); [discriminate | exact IH]. }
  rewrite Hm by (apply Habsent; now apply in_map).
  clear Hm Habsent m. induction created as [|first rest IH]; [contradiction|].
  cbn in Hnodup. inversion Hnodup as [|? ? Hnotin Hrest]; subst. cbn.
  destruct Hin as [->|Hin]; [now rewrite String.eqb_refl|].
  destruct (String.eqb_spec (obj_id first) (obj_id obj)) as [Heq|_];
    [|now apply IH].
  exfalso. apply Hnotin. rewrite Heq. now apply in_map.
Qed.

(** X10. When the identifiers drawn for the inputs are new to the store
    and differ from one another, the bulk creation adds the objects at
    the end of the store in the order of the inputs: each is then found
    under its identifier, no stored object is replaced, and the objects
    of a project are those it had followed by its new ones. *)
Theorem bulkCreate_appends_when_ids_are_fresh :
  forall (rt : Runtime) (objects : list InsertPowerCenterObject) (s : State),
    freshIn (List.map obj_id (createdObjects rt (draws s) objects))
            (powerCenterObjects s) ->
    powerCenterObjects (snd (bulkCreatePowerCenterObjects rt objects s))
    = powerCenterObjects s ++ entriesOf (createdObjects rt (draws s) objects)
    /\ (forall obj,
           In obj (createdObjects rt (draws s) objects) ->
           fst (getPowerCenterObject (obj_id obj)
                  (snd (bulkCreatePowerCenterObjects rt objects s)))
           = Returned (Some obj))
    /\ forall projectId,
         fst (getPowerCenterObjects projectId
                (snd (bulkCreatePowerCenterObjects rt objects s)))
         = Returned
             (objectsOf projectId (JsMap.values (powerCenterObjects s))
              ++ objectsOf projectId (createdObjects rt (draws s) objects)).
Proof.
  intros rt objects s Hfresh. unfold bulkCreatePowerCenterObjects.
  destruct (bulkCreateFrom_run rt objects [] s) as (s' & -> & Hobjs & _).
  cbn [snd]. rewrite set_all_fresh in Hobjs by assumption.
  split; [exact Hobjs|]. split.
  { intros obj Hin. unfold getPowerCenterObject, gets. cbn [fst].
    rewrite Hobjs. f_equal. now apply get_app_entries. }
  intros projectId.
  unfold getPowerCenterObjects, gets, objectsOf, JsMap.values, entriesOf.
  cbn [fst]. rewrite Hobjs, map_app, filter_app.
  unfold entriesOf. rewrite map_map. cbn [snd]. now rewrite map_id.
Qed.

Lemma bulkCreate_appends_when_ids_are_fresh_witness :
  let objects :=
    [objectOfTransformation "p-pmrep" xmlTransformation;
     objectOfMapping "p-rest" (sampleMapping "m_orders")] in
  fst (getPowerCenterObjects "p-pmrep"
         (snd (bulkCreatePowerCenterObjects sampleRuntime objects sampleState)))
  = Returned
      (objectsOf "p-pmrep" (JsMap.values (powerCenterObjects sampleState))
       ++ objectsOf "p-pmrep"
            (createdObjects sampleRuntime (draws sampleState) objects)).
Proof.
  intros objects.
  apply (bulkCreate_appends_when_ids_are_fresh sampleRuntime objects sampleState).
  split.
  - repeat constructor; cbn; intuition discriminate.
  - intros id Hin. reflexivity.
Defined.

(* ================================================================== *)
(** ** Answers of the discover and start-sync routes *)
(* ================================================================== *)

(** X11. For a project that is not stored, and for a stored project
    whose connection is not stored, the discover route and the
    start-sync route answer 404 and leave the whole state as it was: no
    status is written, no timer is started, nothing is drawn from the
    runtime. *)
Theorem unknown_project_or_connection_answers_404 :
  forall (rt : Runtime) (restWorld : Rest.World) (pmrepWorld : Pmrep.World)
         (id : string) (s : State),
    (JsMap.get id (migrationProjects s) = None ->
     postDiscover rt restWorld pmrepWorld id s
     = (Returned (Failure 404 "Migration project not found"), s)
     /\ postStartSync rt id s
        = (Returned (Failure 404 "Migration project not found"), s))
    /\ (forall project,
           JsMap.get id (migrationProjects s) = Some project ->
           JsMap.get (proj_repositoryConnectionId project) (repositoryConnections s)
           = None ->
           postDiscover rt restWorld pmrepWorld id s
           = (Returned (Failure 404 "Repository connection not found"), s)
           /\ postStartSync rt id s
              = (Returned (Failure 404 "Repository connection not found"), s)).
Proof.
  intros rt rw pw id s. split.
  - intros Hp.
    unfold postDiscover, postStartSync, tryCatch, bind, getMigrationProject, gets.
    rewrite Hp. split; reflexivity.
  - intros project Hp Hc.
    unfold postDiscover, postStartSync, tryCatch, bind, getMigrationProject,
      getRepositoryConnection, gets.
    rewrite Hp, Hc. split; reflexivity.
Qed.

Lemma unknown_project_or_connection_answers_404_witness :
  postDiscover sampleRuntime restDown pmrepSilent "p-unknown" sampleState
  = (Returned (Failure 404 "Migration project not found"), sampleState)
  /\ postStartSync sampleRuntime "p-unknown" sampleState
     = (Returned (Failure 404 "Migration project not found"), sampleState).
Proof.
  apply (unknown_project_or_connection_answers_404
           sampleRuntime restDown pmrepSilent "p-unknown" sampleState).
  reflexivity.
Defined.

(** X12. When the adapter returns a discovery result, the discover
    route answers 200 with the number of objects built from the result
    and the counts of the six kinds; afterwards the project is in status
    ASSESSMENT with that number as its total, and its sync record says
    FULL, COMPLETED, with that number of items processed.  No timer is
    started. *)
Theorem discover_success_updates_project_and_sync :
  forall (rt : Runtime) (restWorld : Rest.World) (pmrepWorld : Pmrep.World)
         (id : string) (s : State)
         (project : MigrationProject) (connection : RepositoryConnection)
         (d : PowerCenterDiscoveryResult),
    JsMap.get id (migrationProjects s) = Some project ->
    proj_id project = id ->
    JsMap.get (proj_repositoryConnectionId project) (repositoryConnections s)
    = Some connection ->
    runDiscovery restWorld pmrepWorld connection = Async.Fulfilled d ->
    let total := totalObjectsOf (allObjects id d) in
    let s' := snd (postDiscover rt restWorld pmrepWorld id s) in
    fst (postDiscover rt restWorld pmrepWorld id s)
    = Returned
        (Json 200
           {| rep_message := "Discovery completed successfully";
              rep_totalObjects := total;
              rep_autoMigrationPercentage :=
                autoMigrationPercentageOf (allObjects id d);
              rep_workflows := List.length (workflows d);
              rep_mappings := List.length (mappings d);
              rep_sessions := List.length (sessions d);
              rep_transformations := List.length (transformations d);
              rep_sources := List.length (sources d);
              rep_targets := List.length (targets d) |})
    /\ (exists stored,
           JsMap.get id (migrationProjects s') = Some stored
           /\ proj_status stored = ASSESSMENT
           /\ proj_totalObjects stored = total
           /\ proj_autoMigrationPercentage stored
              = autoMigrationPercentageOf (allObjects id d))
    /\ (exists status,
           JsMap.get id (syncStatuses s') = Some status
           /\ sync_syncType status = FULL
           /\ sync_status status = COMPLETED
           /\ sync_itemsProcessed status = total)
    /\ intervals s' = intervals s.
Proof.
  intros rt rw pw id s project connection d Hp Hid Hc Hd total s'.
  destruct (updateMigrationProject_found rt id
              {| upd_status := Some DISCOVERY; upd_totalObjects := None;
                 upd_autoMigrationPercentage := None |} s project Hp)
    as (p1 & s1 & E1 & G1 & _ & _ & _ & _ & _ & _ & I1).
  destruct (bulkCreateFrom_run rt (allObjects id d) [] s1)
    as (s2 & E2 & _ & _ & P2 & _ & _ & _ & I2).
  rewrite <- P2 in G1.
  destruct (updateMigrationProject_found rt id
              {| upd_status := Some ASSESSMENT;
                 upd_totalObjects := Some total;
                 upd_autoMigrationPercentage :=
                   Some (autoMigrationPercentageOf (allObjects id d)) |}
              s2 p1 G1)
    as (p3 & s3 & E3 & G3 & St3 & T3 & A3 & _ & _ & _ & I3).
  destruct (updateSyncStatus_run rt id
              {| su_lastSyncTime := None; su_syncType := Some FULL;
                 su_status := Some COMPLETED;
                 su_itemsProcessed := Some total;
                 su_errors := None |} s3)
    as (st & s4 & E4 & G4 & Hst & Hty & Hit & _ & M4 & _ & I4).
  assert (Hrun : postDiscover rt rw pw id s
                 = (Returned
                      (Json 200
                         {| rep_message := "Discovery completed successfully";
                            rep_totalObjects := total;
                            rep_autoMigrationPercentage :=
                              autoMigrationPercentageOf (allObjects id d);
                            rep_workflows := List.length (workflows d);
                            rep_mappings := List.length (mappings d);
                            rep_sessions := List.length (sessions d);
                            rep_transformations := List.length (transformations d);
                            rep_sources := List.length (sources d);
                            rep_targets := List.length (targets d) |}), s4)).
  { unfold postDiscover, tryCatch, bind, getMigrationProject,
      getRepositoryConnection, gets.
    rewrite Hp, Hc, Hid, E1, Hd. cbn [awaitPromise ret].
    unfold bulkCreatePowerCenterObjects. rewrite E2.
    fold total. rewrite E3, E4. reflexivity. }
  subst s'. rewrite Hrun. cbn [fst snd]. split; [reflexivity|].
  split; [|split].
  - exists p3. rewrite M4. auto.
  - exists st. split; [assumption|].
    repeat split; [apply Hty | apply Hst | apply Hit]; reflexivity.
  - now rewrite I4, I3, I2, I1.
Qed.

Lemma discover_success_updates_project_and_sync_witness :
  exists status,
    JsMap.get "p-pmrep" (syncStatuses discoveredState) = Some status
    /\ sync_syncType status = FULL
    /\ sync_status status = COMPLETED
    /\ sync_itemsProcessed status = 3%float.
Proof.
  pose proof (discover_success_updates_project_and_sync
                sampleRuntime restDown pmrepListing "p-pmrep" sampleState
                (sampleProject "p-pmrep" "conn-pmrep") pmrepConnection _
                eq_refl eq_refl eq_refl eq_refl) as (_ & _ & Hsync & _).
  exact Hsync.
Defined.

(** X13. When the adapter, REST or pmrep, rejects, the discover route
    answers 500 with the message of the adapter; the project is put
    back in status DISCOVERY and keeps its totals, and the stored
    objects, the sync records and the timers are those from before. *)
Theorem discover_failure_restores_discovery_status :
  forall (rt : Runtime) (restWorld : Rest.World) (pmrepWorld : Pmrep.World)
         (id : string) (s : State)
         (project : MigrationProject) (connection : RepositoryConnection)
         (message : string),
    JsMap.get id (migrationProjects s) = Some project ->
    proj_id project = id ->
    JsMap.get (proj_repositoryConnectionId project) (repositoryConnections s)
    = Some connection ->
    runDiscovery restWorld pmrepWorld connection = Async.Rejected message ->
    let s' := snd (postDiscover rt restWorld pmrepWorld id s) in
    fst (postDiscover rt restWorld pmrepWorld id s)
    = Returned (Failure 500 message)
    /\ (exists stored,
           JsMap.get id (migrationProjects s') = Some stored
           /\ proj_status stored = DISCOVERY
           /\ proj_totalObjects stored = proj_totalObjects project
           /\ proj_autoMigrationPercentage stored
              = proj_autoMigrationPercentage project)
    /\ powerCenterObjects s' = powerCenterObjects s
    /\ syncStatuses s' = syncStatuses s
    /\ intervals s' = intervals s.
Proof.
  intros rt rw pw id s project connection message Hp Hid Hc Hd s'.
  set (toDiscovery := {| upd_status := Some DISCOVERY; upd_totalObjects := None;
                         upd_autoMigrationPercentage := None |}).
  destruct (updateMigrationProject_found rt id toDiscovery s project Hp)
    as (p1 & s1 & E1 & G1 & _ & T1 & A1 & O1 & _ & S1 & I1).
  destruct (updateMigrationProject_found rt id toDiscovery s1 p1 G1)
    as (p2 & s2 & E2 & G2 & St2 & T2 & A2 & O2 & _ & S2 & I2).
  assert (Hrun : postDiscover rt rw pw id s = (Returned (Failure 500 message), s2)).
  { unfold postDiscover, tryCatch, bind, getMigrationProject,
      getRepositoryConnection, gets.
    rewrite Hp, Hc, Hid. fold toDiscovery. rewrite E1, Hd.
    cbn [awaitPromise throw]. rewrite E2. reflexivity. }
  subst s'. rewrite Hrun. cbn [fst snd]. split; [reflexivity|].
  split; [|split; [|split]].
  - exists p2. split; [assumption|]. split; [exact St2|].
    split; [now rewrite T2, T1 | now rewrite A2, A1].
  - now rewrite O2, O1.
  - now rewrite S2, S1.
  - now rewrite I2, I1.
Qed.

Lemma discover_failure_restores_discovery_status_witness :
  fst (postDiscover sampleRuntime restDown pmrepUnreachable "p-pmrep" sampleState)
  = Returned
      (Failure 500 "pmrep discovery failed: Command failed: pmrep connect").
Proof.
  apply (discover_failure_restores_discovery_status
           sampleRuntime restDown pmrepUnreachable "p-pmrep" sampleState
           (sampleProject "p-pmrep" "conn-pmrep") pmrepConnection);
    reflexivity.
Defined.

(* ================================================================== *)
(** ** The assess route *)
(* ================================================================== *)

(** On objects read back from storage the loop reports nothing. *)
Lemma stored_objects_raise_no_issue (objects : list PowerCenterObject) :
  forall acc : list string * Js.number,
    fst (List.fold_left assessObject (List.map anyOfPowerCenterObject objects) acc)
    = fst acc.
Proof.
  induction objects as [|obj rest IH]; intros [found score]; [reflexivity|].
  cbn [List.map fold_left]. now rewrite IH.
Qed.

(** X14. The assess route always answers 200, also for an identifier
    that names no project: it files one result of type COMPLEXITY for
    the whole project, with confidence 85, no recommendation at all,
    and an effort of two hours for each stored object of the project;
    the result is stored under its own identifier, and the objects, the
    projects and the sync records are left as they are. *)
Theorem assess_always_files_a_result :
  forall (rt : Runtime) (id : string) (s : State),
  exists result,
    fst (postAssess rt id s) = Returned (Json 200 result)
    /\ fst (getAssessmentResult (res_id result) (snd (postAssess rt id s)))
       = Returned (Some result)
    /\ ar_projectId (res_fields result) = id
    /\ ar_objectId (res_fields result) = "project-level"
    /\ ar_assessmentType (res_fields result) = "COMPLEXITY"
    /\ ar_confidence (res_fields result) = 85%float
    /\ ar_recommendations (res_fields result) = []
    /\ ar_estimatedEffort (res_fields result)
       = estimatedEffortOf (objectsOf id (JsMap.values (powerCenterObjects s)))
    /\ powerCenterObjects (snd (postAssess rt id s)) = powerCenterObjects s
    /\ migrationProjects (snd (postAssess rt id s)) = migrationProjects s
    /\ syncStatuses (snd (postAssess rt id s)) = syncStatuses s.
Proof.
  intros rt id s. eexists. split; [reflexivity|].
  split; [unfold getAssessmentResult, gets; cbn; now rewrite get_set_same|].
  repeat split.
  cbn. unfold assessLoop. now rewrite stored_objects_raise_no_issue.
Qed.



(* ================================================================== *)
(** ** The polling of a started sync *)
(* ================================================================== *)

(** [checkForUpdates] finds nothing and never fails: a firing of the
    timer does not reach [onUpdate]. *)
Lemma intervalFires_does_nothing rt (timer : IntervalTimer) (s : State) :
  intervalFires rt timer s = (Returned tt, s).
Proof. reflexivity. Qed.

Lemma timersFire_does_nothing rt (firings : list IntervalTimer) (s : State) :
  timersFire rt firings s = (Returned tt, s).
Proof.
  induction firings as [|timer rest IH]; [reflexivity|].
  cbn [timersFire]. unfold bind. now rewrite intervalFires_does_nothing.
Qed.

(** X16. The polling of a started sync never reports: whichever timers
    fire, and however often, the state is left as it was.  After a
    start-sync the record of the project therefore stays in status
    SYNCING with 0 items processed; it is never set to COMPLETED or
    FAILED by the polling. *)
Theorem polling_never_updates_the_sync_status :
  forall (rt : Runtime) (id : string) (s : State)
         (project : MigrationProject) (connection : RepositoryConnection)
         (firings : list IntervalTimer),
    JsMap.get id (migrationProjects s) = Some project ->
    proj_id project = id ->
    JsMap.get (proj_repositoryConnectionId project) (repositoryConnections s)
    = Some connection ->
    timersFire rt firings (snd (postStartSync rt id s))
    = (Returned tt, snd (postStartSync rt id s))
    /\ exists status,
         JsMap.get id
           (syncStatuses (snd (timersFire rt firings (snd (postStartSync rt id s)))))
         = Some status
         /\ sync_status status = SYNCING
         /\ sync_itemsProcessed status = 0%float.
Proof.
  intros rt id s project connection firings Hp Hid Hc.
  rewrite timersFire_does_nothing. split; [reflexivity|]. cbn [snd].
  set (timer := {| iv_projectId := id; iv_connection := connection;
                   iv_every := 30000; iv_clearedAfter := 24 * 60 * 60 * 1000 |}).
  destruct (updateSyncStatus_run rt id
              {| su_lastSyncTime := None; su_syncType := Some INCREMENTAL;
                 su_status := Some SYNCING; su_itemsProcessed := Some 0%float;
                 su_errors := None |}
              (withIntervals s (intervals s ++ [timer])))
    as (st & s2 & E & G & Hst & _ & Hit & _).
  assert (Hrun : snd (postStartSync rt id s) = s2).
  { unfold postStartSync, tryCatch, bind, getMigrationProject,
      getRepositoryConnection, gets.
    rewrite Hp, Hc, Hid.
    cbn [startRealTimeSync modify]. fold timer. rewrite E. reflexivity. }
  rewrite Hrun. exists st. split; [assumption|].
  split; [apply Hst | apply Hit]; reflexivity.
Qed.

Lemma polling_never_updates_the_sync_status_witness :
  exists status,
    JsMap.get "p-rest"
      (syncStatuses
         (snd (timersFire sampleRuntime (intervals syncingState ++ intervals syncingState)
                 (snd (postStartSync sampleRuntime "p-rest" sampleState)))))
    = Some status
    /\ sync_status status = SYNCING
    /\ sync_itemsProcessed status = 0%float.
Proof.
  apply (polling_never_updates_the_sync_status sampleRuntime "p-rest" sampleState
           (sampleProject "p-rest" "conn-rest") restConnection);
    reflexivity.
Defined.

(* ================================================================== *)
(** ** Deleting a project *)
(* ================================================================== *)

Lemma get_mapDelete_same {V} (key : string) (m : JsMap.t V) :
  JsMap.get key (mapDelete key m) = None.
Proof.
  unfold mapDelete. induction m as [|[k v] m IH]; cbn; [reflexivity|].
  destruct (String.eqb k key) eqn:E; cbn; [exact IH|]. now rewrite E.
Qed.

Lemma get_mapDelete_other {V} (key key' : string) (m : JsMap.t V) :
  key <> key' -> JsMap.get key' (mapDelete key m) = JsMap.get key' m.
Proof.
  intros Hne. unfold mapDelete.
  induction m as [|[k v] m IH]; cbn; [reflexivity|].
  destruct (String.eqb_spec k key) as [Heq|Hk]; cbn.
  - subst k. apply String.eqb_neq in Hne. rewrite Hne. exact IH.
  - now rewrite IH.
Qed.

(** X17. Deleting a project removes the project only: the other
    projects, the discovered objects of the deleted project, its sync
    record and its timers stay in the store.  The discover and
    start-sync routes then answer 404 for it and change nothing. *)
Theorem deleteMigrationProject_does_not_cascade :
  forall (rt : Runtime) (restWorld : Rest.World) (pmrepWorld : Pmrep.World)
         (id : string) (s : State),
    let s' := snd (deleteMigrationProject id s) in
    fst (getMigrationProject id s') = Returned None
    /\ (forall other,
           id <> other ->
           fst (getMigrationProject other s') = fst (getMigrationProject other s))
    /\ fst (getPowerCenterObjects id s') = fst (getPowerCenterObjects id s)
    /\ fst (getSyncStatus id s') = fst (getSyncStatus id s)
    /\ activeSyncTasks id s' = activeSyncTasks id s
    /\ postDiscover rt restWorld pmrepWorld id s'
       = (Returned (Failure 404 "Migration project not found"), s')
    /\ postStartSync rt id s'
       = (Returned (Failure 404 "Migration project not found"), s').
Proof.
  intros rt rw pw id s s'.
  assert (Hgone : JsMap.get id (migrationProjects s') = None)
    by apply get_mapDelete_same.
  split; [unfold getMigrationProject, gets; cbn [fst]; now rewrite Hgone|].
  split.
  { intros other Hne. unfold getMigrationProject, gets. cbn [fst]. f_equal.
    now apply get_mapDelete_other. }
  repeat split.
  - unfold postDiscover, tryCatch, bind, getMigrationProject, gets.
    now rewrite Hgone.
  - unfold postStartSync, tryCatch, bind, getMigrationProject, gets.
    now rewrite Hgone.
Qed.

(* ================================================================== *)
(** ** The sync record of a project *)
(* ================================================================== *)

(** X18. [updateSyncStatus] writes the record of one project.  When the
    project has a record with an identifier, the record keeps that
    identifier and every property that is not given; when it has none,
    the record is created with a drawn identifier and, for what is not
    given, the type INCREMENTAL, the status COMPLETED, 0 items and no
    error.  The records of the other projects are not touched. *)
Theorem updateSyncStatus_upserts_one_record :
  forall (rt : Runtime) (projectId : string) (status : SyncStatusUpdates)
         (s : State),
  exists updated,
    fst (updateSyncStatus rt projectId status s) = Returned updated
    /\ fst (getSyncStatus projectId (snd (updateSyncStatus rt projectId status s)))
       = Returned (Some updated)
    /\ (forall other,
           projectId <> other ->
           fst (getSyncStatus other (snd (updateSyncStatus rt projectId status s)))
           = fst (getSyncStatus other s))
    /\ (forall existing,
           JsMap.get projectId (syncStatuses s) = Some existing ->
           Js.truthy (sync_id existing) = true ->
           sync_id updated = sync_id existing
           /\ sync_projectId updated = sync_projectId existing
           /\ sync_lastSyncTime updated
              = orKeep (su_lastSyncTime status) (sync_lastSyncTime existing)
           /\ sync_syncType updated
              = orKeep (su_syncType status) (sync_syncType existing)
           /\ sync_status updated = orKeep (su_status status) (sync_status existing)
           /\ sync_itemsProcessed updated
              = orKeep (su_itemsProcessed status) (sync_itemsProcessed existing)
           /\ sync_errors updated = orKeep (su_errors status) (sync_errors existing))
    /\ (JsMap.get projectId (syncStatuses s) = None ->
        sync_id updated = freshId rt (draws s)
        /\ sync_projectId updated = projectId
        /\ sync_lastSyncTime updated
           = orKeep (su_lastSyncTime status) (date rt (S (draws s)))
        /\ sync_syncType updated = orKeep (su_syncType status) INCREMENTAL
        /\ sync_status updated = orKeep (su_status status) COMPLETED
        /\ sync_itemsProcessed updated = orKeep (su_itemsProcessed status) 0%float
        /\ sync_errors updated = orKeep (su_errors status) None).
Proof.
  intros rt projectId status s.
  unfold updateSyncStatus, getSyncStatus, bind, gets, syncIdOf.
  destruct (JsMap.get projectId (syncStatuses s)) as [e|] eqn:Hget;
    [destruct (Js.truthy (sync_id e)) eqn:Hid|];
    cbn; eexists; (split; [reflexivity|]);
    (split; [now rewrite get_set_same|]);
    (split; [intros other Hne; now rewrite get_set_other|]);
    split; try discriminate.
  - intros existing [= <-] _. repeat split.
  - intros existing [= <-] H. congruence.
  - intros _. repeat split.
Qed.

(* ================================================================== *)
(** ** Migration issues *)
(* ================================================================== *)

(** X19. [updateMigrationIssue] on an identifier that is not stored
    throws and leaves the map; on a stored one it stores what it
    returns under the same key and leaves the other issues.  The date
    of resolution follows one rule: an update to status FIXED always
    leaves a date (the clock's, when none is there); a date that is
    there is kept by every update that does not give one, also by an
    update that reopens the issue; and an update to another status, or
    without status, never sets one of its own. *)
Theorem updateMigrationIssue_resolution_date :
  forall (now : Z) (id : string) (updates : MigrationIssueUpdates)
         (m : JsMap.t MigrationIssue),
    (JsMap.get id m = None ->
     updateMigrationIssue now id updates m = (Threw "Migration issue not found", m))
    /\ (forall existing,
          JsMap.get id m = Some existing ->
          exists updated,
            updateMigrationIssue now id updates m
            = (Returned updated, JsMap.set id updated m)
            /\ JsMap.get id (snd (updateMigrationIssue now id updates m))
               = Some updated
            /\ (forall other,
                  id <> other ->
                  JsMap.get other (snd (updateMigrationIssue now id updates m))
                  = JsMap.get other m)
            /\ mi_status updated = orKeep (iu_status updates) (mi_status existing)
            /\ (iu_status updates = Some FIXED ->
                mi_resolvedAt updated
                = Some (match orKeep (iu_resolvedAt updates) (mi_resolvedAt existing)
                        with Some at_ => at_ | None => now end))
            /\ (iu_status updates <> Some FIXED ->
                mi_resolvedAt updated
                = orKeep (iu_resolvedAt updates) (mi_resolvedAt existing))
            /\ (forall at_,
                  iu_resolvedAt updates = None ->
                  mi_resolvedAt existing = Some at_ ->
                  mi_resolvedAt updated = Some at_)).
Proof.
  intros now id updates m. split.
  - intros Hget. unfold updateMigrationIssue. now rewrite Hget.
  - intros existing Hget. unfold updateMigrationIssue. rewrite Hget.
    eexists. split; [reflexivity|]. cbn [snd].
    split; [apply get_set_same|].
    split; [intros other Hne; now apply get_set_other|].
    cbn [mi_resolvedAt mi_status].
    destruct (iu_resolvedAt updates) as [[given|]|], (mi_resolvedAt existing) as [at0|];
      cbn [orKeep];
      destruct (iu_status updates) as [[ | | ]|]; cbn [isFixed mi_status mi_resolvedAt orKeep];
      repeat split; try reflexivity; try congruence; intros; congruence.
Qed.

(** X20. The life of an issue.  A created issue is stored without a date
    of resolution, whatever the payload gives, and is listed last among
    the issues of its project when its identifier is new to the map.
    Marking it FIXED stamps it with the clock of that update; reopening
    it afterwards sets the status OPEN and leaves the stamp. *)
Theorem issue_created_fixed_and_reopened :
  forall (id : string) (created fixed reopened : Z) (issue : InsertMigrationIssue)
         (m : JsMap.t MigrationIssue),
    JsMap.get id m = None ->
    let newIssue := fst (createMigrationIssue id created issue m) in
    let m1 := snd (createMigrationIssue id created issue m) in
    let m2 := snd (updateMigrationIssue fixed id (statusOnly (Some FIXED)) m1) in
    mi_resolvedAt newIssue = None
    /\ getMigrationIssues (ii_projectId issue) m1
       = getMigrationIssues (ii_projectId issue) m ++ [newIssue]
    /\ (forall other,
          other <> ii_projectId issue ->
          getMigrationIssues other m1 = getMigrationIssues other m)
    /\ (exists afterFix,
          fst (updateMigrationIssue fixed id (statusOnly (Some FIXED)) m1)
          = Returned afterFix
          /\ mi_status afterFix = FIXED
          /\ mi_resolvedAt afterFix = Some fixed)
    /\ (exists afterReopen,
          fst (updateMigrationIssue reopened id (statusOnly (Some OPEN)) m2)
          = Returned afterReopen
          /\ mi_status afterReopen = OPEN
          /\ mi_resolvedAt afterReopen = Some fixed).
Proof.
  intros id created fixed reopened issue m Hfresh newIssue m1 m2.
  subst newIssue m1 m2. unfold createMigrationIssue. cbn [fst snd].
  split; [reflexivity|].
  split.
  { unfold getMigrationIssues, JsMap.values. rewrite (set_absent _ _ _ Hfresh).
    rewrite map_app, filter_app. cbn. now rewrite String.eqb_refl. }
  split.
  { intros other Hne. unfold getMigrationIssues, JsMap.values.
    rewrite (set_absent _ _ _ Hfresh), map_app, filter_app. cbn.
    apply not_eq_sym, String.eqb_neq in Hne. rewrite Hne. apply app_nil_r. }
  set (m1 := JsMap.set id _ m).
  assert (E1 : updateMigrationIssue fixed id (statusOnly (Some FIXED)) m1
               = (Returned
                    {| mi_id := id;
                       mi_projectId := ii_projectId issue;
                       mi_objectId := ii_objectId issue;
                       mi_issueType := ii_issueType issue;
                       mi_severity := ii_severity issue;
                       mi_description := ii_description issue;
                       mi_suggestedFix := ii_suggestedFix issue;
                       mi_isAutoFixable := ii_isAutoFixable issue;
                       mi_status := FIXED;
                       mi_createdAt := created;
                       mi_resolvedAt := Some fixed |},
                  JsMap.set id
                    {| mi_id := id;
                       mi_projectId := ii_projectId issue;
                       mi_objectId := ii_objectId issue;
                       mi_issueType := ii_issueType issue;
                       mi_severity := ii_severity issue;
                       mi_description := ii_description issue;
                       mi_suggestedFix := ii_suggestedFix issue;
                       mi_isAutoFixable := ii_isAutoFixable issue;
                       mi_status := FIXED;
                       mi_createdAt := created;
                       mi_resolvedAt := Some fixed |} m1)).
  { unfold updateMigrationIssue, m1. rewrite get_set_same. reflexivity. }
  rewrite E1. cbn [fst snd].
  split; [eexists; split; [reflexivity|]; split; reflexivity|].
  unfold updateMigrationIssue. rewrite get_set_same. cbn [fst].
  eexists; split; [reflexivity|]; split; reflexivity.
Qed.

Lemma issue_created_fixed_and_reopened_witness :
  let m1 := snd (createMigrationIssue "issue-1" 1700000000000 sampleIssue []) in
  mi_resolvedAt (fst (createMigrationIssue "issue-1" 1700000000000 sampleIssue []))
  = None
  /\ getMigrationIssues "p-rest" m1
     = [fst (createMigrationIssue "issue-1" 1700000000000 sampleIssue [])]
  /\ fst (updateMigrationIssue 1700000100000 "issue-1" (statusOnly (Some FIXED)) m1)
     = Returned
         {| mi_id := "issue-1"; mi_projectId := "p-rest"; mi_objectId := "object-1";
            mi_issueType := "UNSUPPORTED_FUNCTION"; mi_severity := "HIGH";
            mi_description := "DECODE has no direct equivalent";
            mi_suggestedFix := None; mi_isAutoFixable := false;
            mi_status := FIXED; mi_createdAt := 1700000000000;
            mi_resolvedAt := Some 1700000100000%Z |}.
Proof.
  destruct (issue_created_fixed_and_reopened "issue-1" 1700000000000 1700000100000
              1700000200000 sampleIssue [] eq_refl)
    as (Hnone & Hlist & _ & _ & _).
  cbv zeta. split; [exact Hnone|]. split; [exact Hlist|]. reflexivity.
Defined.

(* ================================================================== *)
(** ** The dashboard statistics *)
(* ================================================================== *)

Lemma Prim2SF_nan_inv (x : Js.number) : Prim2SF x = S754_nan -> x = nan.
Proof.
  intros H. rewrite <- (FloatAxioms.SF2Prim_Prim2SF x), H. reflexivity.
Qed.

Lemma SFeqb_refl (f : spec_float) : f <> S754_nan -> SFeqb f f = true.
Proof.
  unfold SFeqb, SFcompare. destruct f as [s|s| |s m e]; intros H.
  - reflexivity.
  - now destruct s.
  - now elim H.
  - rewrite Z.compare_refl.
    assert (Hm : Pos.compare_cont Eq m m = Eq) by apply Pos.compare_refl.
    rewrite Hm. now destruct s.
Qed.

(** [Number.isNaN(x)] holds of the one [NaN] of the model only. *)
Lemma is_nan_inv (x : Js.number) : PrimFloat.is_nan x = true -> x = nan.
Proof.
  unfold PrimFloat.is_nan. rewrite FloatAxioms.eqb_spec. intros H.
  apply Prim2SF_nan_inv.
  destruct (Prim2SF x) eqn:E; try reflexivity;
    rewrite SFeqb_refl in H by discriminate; discriminate H.
Qed.

Lemma add_nan_l (y : Js.number) : PrimFloat.add nan y = nan.
Proof.
  apply Prim2SF_nan_inv. rewrite FloatAxioms.add_spec. reflexivity.
Qed.

Lemma add_nan_r (x : Js.number) : PrimFloat.add x nan = nan.
Proof.
  apply Prim2SF_nan_inv. rewrite FloatAxioms.add_spec.
  change (Prim2SF nan) with S754_nan. unfold FloatAxioms.SF64add, SFadd.
  now destruct (Prim2SF x) as [[|]|[|]| |].
Qed.

Lemma div_nan_l (y : Js.number) : PrimFloat.div nan y = nan.
Proof.
  apply Prim2SF_nan_inv. rewrite FloatAxioms.div_spec. reflexivity.
Qed.

Lemma sum_from_nan (projects : list MigrationProject) :
  List.fold_left
    (fun sum p => PrimFloat.add sum (proj_autoMigrationPercentage p)) projects nan
  = nan.
Proof.
  induction projects as [|p rest IH]; [reflexivity|].
  cbn [fold_left]. now rewrite add_nan_l.
Qed.

Lemma sum_with_nan (projects : list MigrationProject) (start : Js.number) :
  someNaN projects = true ->
  List.fold_left
    (fun sum p => PrimFloat.add sum (proj_autoMigrationPercentage p)) projects start
  = nan.
Proof.
  revert start. induction projects as [|p rest IH]; intros start; [discriminate|].
  unfold someNaN. cbn [existsb fold_left]. intros H.
  apply orb_true_iff in H. destruct H as [H|H].
  - apply is_nan_inv in H. rewrite H, add_nan_r. apply sum_from_nan.
  - now apply IH.
Qed.

Lemma dashboard_stats_run :
  forall (s : State),
  exists stats,
    getDashboardStats s = (Returned (Json 200 stats), s)
    /\ totalProjects stats = List.length (JsMap.values (migrationProjects s))
    /\ (migrationProjects s = [] -> avgAutomationCoverage stats = 0%float)
    /\ (someNaN (JsMap.values (migrationProjects s)) = true ->
        avgAutomationCoverage stats = nan).
Proof.
  intros s. eexists. split; [reflexivity|]. cbn [totalProjects avgAutomationCoverage].
  split; [reflexivity|].
  split.
  - intros H. now rewrite H.
  - intros H. unfold avgAutomationCoverageOf, sumOfPercentages.
    rewrite (sum_with_nan _ _ H), div_nan_l.
    destruct (JsMap.values (migrationProjects s)); [discriminate H|reflexivity].
Qed.

(** X21. The dashboard always answers 200 and leaves the store.  One
    stored project whose percentage is [NaN] makes the average coverage
    [NaN], however many other projects are stored and whatever their
    percentages; with no project stored the average is 0. *)
Theorem dashboard_average_carries_nan :
  forall (s : State),
  exists stats,
    getDashboardStats s = (Returned (Json 200 stats), s)
    /\ totalProjects stats = List.length (JsMap.values (migrationProjects s))
    /\ (migrationProjects s = [] -> avgAutomationCoverage stats = 0%float)
    /\ (someNaN (JsMap.values (migrationProjects s)) = true ->
        avgAutomationCoverage stats = nan).
Proof. exact dashboard_stats_run. Qed.




(* ================================================================== *)
(** ** Deleting an object *)
(* ================================================================== *)

Lemma mapDelete_absent {V} (key : string) (m : JsMap.t V) :
  JsMap.get key m = None -> mapDelete key m = m.
Proof.
  unfold mapDelete. induction m as [|[k v] m IH]; cbn; [reflexivity|].
  destruct (String.eqb k key); [discriminate|]. intros H. cbn. now rewrite IH.
Qed.

(** X23. Creating an object and deleting it again gives back the store
    of objects as it was, when the identifier drawn for it is new to
    the store; and whatever the store holds, a deleted object is no
    longer found while every other object is found as before. *)
Theorem create_then_delete_object_round_trip :
  forall (rt : Runtime) (object : InsertPowerCenterObject) (s : State),
    let created := fst (createPowerCenterObject rt object s) in
    let s1 := snd (createPowerCenterObject rt object s) in
    (forall newObject,
        created = Returned newObject ->
        fst (getPowerCenterObject (obj_id newObject) s1) = Returned (Some newObject)
        /\ fst (getPowerCenterObject (obj_id newObject)
                  (snd (deletePowerCenterObject (obj_id newObject) s1)))
           = Returned None
        /\ (forall other,
              obj_id newObject <> other ->
              fst (getPowerCenterObject other
                     (snd (deletePowerCenterObject (obj_id newObject) s1)))
              = fst (getPowerCenterObject other s))
        /\ (JsMap.get (obj_id newObject) (powerCenterObjects s) = None ->
            powerCenterObjects (snd (deletePowerCenterObject (obj_id newObject) s1))
            = powerCenterObjects s))
    /\ exists newObject, created = Returned newObject /\ obj_fields newObject = object.
Proof.
  intros rt object s created s1. subst created s1.
  split; [|eexists; split; reflexivity].
  intros newObject [= <-]. cbn [obj_id].
  unfold getPowerCenterObject, deletePowerCenterObject, gets, modify.
  cbn -[mapDelete JsMap.set JsMap.get].
  split; [now rewrite get_set_same|].
  split; [now rewrite get_mapDelete_same|].
  split.
  - intros other Hne. rewrite get_mapDelete_other by assumption.
    now rewrite get_set_other.
  - intros Hfresh. rewrite (set_absent _ _ _ Hfresh).
    rewrite <- (mapDelete_absent _ _ Hfresh) at 2.
    unfold mapDelete. rewrite filter_app. cbn [filter fst].
    rewrite String.eqb_refl. cbn [negb]. apply app_nil_r.
Qed.

(* ================================================================== *)
(** ** The connection test of the REST adapter *)
(* ================================================================== *)

Lemma append_eqb_prefix (a b c : string) :
  String.eqb (a ++ b) (a ++ c) = String.eqb b c.
Proof.
  induction a as [|x a IH]; cbn; [reflexivity|]. now rewrite Ascii.eqb_refl.
Qed.

(** X25. The REST connection test never rejects and reads the health
    endpoint only, so it does not tell how a discovery ends: refusing
    the login of an endpoint leaves the result of the test as it was,
    while the discovery is then rejected at the authentication. *)
Theorem rest_test_does_not_see_the_login :
  forall (connection : RepositoryConnection) (restWorld : Rest.World),
    (exists connected,
        testRestConnection connection restWorld
        = (Async.Fulfilled connected,
           [Async.Issued (healthRequest connection);
            Async.Settled (healthRequest connection)]))
    /\ testRestConnection connection (withLoginRefused connection restWorld)
       = testRestConnection connection restWorld
    /\ fst (Rest.discoverRepositoryViaRest connection
              (withLoginRefused connection restWorld))
       = Async.Rejected "REST API discovery failed: Authentication failed".
Proof.
  intros connection w. split; [|split].
  - unfold testRestConnection, Async.tryCatch, Async.bind, Async.await, Async.settle.
    cbn [Async.request Async.resume].
    destruct (Async.respond w (healthRequest connection)) as [message|ok body];
      cbn; eauto.
  - unfold testRestConnection, Async.tryCatch, Async.bind, Async.await, Async.settle.
    cbn [Async.request Async.resume Async.respond withLoginRefused healthRequest
           Rest.http_url].
    rewrite append_eqb_prefix. reflexivity.
  - unfold Rest.discoverRepositoryViaRest, Async.tryCatch, Async.bind, Async.await,
      Async.settle.
    cbn [Async.request Async.resume Async.respond withLoginRefused
           Rest.authenticateRest Rest.http_url].
    rewrite String.eqb_refl. reflexivity.
Qed.
